(** * Surgical-instrument fine-tuning scripts: a shallow embedding

    The development follows the two scripts of the repository:

    - [scripts/prepare_training_data.py] (phase a): [resize_image],
      [upload_image], [create_training_example], [process_images];
    - [scripts/submit_fine_tuning.py] (phase b): [validate_jsonl],
      [wait_for_file_processing], [monitor_fine_tuning_job], [main].

    Python values are modelled as they occur in the code: integers as [Z],
    binary64 floats by their correctly rounded arithmetic ([Float]), JSON
    documents as a tree ([Json]), exceptions by an error monad ([py]),
    [print] output as a list of events, the wall clock by an explicit
    reading in [Q].  Library calls (PIL, requests, the OpenAI client,
    [json.loads]) are supplied by an explicit environment. *)

From Stdlib Require Import ZArith QArith Lia Lqa Bool List String Ascii DecimalString.
From Stdlib Require Import SpecFloat.
Import ListNotations.

Local Open Scope string_scope.
Local Open Scope Z_scope.

(** ** Python exceptions and the error monad *)

Inductive exn : Type :=
| UnboundLocalError
| ZeroDivisionError
| ValueError
| OSError
| AttributeError
| TypeError
| KeyError
| HTTPError
| ConnectionError
| JSONDecodeError
| IndexError
| APIError.

Inductive py (A : Type) : Type :=
| Ok (a : A)
| Raise (e : exn).
Arguments Ok {A} a.
Arguments Raise {A} e.

Definition py_bind {A B} (m : py A) (k : A -> py B) : py B :=
  match m with
  | Ok a => k a
  | Raise e => Raise e
  end.

Declare Scope py_scope.
Delimit Scope py_scope with py.
Notation "x <- m ;; k" := (py_bind m (fun x => k))
  (at level 61, m at next level, right associativity) : py_scope.
Notation "' p <- m ;; k" := (py_bind m (fun p => k))
  (at level 61, p pattern, m at next level, right associativity) : py_scope.

(** [try: body  except Exception: return fallback]. *)
Definition try_except {A} (body : py A) (handler : exn -> A) : A :=
  match body with
  | Ok a => a
  | Raise e => handler e
  end.

(** ** binary64 arithmetic

    [max_size / width] is Python's true division of two integers and
    [height * r] a float product: both are the exact result rounded to the
    nearest binary64 value, ties to even.  A finite float is kept as
    sign, integer significand and exponent; the exponent range is not
    bounded here (image dimensions are far from it). *)

Module Float.

Record t : Type := mk { neg : bool; mant : Z; expo : Z }.

(** [n/d] rounded to the nearest integer, ties to even ([0 <= n], [0 < d]). *)
Definition rne (n d : Z) : Z :=
  let q := n / d in
  match 2 * (n mod d) ?= d with
  | Lt => q
  | Gt => q + 1
  | Eq => if Z.even q then q else q + 1
  end.

(** The numerator and denominator of [(n/d) / 2^e]. *)
Definition scale_num (n e : Z) : Z := n * 2 ^ Z.max 0 (- e).
Definition scale_den (d e : Z) : Z := d * 2 ^ Z.max 0 e.

(** The exponent [e] with [2^52 <= (n/d) / 2^e < 2^53]. *)
Definition exponent (n d : Z) : Z :=
  let e0 := Z.log2 n - Z.log2 d - 52 in
  if 2 ^ 52 * scale_den d e0 <=? scale_num n e0 then e0 else e0 - 1.

(** The positive rational [n/d] rounded to 53 significant bits. *)
Definition round (s : bool) (n d : Z) : t :=
  if n =? 0 then mk s 0 0
  else let e := exponent n d in
       mk s (rne (scale_num n e) (scale_den d e)) e.

Definition of_int (z : Z) : t := round (z <? 0) (Z.abs z) 1.

(** [a / b] on two integers, [b <> 0]. *)
Definition div_int (a b : Z) : t :=
  round (xorb (a <? 0) (b <? 0)) (Z.abs a) (Z.abs b).

Definition mul (x y : t) : t :=
  let e := expo x + expo y in
  round (xorb (neg x) (neg y))
        (mant x * mant y * 2 ^ Z.max 0 e) (2 ^ Z.max 0 (- e)).

(** [int(x)]: truncation toward zero. *)
Definition trunc (x : t) : Z :=
  let a := if 0 <=? expo x then mant x * 2 ^ expo x
           else mant x / 2 ^ (- expo x) in
  if neg x then - a else a.

End Float.

(** The same value in the Standard Library's specification of IEEE 754
    ([prec = 53], [emax = 1024] is binary64), to compare the two. *)
Definition to_spec (x : Float.t) : spec_float :=
  match Float.mant x with
  | Zpos m => S754_finite (Float.neg x) m (Float.expo x)
  | _ => S754_zero (Float.neg x)
  end.

Definition b64_of_int (z : Z) : spec_float := binary_normalize 53 1024 z 0 false.
Definition b64_div : spec_float -> spec_float -> spec_float := SFdiv 53 1024.
Definition b64_mul : spec_float -> spec_float -> spec_float := SFmul 53 1024.

(** [a / b] in Python, for integers. *)
Definition true_div (a b : Z) : py Float.t :=
  if b =? 0 then Raise ZeroDivisionError else Ok (Float.div_int a b).

(** [z * r] for an integer [z] and a float [r]: the integer is converted. *)
Definition int_mul_float (z : Z) (r : Float.t) : Float.t :=
  Float.mul (Float.of_int z) r.

(** ** JSON values and the Python operations the scripts apply to them *)

#[local] Set Warnings "-register-all".
Inductive Json : Type :=
| JNull
| JBool (b : bool)
| JNum (q : Q)
| JStr (s : string)
| JArr (items : list Json)
| JObj (fields : list (string * Json)).

(** Truth value of a Python object ([if x], [not x]). *)
Definition truthy (v : Json) : bool :=
  match v with
  | JNull => false
  | JBool b => b
  | JNum q => negb (Qnum q =? 0)
  | JStr s => negb (String.eqb s "")
  | JArr items => match items with [] => false | _ => true end
  | JObj fields => match fields with [] => false | _ => true end
  end.

Fixpoint lookup (k : string) (fields : list (string * Json)) : option Json :=
  match fields with
  | [] => None
  | (k', v) :: rest => if String.eqb k k' then Some v else lookup k rest
  end.

(** [v.get(k, default)]: only a dict has the method. *)
Definition dict_get (v : Json) (k : string) (default : Json) : py Json :=
  match v with
  | JObj fields => Ok (match lookup k fields with Some x => x | None => default end)
  | _ => Raise AttributeError
  end.

(** [v[k]] for a string key. *)
Definition subscript (v : Json) (k : string) : py Json :=
  match v with
  | JObj fields => match lookup k fields with Some x => Ok x | None => Raise KeyError end
  | _ => Raise TypeError
  end.

(** [v == s] for a string literal [s]. *)
Definition eq_str (v : Json) (s : string) : bool :=
  match v with
  | JStr s' => String.eqb s' s
  | _ => false
  end.

Fixpoint is_substring (needle hay : string) : bool :=
  if String.prefix needle hay then true
  else match hay with
       | EmptyString => false
       | String _ rest => is_substring needle rest
       end.

(** [k in v] for a string literal [k]: key of a dict, element of a list,
    substring of a string; other values are not containers. *)
Definition contains (v : Json) (k : string) : py bool :=
  match v with
  | JObj fields => Ok (match lookup k fields with Some _ => true | None => false end)
  | JArr items => Ok (existsb (fun x => eq_str x k) items)
  | JStr s => Ok (is_substring k s)
  | _ => Raise TypeError
  end.

(** ** prepare_training_data.py *)

Module Prepare.

(** *** PIL images *)

Inductive pixels : Type :=
| Decoded (path : string)
| Lanczos (src : pixels) (w h : Z).

Record Image : Type := mkImage
  { size : Z * Z;           (* (width, height) *)
    mode : string;          (* "RGB", "RGBA", "L", "P", ... *)
    content : pixels }.

(** [img.copy()]. *)
Definition Image_copy (img : Image) : Image := img.

(** [img.resize((w, h), Image.LANCZOS)]; PIL refuses a side below one pixel
    with [ValueError: height and width must be > 0]. *)
Definition Image_resize (img : Image) (sz : Z * Z) : py Image :=
  if (fst sz <? 1) || (snd sz <? 1) then Raise ValueError
  else Ok (mkImage sz (mode img) (Lanczos (content img) (fst sz) (snd sz))).

(** Reading a local variable that no executed assignment has bound. *)
Definition read_local {A} (v : option A) : py A :=
  match v with
  | Some a => Ok a
  | None => Raise UnboundLocalError
  end.

Section ResizeImage.

(** [Image.open(image_path)]: the decoded image, or the exception PIL
    raises for a missing or unreadable file. *)
Variable Image_open : string -> py Image.

Local Open Scope py_scope.

(** The [try] block of [resize_image].  The branches either bind the two
    locals [(new_width, new_height)], leave them unbound, or return the
    copy at once. *)
Definition resize_image_body (image_path : string) (max_size : Z) : py Image :=
  img <- Image_open image_path ;;
  let '(width, height) := size img in
  r <- (if width >? height then
          if width >? max_size then
            let new_width := max_size in
            q <- true_div max_size width ;;
            let new_height := Float.trunc (int_mul_float height q) in
            Ok (inl (Some new_width, Some new_height))
          else Ok (inl (None, None))
        else
          if height >? max_size then
            let new_height := max_size in
            q <- true_div max_size height ;;
            let new_width := Float.trunc (int_mul_float width q) in
            Ok (inl (Some new_width, Some new_height))
          else Ok (inr (Image_copy img))) ;;
  match r with
  | inr copy => Ok copy
  | inl (new_width, new_height) =>
      w <- read_local new_width ;;
      h <- read_local new_height ;;
      Image_resize img (w, h)
  end.

(** [resize_image]: [None] after [except Exception]. *)
Definition resize_image (image_path : string) (max_size : Z) : option Image :=
  try_except (a <- resize_image_body image_path max_size ;; Ok (Some a))
             (fun _ => None).

End ResizeImage.


Record Args : Type := mkArgs
  { photos_dir : string;
    output_file : string;
    upload_endpoint : string;
    max_workers : Z;
    resize : Z;
    api_key : option string;
    dry_run : bool }.

(** [os.path.basename]: what follows the last slash. *)
Fixpoint has_slash (s : string) : bool :=
  match s with
  | EmptyString => false
  | String c rest => Ascii.eqb c "/" || has_slash rest
  end.

Fixpoint basename (s : string) : string :=
  match s with
  | EmptyString => EmptyString
  | String c rest =>
      if has_slash rest then basename rest
      else if Ascii.eqb c "/" then rest else s
  end.

Fixpoint drop_prefix (p s : string) : option string :=
  match p, s with
  | EmptyString, _ => Some s
  | String a p', String b s' => if Ascii.eqb a b then drop_prefix p' s' else None
  | String _ _, EmptyString => None
  end.

(** A file name is held as the UTF-8 bytes of its characters.  The bytes of
    a character begin with a byte that is no continuation byte, so they
    occur in a name only where that character stands, and a search over the
    bytes finds what a search over the characters finds. *)
Definition utf8 (bytes : list nat) : string :=
  fold_right (fun b s => String (ascii_of_nat b) s) EmptyString bytes.

(** The characters [\s] matches in a [str] pattern, each as its UTF-8
    bytes: U+0009 to U+000D, U+001C to U+0020, U+0085, U+00A0, U+1680,
    U+2000 to U+200A, U+2028, U+2029, U+202F, U+205F and U+3000. *)
Definition whitespace : list string :=
  map utf8
    [ [9]; [10]; [11]; [12]; [13]; [28]; [29]; [30]; [31]; [32];
      [194; 133]; [194; 160]; [225; 154; 128];
      [226; 128; 128]; [226; 128; 129]; [226; 128; 130]; [226; 128; 131];
      [226; 128; 132]; [226; 128; 133]; [226; 128; 134]; [226; 128; 135];
      [226; 128; 136]; [226; 128; 137]; [226; 128; 138];
      [226; 128; 168]; [226; 128; 169]; [226; 128; 175];
      [226; 129; 159]; [227; 128; 128] ]%nat.

Definition is_prefix (p s : string) : bool :=
  match drop_prefix p s with Some _ => true | None => false end.

(** [s] begins with a character of [\s]. *)
Definition starts_with_space (s : string) : bool :=
  existsb (fun ws => is_prefix ws s) whitespace.

(** [re.search(lit + r"\s+", s)]: the literal followed by a whitespace
    character, anywhere. *)
Fixpoint re_search_lit_ws (lit s : string) : bool :=
  match drop_prefix lit s with
  | Some rest =>
      if starts_with_space rest then true
      else match s with String _ rest' => re_search_lit_ws lit rest' | EmptyString => false end
  | None => match s with String _ rest' => re_search_lit_ws lit rest' | EmptyString => false end
  end.

(** [CATEGORIES], in the order of the dict literal; each pattern is its
    literal part, the trailing [\s+] is in [re_search_lit_ws]. *)
Definition CATEGORIES : list (string * string) :=
  [ ("Adson brown forceps", "Adson brown");
    ("Adson smooth forceps", "Adson smooth forceps");
    ("Jacobson clamp curved", "Extra fine point Jacobson clamp curved");
    ("Hemostatic clamp curved", "Hemastatclamp curved");
    ("Jackson right angle clamp", "Jackson right angle clamp");
    ("Mosquito clamp curved", "MosquitoClampCurved") ].

Fixpoint first_category (cats : list (string * string)) (filename : string) : string :=
  match cats with
  | [] => "Unknown"
  | (category, pattern) :: rest =>
      if re_search_lit_ws pattern filename then category
      else first_category rest filename
  end.

Definition get_instrument_category (filename : string) : string :=
  first_category CATEGORIES filename.

Definition create_training_example (image_path : string) (image_url : Json) : Json :=
  let instrument_category := get_instrument_category (basename image_path) in
  JObj [("messages", JArr
    [ JObj [("role", JStr "system");
            ("content", JStr "You are a surgical instrument identification assistant. When shown an image of a surgical instrument, identify the type of instrument accurately.")];
      JObj [("role", JStr "user");
            ("content", JArr
               [ JObj [("type", JStr "text"); ("text", JStr "What is this surgical instrument?")];
                 JObj [("type", JStr "image_url"); ("image_url", JObj [("url", image_url)])] ])];
      JObj [("role", JStr "assistant");
            ("content", JStr ("This is a " ++ instrument_category ++
               ". It's used in surgical procedures for grasping, clamping, or manipulating tissues."))] ])].

(** The multipart request body: the image as JPEG bytes under its file name. *)
Inductive jpeg_bytes : Type := JPEG (img : Image).

(** [img.save(buf, format='JPEG')]: the encoder writes these modes only and
    raises [OSError] for the others (RGBA, P, LA, ...). *)
Definition jpeg_modes : list string := ["1"; "L"; "RGB"; "RGBX"; "CMYK"; "YCbCr"].

Definition Image_save_jpeg (img : Image) : py jpeg_bytes :=
  if existsb (String.eqb (mode img)) jpeg_modes then Ok (JPEG img) else Raise OSError.

Record Response : Type := mkResponse
  { status_code : Z;
    json_body : py Json (* response.json() *) }.

(** [response.raise_for_status()]. *)
Definition raise_for_status (r : Response) : py unit :=
  if (400 <=? status_code r) && (status_code r <? 600) then Raise HTTPError else Ok tt.

(** What phase (a) reads from outside: the directory, the image files, the
    upload endpoint, and how long each upload task runs in its worker. *)
Record World : Type := mkWorld
  { glob : string -> string -> list string;
    Image_open : string -> py Image;
    requests_post : string -> string * jpeg_bytes -> list (string * string) -> py Response;
    task_duration : string -> nat }.

Section Upload.

Variable w : World.
Variable args : Args.

Local Open Scope py_scope.

(** Lines 138-145: the field paths tried on the decoded response. *)
Definition extract_image_url (result : Json) : py Json :=
  image_url <- dict_get result "url" JNull ;;
  if negb (truthy image_url) then
    data <- dict_get result "data" (JObj []) ;;
    image_url <- dict_get data "url" JNull ;;
    if negb (truthy image_url) then
      image_url <- dict_get result "image_url" JNull ;;
      if negb (truthy image_url) then Raise ValueError
      else Ok image_url
    else Ok image_url
  else Ok image_url.

(** Lines 128-147, the [try] block around the request. *)
Definition post_and_extract (image_path : string) (img_byte_arr : jpeg_bytes)
    (headers : list (string * string)) : py Json :=
  response <- requests_post w (upload_endpoint args)
                (basename image_path, img_byte_arr) headers ;;
  _ <- raise_for_status response ;;
  result <- json_body response ;;
  extract_image_url result.

(** [upload_image]: [Ok None] is [return None]; [Raise] is an exception
    that leaves the function (the JPEG encoding is outside the [try]). *)
Definition upload_image (image_path : string) : py (option Json) :=
  if dry_run args then
    Ok (Some (JStr ("http://example.com/images/" ++ basename image_path)))
  else
    match resize_image (Image_open w) image_path (resize args) with
    | None => Ok None
    | Some img =>
        img_byte_arr <- Image_save_jpeg img ;;
        let headers :=
          match api_key args with
          | Some k => if negb (String.eqb k "") then [("Authorization", "Bearer " ++ k)] else []
          | None => []
          end in
        Ok (try_except (u <- post_and_extract image_path img_byte_arr headers ;; Ok (Some u))
                       (fun _ => None))
    end.

End Upload.

(** *** The worker pool *)

(** A [concurrent.futures.Future]: its identity, the instant its task
    finishes in a worker, and what [future.result()] then gives. *)
Record Future : Type := mkFuture
  { fut_id : nat;
    done_at : nat;
    outcome : py (option Json) }.

(** [ThreadPoolExecutor(max_workers=n)]. *)
Definition ThreadPoolExecutor (n : Z) : py (list nat) :=
  if n <=? 0 then Raise ValueError else Ok (repeat 0%nat (Z.to_nat n)).

(** The instant at which the next queued task starts: when the first
    worker becomes free. *)
Fixpoint earliest (free : list nat) : nat :=
  match free with
  | [] => 0%nat
  | [t] => t
  | t :: rest => Nat.min t (earliest rest)
  end.

Fixpoint occupy (start finish : nat) (free : list nat) : list nat :=
  match free with
  | [] => []
  | t :: rest => if Nat.eqb t start then finish :: rest
                 else t :: occupy start finish rest
  end.

Section Batch.

Variable w : World.
Variable args : Args.

(** The dict comprehension [{executor.submit(upload_image, str(f), args): f
    for f in image_files}]: tasks are queued in the order of [image_files]
    and taken by the workers first come first served.  The result is the
    dict with its entries in insertion order. *)
Fixpoint submit_all (free : list nat) (next_id : nat) (image_files : list string)
    : list (Future * string) :=
  match image_files with
  | [] => []
  | image_file :: rest =>
      let start := earliest free in
      let finish := (start + task_duration w image_file)%nat in
      (mkFuture next_id finish (upload_image w args image_file), image_file)
        :: submit_all (occupy start finish free) (S next_id) rest
  end.

(** One turn of [for future in future_to_image]: the main thread blocks in
    [future.result()] until the task is done, then appends or skips. *)
Definition collect (st : nat * list Json) (entry : Future * string)
    : nat * list Json :=
  let '(clock, training_examples) := st in
  let '(future, image_file) := entry in
  let clock := Nat.max clock (done_at future) in
  try_except
    (py_bind (outcome future) (fun image_url =>
       Ok (match image_url with
           | Some u =>
               if truthy u
               then (clock, (training_examples ++ [create_training_example image_file u])%list)
               else (clock, training_examples)
           | None => (clock, training_examples)
           end)))
    (fun _ => (clock, training_examples)).

Definition find_images : list string :=
  flat_map (fun ext => glob w (photos_dir args) ("**/*" ++ ext))
           [".jpg"; ".jpeg"; ".png"].

(** [process_images]: the training examples in the order in which they are
    written to the output file, one per line. *)
Definition process_images : py (list Json) :=
  let image_files := find_images in
  py_bind (ThreadPoolExecutor (max_workers args)) (fun workers =>
    let future_to_image := submit_all workers 0%nat image_files in
    let '(_, training_examples) := fold_left collect future_to_image (0%nat, []) in
    Ok training_examples).

(** The futures of the run, for statements about its schedule. *)
Definition futures_of_run : list (Future * string) :=
  submit_all (repeat 0%nat (Z.to_nat (max_workers args))) 0%nat find_images.

End Batch.

(** The record an entry of the dict contributes, if any. *)
Definition record_of (entry : Future * string) : list Json :=
  match outcome (fst entry) with
  | Ok (Some u) => if truthy u then [create_training_example (snd entry) u] else []
  | _ => []
  end.

(** Whether an upload failed: it returned [None] or raised. *)
Definition upload_failed (r : py (option Json)) : bool :=
  match r with
  | Ok (Some _) => false
  | _ => true
  end.

(** Entries by the instant their upload completed (stable insertion sort). *)
Fixpoint insert_by_time (e : Future * string) (l : list (Future * string))
    : list (Future * string) :=
  match l with
  | [] => [e]
  | x :: rest => if (done_at (fst e) <? done_at (fst x))%nat then e :: l
                 else x :: insert_by_time e rest
  end.

Definition completion_order (l : list (Future * string)) : list (Future * string) :=
  fold_left (fun acc e => insert_by_time e acc) l [].

(** The output file: [json.dumps(example) + newline] per example. *)
Definition newline : string := String (ascii_of_nat 10) EmptyString.

Definition write_jsonl (json_dumps : Json -> string) (training_examples : list Json)
    : list string :=
  map (fun example => json_dumps example ++ newline)%string training_examples.

End Prepare.

(** ** submit_fine_tuning.py *)

Module Submit.

Record Args : Type := mkArgs
  { training_file : string;
    validation_file : option string;
    model : string;
    suffix : string;
    api_key : option string;
    n_epochs : Z;
    batch_size : Z;
    learning_rate_multiplier : Q }.

(** What [client.files.retrieve] and [client.fine_tuning.jobs.retrieve] give. *)
Record FileInfo : Type := mkFileInfo
  { file_status : string;
    file_error : string }.

Record JobInfo : Type := mkJobInfo
  { job_status : string;
    fine_tuned_model : option string;
    job_error : option string;          (* [None]: absent or empty *)
    training_metrics : list (string * string) (* [[]]: absent or empty *) }.

Record JobParams : Type := mkJobParams
  { jp_training_file : string;
    jp_model : string;
    jp_suffix : string;
    jp_n_epochs : Z;
    jp_batch_size : Z;
    jp_learning_rate_multiplier : Q;
    jp_validation_file : option string }.

(** The requests sent to the training service. *)
Inductive call : Type :=
| FilesCreate (file_path purpose : string)
| FilesRetrieve (file_id : string)
| JobsCreate (params : JobParams)
| JobsRetrieve (job_id : string).

(** What phase (b) reads from outside.  [open_binary] is [open(path, "rb")]
    and [read_text] what [readlines()] gives on the file once it is open in
    text mode.  The service answers a request according to the requests
    made before it; [latency] is the time the request takes and
    [sleep_extra] the time [time.sleep] overshoots. *)
Record Service : Type := mkService
  { environ_api_key : option string;
    open_binary : string -> py unit;
    read_text : string -> py (list string);
    json_loads : string -> py Json;
    files_create : list call -> string -> string -> py string;
    files_retrieve : list call -> string -> py FileInfo;
    jobs_create : list call -> JobParams -> py string;
    jobs_retrieve : list call -> string -> py JobInfo;
    latency : list call -> Q;
    sleep_extra : list call -> Q }.

(** [with open(file_path, 'r') as f: lines = f.readlines()]: the file is
    opened, which fails as [open(file_path, "rb")] does, then decoded. *)
Definition read_lines (svc : Service) (file_path : string) : py (list string) :=
  py_bind (open_binary svc file_path) (fun _ => read_text svc file_path).

Definition show_nat (n : nat) : string := NilEmpty.string_of_uint (Nat.to_uint n).
Definition show_Z (z : Z) : string := NilZero.string_of_int (Z.to_int z).

(** The text of an exception in a message. *)
Definition show_exn (e : exn) : string :=
  match e with
  | UnboundLocalError => "UnboundLocalError"
  | ZeroDivisionError => "ZeroDivisionError"
  | ValueError => "ValueError"
  | OSError => "OSError"
  | AttributeError => "AttributeError"
  | TypeError => "TypeError"
  | KeyError => "KeyError"
  | HTTPError => "HTTPError"
  | ConnectionError => "ConnectionError"
  | JSONDecodeError => "JSONDecodeError"
  | IndexError => "IndexError"
  | APIError => "APIError"
  end.

(** *** validate_jsonl

    The body of the function prints, raises, and returns from inside its
    loops: [flow] is what a statement does next, [V] threads the printed
    lines. *)

Inductive flow (A : Type) : Type :=
| Next (a : A)
| Return (b : bool)
| Throw (e : exn).
Arguments Next {A} a.
Arguments Return {A} b.
Arguments Throw {A} e.

Definition V (A : Type) : Type := list string -> flow A * list string.

Definition v_ret {A} (a : A) : V A := fun out => (Next a, out).
Definition v_bind {A B} (m : V A) (k : A -> V B) : V B :=
  fun out => match m out with
             | (Next a, out') => k a out'
             | (Return b, out') => (Return b, out')
             | (Throw e, out') => (Throw e, out')
             end.
Definition v_print (line : string) : V unit := fun out => (Next tt, (out ++ [line])%list).
Definition v_return {A} (b : bool) : V A := fun out => (Return b, out).
Definition v_lift {A} (m : py A) : V A :=
  fun out => match m with Ok a => (Next a, out) | Raise e => (Throw e, out) end.
Definition v_try {A} (m : V A) (handler : exn -> V A) : V A :=
  fun out => match m out with
             | (Throw e, out') => handler e out'
             | r => r
             end.

Declare Scope v_scope.
Delimit Scope v_scope with v.
Notation "x <- m ;; k" := (v_bind m (fun x => k))
  (at level 61, m at next level, right associativity) : v_scope.
Notation "m ;; k" := (v_bind m (fun _ => k))
  (at level 61, right associativity) : v_scope.

(** [for msg in messages: if msg["role"] == role: found = msg; break]. *)
Fixpoint find_role (role : string) (messages : list Json) : py (option Json) :=
  match messages with
  | [] => Ok None
  | msg :: rest =>
      py_bind (subscript msg "role") (fun r =>
        if eq_str r role then Ok (Some msg) else find_role role rest)
  end.

(** [l[i]] on a list. *)
Definition list_index (l : list Json) (i : nat) : py Json :=
  match nth_error l i with
  | Some x => Ok x
  | None => Raise IndexError
  end.

Definition line_no (i : nat) : string := show_nat (i + 1).

Section Validate.

Variable svc : Service.

Local Open Scope v_scope.

(** The loop over the items of the user message, lines 110-116. *)
Fixpoint scan_content (i : nat) (content : list Json) (has_image : bool) : V bool :=
  match content with
  | [] => v_ret has_image
  | item :: rest =>
      t <- v_lift (dict_get item "type" JNull) ;;
      if eq_str t "image_url" then
        present <- v_lift (contains item "image_url") ;;
        bad <- (if negb present then v_ret true
                else inner <- v_lift (subscript item "image_url") ;;
                     has_url <- v_lift (contains inner "url") ;;
                     v_ret (negb has_url)) ;;
        if bad then
          v_print ("Error: Line " ++ line_no i ++ " has invalid image_url format") ;;
          v_return false
        else scan_content i rest true
      else scan_content i rest has_image
  end.

(** Lines 78-131, the [try] block of one line. *)
Definition check_line (i : nat) (line : string) : V unit :=
  data <- v_lift (json_loads svc line) ;;
  present <- v_lift (contains data "messages") ;;
  if negb present then
    v_print ("Error: Line " ++ line_no i ++ " is missing 'messages' field") ;;
    v_return false
  else
  messages <- v_lift (subscript data "messages") ;;
  match messages with
  | JArr msgs =>
      if (List.length msgs <? 2)%nat then
        v_print ("Error: Line " ++ line_no i ++ " should have at least 2 messages") ;;
        v_return false
      else
      first <- v_lift (list_index msgs 0) ;;
      role <- v_lift (subscript first "role") ;;
      (if negb (eq_str role "system")
       then v_print ("Warning: Line " ++ line_no i ++ " first message is not a system message")
       else v_ret tt) ;;
      user_message <- v_lift (find_role "user" msgs) ;;
      match user_message with
      | None =>
          v_print ("Error: Line " ++ line_no i ++ " is missing a user message") ;;
          v_return false
      | Some user_message =>
          if negb (truthy user_message) then
            v_print ("Error: Line " ++ line_no i ++ " is missing a user message") ;;
            v_return false
          else
          content <- v_lift (subscript user_message "content") ;;
          match content with
          | JArr items =>
              has_image <- scan_content i items false ;;
              if negb has_image then
                v_print ("Error: Line " ++ line_no i ++ " user message does not contain an image") ;;
                v_return false
              else
              assistant_msg <- v_lift (find_role "assistant" msgs) ;;
              match assistant_msg with
              | None =>
                  v_print ("Error: Line " ++ line_no i ++ " is missing an assistant message") ;;
                  v_return false
              | Some assistant_msg =>
                  if negb (truthy assistant_msg) then
                    v_print ("Error: Line " ++ line_no i ++ " is missing an assistant message") ;;
                    v_return false
                  else v_ret tt
              end
          | _ =>
              v_print ("Error: Line " ++ line_no i
                       ++ " user message content should be a list with text and image") ;;
              v_return false
          end
      end
  | _ =>
      v_print ("Error: Line " ++ line_no i ++ " should have at least 2 messages") ;;
      v_return false
  end.

(** One turn of [for i, line in enumerate(lines)] with its two handlers. *)
Definition validate_line (i : nat) (line : string) : V unit :=
  v_try (check_line i line)
    (fun e =>
       match e with
       | JSONDecodeError =>
           v_print ("Error: Line " ++ line_no i ++ " is not valid JSON") ;;
           v_return false
       | _ =>
           v_print ("Error on line " ++ line_no i ++ ": " ++ show_exn e) ;;
           v_return false
       end).

Fixpoint validate_lines (i : nat) (lines : list string) : V unit :=
  match lines with
  | [] => v_ret tt
  | line :: rest => validate_line i line ;; validate_lines (S i) rest
  end.

Definition validate_jsonl_body (file_path : string) : V unit :=
  v_print ("Validating " ++ file_path ++ "...") ;;
  v_try
    (lines <- v_lift (read_lines svc file_path) ;;
     match lines with
     | [] =>
         v_print ("Error: " ++ file_path ++ " is empty") ;;
         v_return false
     | _ =>
         validate_lines 0 lines ;;
         v_print ("Validation successful for " ++ file_path ++ " ("
                  ++ show_nat (List.length lines) ++ " examples)") ;;
         v_return true
     end)
    (fun e =>
       v_print ("Error validating " ++ file_path ++ ": " ++ show_exn e) ;;
       v_return false).

(** [validate_jsonl]: the value returned and the lines printed. *)
Definition validate_jsonl (file_path : string) (out : list string) : bool * list string :=
  match validate_jsonl_body file_path out with
  | (Return b, out') => (b, out')
  | (_, out') => (false, out')
  end.

End Validate.

(** *** The staging and monitoring loops

    A run threads the wall clock, the printed lines and the requests sent
    so far.  [sys.exit] ends the run; a loop that has used up its fuel is
    still running. *)

Record St : Type := mkSt
  { clock : Q;
    stdout : list string;
    calls : list call }.

Inductive run (A : Type) : Type :=
| Done (a : A) (s : St)
| Exited (code : Z) (s : St)
| Running.
Arguments Done {A} a s.
Arguments Exited {A} code s.
Arguments Running {A}.

Definition M (A : Type) : Type := St -> run A.

Definition m_ret {A} (a : A) : M A := fun s => Done a s.
Definition m_bind {A B} (m : M A) (k : A -> M B) : M B :=
  fun s => match m s with
           | Done a s' => k a s'
           | Exited code s' => Exited code s'
           | Running => Running
           end.

Declare Scope m_scope.
Delimit Scope m_scope with m.
Notation "x <- m ;; k" := (m_bind m (fun x => k))
  (at level 61, m at next level, right associativity) : m_scope.
Notation "m ;; k" := (m_bind m (fun _ => k))
  (at level 61, right associativity) : m_scope.

Definition print (line : string) : M unit :=
  fun s => Done tt (mkSt (clock s) (stdout s ++ [line])%list (calls s)).

Definition time_time : M Q := fun s => Done (clock s) s.

Definition sys_exit {A} (code : Z) : M A := fun s => Exited code s.

Definition show_opt (o : option string) : string :=
  match o with
  | Some x => x
  | None => "None"
  end.

Section Lifecycle.

Variable svc : Service.

Local Open Scope m_scope.

(** [time.sleep(secs)] for [0 <= secs]; Python raises [ValueError] on a
    negative length, so every statement about a pause whose length is not a
    literal carries [0 <= secs]. *)
Definition time_sleep (secs : Q) : M unit :=
  fun s => Done tt (mkSt (clock s + secs + sleep_extra svc (calls s))%Q (stdout s) (calls s)).

(** A request: answered from the requests made so far, then recorded. *)
Definition request {A} (c : call) (answer : list call -> py A) : M (py A) :=
  fun s => Done (answer (calls s))
                (mkSt (clock s + latency svc (calls s))%Q (stdout s) (calls s ++ [c])%list).

Definition run_validate (file_path : string) : M bool :=
  fun s => let '(b, out) := validate_jsonl svc file_path (stdout s) in
           Done b (mkSt (clock s) out (calls s)).

Definition upload_file (file_path : string) (purpose : string) : M (option string) :=
  print ("Uploading " ++ file_path ++ "...") ;;
  match open_binary svc file_path with
  | Raise e =>
      print ("Error uploading " ++ file_path ++ ": " ++ show_exn e) ;;
      m_ret None
  | Ok _ =>
      response <- request (FilesCreate file_path purpose)
                    (fun h => files_create svc h file_path purpose) ;;
      match response with
      | Ok file_id =>
          print ("Uploaded " ++ file_path ++ " as " ++ file_id) ;;
          m_ret (Some file_id)
      | Raise e =>
          print ("Error uploading " ++ file_path ++ ": " ++ show_exn e) ;;
          m_ret None
      end
  end.

(** The [while] loop of [wait_for_file_processing] and what follows it. *)
Fixpoint wait_loop (fuel : nat) (file_id : string) (start_time timeout : Q) : M bool :=
  match fuel with
  | O => fun _ => Running
  | S fuel' =>
      now <- time_time ;;
      if negb (Qle_bool timeout (now - start_time)) then
        file_info <- request (FilesRetrieve file_id)
                       (fun h => files_retrieve svc h file_id) ;;
        match file_info with
        | Ok file_info =>
            if String.eqb (file_status file_info) "processed" then
              print ("File " ++ file_id ++ " processed successfully") ;;
              m_ret true
            else if String.eqb (file_status file_info) "error" then
              print ("Error processing file " ++ file_id ++ ": " ++ file_error file_info) ;;
              m_ret false
            else
              print ("File status: " ++ file_status file_info ++ ". Waiting...") ;;
              time_sleep 5 ;;
              wait_loop fuel' file_id start_time timeout
        | Raise e =>
            print ("Error checking file status: " ++ show_exn e) ;;
            time_sleep 5 ;;
            wait_loop fuel' file_id start_time timeout
        end
      else
        print ("Timeout waiting for file " ++ file_id ++ " to be processed") ;;
        m_ret false
  end.

Definition wait_for_file_processing (fuel : nat) (file_id : string) (timeout : Q) : M bool :=
  print ("Waiting for file " ++ file_id ++ " to be processed...") ;;
  start_time <- time_time ;;
  wait_loop fuel file_id start_time timeout.

Definition create_fine_tuning_job (args : Args) (training_file_id : string)
    (validation_file_id : option string) : M (option string) :=
  print "Creating fine-tuning job..." ;;
  let job_params :=
    mkJobParams training_file_id (model args) (suffix args) (n_epochs args)
      (batch_size args) (learning_rate_multiplier args)
      match validation_file_id with
      | Some v => if negb (String.eqb v "") then Some v else None
      | None => None
      end in
  response <- request (JobsCreate job_params) (fun h => jobs_create svc h job_params) ;;
  match response with
  | Ok job_id =>
      print ("Created fine-tuning job " ++ job_id) ;;
      m_ret (Some job_id)
  | Raise e =>
      print ("Error creating fine-tuning job: " ++ show_exn e) ;;
      m_ret None
  end.

Fixpoint print_metrics (metrics : list (string * string)) : M unit :=
  match metrics with
  | [] => m_ret tt
  | (key, value) :: rest => print ("  " ++ key ++ ": " ++ value) ;; print_metrics rest
  end.

(** The [while True] loop of [monitor_fine_tuning_job]. *)
Fixpoint monitor_loop (fuel : nat) (job_id : string) (check_interval : Z) : M bool :=
  match fuel with
  | O => fun _ => Running
  | S fuel' =>
      job_info <- request (JobsRetrieve job_id) (fun h => jobs_retrieve svc h job_id) ;;
      match job_info with
      | Ok job_info =>
          let status := job_status job_info in
          print ("Job status: " ++ status) ;;
          if String.eqb status "succeeded" then
            print "Fine-tuning completed successfully!" ;;
            print ("Fine-tuned model: " ++ show_opt (fine_tuned_model job_info)) ;;
            m_ret true
          else if existsb (String.eqb status) ["failed"; "cancelled"] then
            print ("Fine-tuning failed with status: " ++ status) ;;
            match job_error job_info with
            | Some e => print ("Error: " ++ e)
            | None => m_ret tt
            end ;;
            m_ret false
          else
            match training_metrics job_info with
            | [] => m_ret tt
            | metrics => print "Current metrics:" ;; print_metrics metrics
            end ;;
            print ("Waiting " ++ show_Z check_interval ++ " seconds for next status check...") ;;
            time_sleep (inject_Z check_interval) ;;
            monitor_loop fuel' job_id check_interval
      | Raise e =>
          print ("Error monitoring job: " ++ show_exn e) ;;
          time_sleep (inject_Z check_interval) ;;
          monitor_loop fuel' job_id check_interval
      end
  end.

Definition monitor_fine_tuning_job (fuel : nat) (job_id : string) (check_interval : Z) : M bool :=
  print ("Monitoring fine-tuning job " ++ job_id ++ "...") ;;
  monitor_loop fuel job_id check_interval.

Definition nonempty (o : option string) : option string :=
  match o with
  | Some x => if String.eqb x "" then None else Some x
  | None => None
  end.

(** [main]; [Done] is the normal end of the script, [Exited 1] a
    [sys.exit(1)]. *)
Definition main (fuel : nat) (args : Args) : M unit :=
  let api_key :=
    match nonempty (api_key args) with
    | Some k => Some k
    | None => environ_api_key svc
    end in
  match nonempty api_key with
  | None =>
      print "Error: OpenAI API key not provided. Set the OPENAI_API_KEY environment variable or use --api-key" ;;
      sys_exit 1
  | Some _ =>
      ok <- run_validate (training_file args) ;;
      (if negb ok then print "Training file validation failed" ;; sys_exit 1 else m_ret tt) ;;
      match nonempty (validation_file args) with
      | Some v =>
          ok <- run_validate v ;;
          if negb ok then print "Validation file validation failed" ;; sys_exit 1 else m_ret tt
      | None => m_ret tt
      end ;;
      training_file_id <- upload_file (training_file args) "fine-tune" ;;
      match nonempty training_file_id with
      | None => print "Failed to upload training file" ;; sys_exit 1
      | Some training_file_id =>
          ok <- wait_for_file_processing fuel training_file_id 600 ;;
          (if negb ok then print "Training file processing failed" ;; sys_exit 1 else m_ret tt) ;;
          validation_file_id <-
            match nonempty (validation_file args) with
            | Some v =>
                validation_file_id <- upload_file v "fine-tune" ;;
                match nonempty validation_file_id with
                | None => print "Failed to upload validation file" ;; sys_exit 1
                | Some validation_file_id =>
                    ok <- wait_for_file_processing fuel validation_file_id 600 ;;
                    if negb ok then print "Validation file processing failed" ;; sys_exit 1
                    else m_ret (Some validation_file_id)
                end
            | None => m_ret None
            end ;;
          job_id <- create_fine_tuning_job args training_file_id validation_file_id ;;
          match nonempty job_id with
          | None => print "Failed to create fine-tuning job" ;; sys_exit 1
          | Some job_id =>
              _ <- monitor_fine_tuning_job fuel job_id 60 ;;
              m_ret tt
          end
      end
  end.

End Lifecycle.

End Submit.

(** * Specification-level definitions and the inputs of the scenarios *)

Import Prepare.

(** The field paths as the specification words them: a path yields the value
    found by descending through objects, and nothing if a step is missing. *)
Fixpoint field_path (v : Json) (path : list string) : option Json :=
  match path with
  | [] => Some v
  | k :: rest =>
      match v with
      | JObj fields =>
          match lookup k fields with
          | Some x => field_path x rest
          | None => None
          end
      | _ => None
      end
  end.

Definition url_paths : list (list string) := [["url"]; ["data"; "url"]; ["image_url"]].

Fixpoint first_url (paths : list (list string)) (result : Json) : option Json :=
  match paths with
  | [] => None
  | p :: rest =>
      match field_path result p with
      | Some u => if truthy u then Some u else first_url rest result
      | None => first_url rest result
      end
  end.

Definition photo_800x600 : Image := mkImage (800, 600) "RGB" (Decoded "photos/a.jpg").


(** A 2xx response whose [data] field is [null] and whose [image_url] holds
    the link. *)
Definition body_null_data : Json :=
  JObj [("data", JNull); ("image_url", JStr "https://cdn.example/a.jpg")].

Definition world_null_data : World :=
  mkWorld (fun _ _ => ["photos/a.jpg"])
          (fun _ => Ok (mkImage (600, 800) "RGB" (Decoded "photos/a.jpg")))
          (fun _ _ _ => Ok (mkResponse 200 (Ok body_null_data)))
          (fun _ => 1%nat).

Definition args_upload : Prepare.Args :=
  Prepare.mkArgs "./photos" "./training_data.jsonl" "https://upload.example/api" 5 1024 None false.

(** The records a path contributes to the corpus: one if its upload gave a
    link, none if it failed. *)
Definition records_for (w : World) (args : Prepare.Args) (image_file : string) : list Json :=
  match upload_image w args image_file with
  | Ok (Some u) => if truthy u then [create_training_example image_file u] else []
  | _ => []
  end.

(** The placeholder link of a dry run. *)
Definition placeholder (image_path : string) : Json :=
  JStr ("http://example.com/images/" ++ basename image_path).

(** The link of a training example. *)
Definition url_of (example : Json) : option Json :=
  match field_path example ["messages"] with
  | Some (JArr [_; user; _]) =>
      match field_path user ["content"] with
      | Some (JArr [_; image]) => field_path image ["image_url"; "url"]
      | _ => None
      end
  | _ => None
  end.

(** Three image paths, one of which PIL cannot decode; two workers, dry run. *)
Definition world_three : World :=
  mkWorld
    (fun _ pattern =>
       if String.eqb pattern "**/*.jpg"
       then ["photos/Adson brown 1.jpg"; "photos/broken.jpg"; "photos/MosquitoClampCurved 2.jpg"]
       else [])
    (fun path =>
       if String.eqb path "photos/broken.jpg" then Raise OSError
       else Ok (mkImage (600, 800) "RGB" (Decoded path)))
    (fun _ _ _ => Raise ConnectionError)
    (fun _ => 1%nat).

Definition args_dry_run : Prepare.Args :=
  Prepare.mkArgs "./photos" "./training_data.jsonl" "https://upload.example/api" 2 1024 None true.

(** Two image paths; the upload of the first takes longer than that of the
    second, so with two workers the second completes first. *)
Definition world_two : World :=
  mkWorld
    (fun _ pattern =>
       if String.eqb pattern "**/*.jpg" then ["photos/a.jpg"; "photos/b.jpg"] else [])
    (fun path => Ok (mkImage (600, 800) "RGB" (Decoded path)))
    (fun _ _ _ => Raise ConnectionError)
    (fun path => if String.eqb path "photos/a.jpg" then 5%nat else 1%nat).

(** Four files and a live endpoint: a portrait photo that uploads, a file
    PIL cannot decode, a small landscape photo, and a PNG with an alpha
    channel. *)
Definition world_mixed : World :=
  mkWorld
    (fun _ pattern =>
       if String.eqb pattern "**/*.jpg"
       then ["photos/ok.jpg"; "photos/broken.jpg"; "photos/wide.jpg"]
       else if String.eqb pattern "**/*.png" then ["photos/alpha.png"] else [])
    (fun path =>
       if String.eqb path "photos/broken.jpg" then Raise OSError
       else if String.eqb path "photos/wide.jpg" then Ok (mkImage (800, 600) "RGB" (Decoded path))
       else if String.eqb path "photos/alpha.png" then Ok (mkImage (600, 800) "RGBA" (Decoded path))
       else Ok (mkImage (600, 800) "RGB" (Decoded path)))
    (fun _ file _ =>
       Ok (mkResponse 200 (Ok (JObj [("url", JStr ("https://cdn.example/" ++ fst file))]))))
    (fun _ => 1%nat).

Definition args_mixed : Prepare.Args :=
  Prepare.mkArgs "./photos" "./training_data.jsonl" "https://upload.example/api" 5 1024
                 (Some "secret") false.

(** C4 as it is worded: the corpus lists the records by completion instant. *)
Definition collected_in_completion_order (w : World) (args : Prepare.Args) : Prop :=
  process_images w args
  = Ok (flat_map record_of (completion_order (futures_of_run w args))).



Definition photo_1568 : Image := mkImage (1568, 1568) "RGB" (Decoded "photos/square.jpg").

Import Submit.

(** The answer to the [k]-th status request of a loop entered after the
    requests [h]. *)
Definition job_poll (svc : Service) (h : list call) (job_id : string) (k : nat) : py JobInfo :=
  jobs_retrieve svc (h ++ repeat (JobsRetrieve job_id) k)%list job_id.

Definition is_terminal (status : string) : bool :=
  String.eqb status "succeeded" || String.eqb status "failed" || String.eqb status "cancelled".

(** A poll after which the monitor goes on: a status that is not terminal,
    or a failed query. *)
Definition keeps_polling (r : py JobInfo) : bool :=
  match r with
  | Ok info => negb (is_terminal (job_status info))
  | Raise _ => true
  end.

(** What the monitor prints at the poll that ends it. *)
Definition final_report (info : JobInfo) : list string :=
  if String.eqb (job_status info) "succeeded" then
    [ "Job status: " ++ job_status info;
      "Fine-tuning completed successfully!";
      "Fine-tuned model: " ++ show_opt (fine_tuned_model info) ]
  else
    [ "Job status: " ++ job_status info;
      "Fine-tuning failed with status: " ++ job_status info ]
    ++ match job_error info with
       | Some e => ["Error: " ++ e]
       | None => []
       end.

(** A file status query during which the stager goes on waiting: the status
    is still [pending], or the query failed. *)
Definition still_waiting (r : py FileInfo) : bool :=
  match r with
  | Ok info => String.eqb (file_status info) "pending"
  | Raise _ => true
  end.

(** The time [k] rounds of the stager's loop take when it is entered after
    the requests [h] and no answer ends the wait: a round is a status
    request and the pause of five seconds that follows it. *)
Fixpoint rounds_time (svc : Service) (h : list call) (file_id : string) (k : nat) : Q :=
  match k with
  | O => 0
  | S k' =>
      let h' := (h ++ [FilesRetrieve file_id])%list in
      latency svc h + 5 + sleep_extra svc h' + rounds_time svc h' file_id k'
  end.

Fixpoint count_job_polls (h : list call) : nat :=
  match h with
  | [] => 0%nat
  | JobsRetrieve _ :: rest => S (count_job_polls rest)
  | _ :: rest => count_job_polls rest
  end.

(** A stub training service: the corpus file is empty, a staged file stays
    [pending], and a job is [queued], then [running], then [succeeded] with
    model [m-123] on successive polls. *)
Definition stub_service : Service :=
  mkService
    (Some "sk-test")
    (fun _ => Ok tt)
    (fun _ => Ok [])
    (fun _ => Raise JSONDecodeError)
    (fun _ _ _ => Ok "file-1")
    (fun _ _ => Ok (mkFileInfo "pending" ""))
    (fun _ _ => Ok "ftjob-1")
    (fun h _ =>
       Ok (nth (count_job_polls h)
               [ mkJobInfo "queued" None None [];
                 mkJobInfo "running" None None [("step", "10")] ]
               (mkJobInfo "succeeded" (Some "m-123") None [])))
    (fun _ => 0%Q)
    (fun _ => 0%Q).

Definition initial : St := mkSt 0 [] [].

Definition args_submit : Args :=
  mkArgs "./training_data.jsonl" None "gpt-4o" "surgical-instruments" None 3 1 1.

(** Every decode fails: phase (a) ends with an empty corpus. *)
Definition world_all_fail : World :=
  mkWorld
    (fun _ pattern =>
       if String.eqb pattern "**/*.png" then ["photos/x.png"; "photos/y.png"] else [])
    (fun _ => Raise OSError)
    (fun _ _ _ => Raise ConnectionError)
    (fun _ => 1%nat).

(** *** Corpus lines *)

Definition has_role (m : Json) : Prop :=
  exists r, field_path m ["role"] = Some r.

Definition role_is (role : string) (m : Json) : Prop :=
  exists r, field_path m ["role"] = Some r /\ eq_str r role = true.

(** An item whose [type] is [image_url]. *)
Definition is_image_type (item : Json) : bool :=
  match field_path item ["type"] with
  | Some t => eq_str t "image_url"
  | None => false
  end.

(** A well-formed image item: [{"type": "image_url", "image_url": {"url": u}}]. *)
Definition image_item (item : Json) : Prop :=
  is_image_type item = true /\ exists u, field_path item ["image_url"; "url"] = Some u.

(** C10 as it is worded: a [messages] list of at least two entries with
    some user message whose content is a list holding a well-formed image
    item, and some assistant message. *)
Definition line_as_worded (data : Json) : Prop :=
  exists msgs,
    field_path data ["messages"] = Some (JArr msgs) /\
    (2 <= List.length msgs)%nat /\
    (exists m items item,
        In m msgs /\ role_is "user" m /\
        field_path m ["content"] = Some (JArr items) /\
        In item items /\ image_item item) /\
    (exists m, In m msgs /\ role_is "assistant" m).

Definition validates_as_worded : Prop :=
  forall (svc : Service) (file_path : string) (lines out : list string),
    read_lines svc file_path = Ok lines ->
    Forall (fun line => exists data, json_loads svc line = Ok data /\ line_as_worded data) lines ->
    fst (validate_jsonl svc file_path out) = true.

(** What the code accepts in an item of the user message: an object which,
    if its type is [image_url], is well formed. *)
Definition item_accepted (item : Json) : Prop :=
  (exists fields, item = JObj fields) /\
  (is_image_type item = true -> exists u, field_path item ["image_url"; "url"] = Some u).

(** A line the code accepts: every message is an object with a role; the
    first user message has a list content whose items are all accepted and
    one of which is an image item; some message is from the assistant. *)
Definition line_accepted (data : Json) : Prop :=
  exists msgs,
    field_path data ["messages"] = Some (JArr msgs) /\
    (2 <= List.length msgs)%nat /\
    Forall has_role msgs /\
    (exists before user after items,
        msgs = (before ++ user :: after)%list /\
        Forall (fun m => ~ role_is "user" m) before /\
        role_is "user" user /\
        field_path user ["content"] = Some (JArr items) /\
        Forall item_accepted items /\
        Exists (fun item => is_image_type item = true) items) /\
    Exists (role_is "assistant") msgs.

(** The warning a line earns when its first message is not a system message. *)
Definition first_role_warning (i : nat) (data : Json) : list string :=
  match field_path data ["messages"] with
  | Some (JArr (first :: _)) =>
      match field_path first ["role"] with
      | Some r =>
          if eq_str r "system" then []
          else ["Warning: Line " ++ line_no i ++ " first message is not a system message"]
      | None => []
      end
  | _ => []
  end.

Fixpoint warnings (svc : Service) (i : nat) (lines : list string) : list string :=
  match lines with
  | [] => []
  | line :: rest =>
      (match json_loads svc line with
       | Ok data => first_role_warning i data
       | Raise _ => []
       end ++ warnings svc (S i) rest)%list
  end.

Definition image_content (url : string) : Json :=
  JArr [ JObj [("type", JStr "text"); ("text", JStr "What is this surgical instrument?")];
         JObj [("type", JStr "image_url"); ("image_url", JObj [("url", JStr url)])] ].

(** A record whose first user message is plain text and whose second user
    message holds the image. *)
Definition record_two_users : Json :=
  JObj [("messages", JArr
    [ JObj [("role", JStr "user"); ("content", JStr "Look at this instrument.")];
      JObj [("role", JStr "user"); ("content", image_content "https://cdn.example/a.jpg")];
      JObj [("role", JStr "assistant"); ("content", JStr "This is a Mosquito clamp curved.")] ])].

(** A record without a system message. *)
Definition record_no_system : Json :=
  JObj [("messages", JArr
    [ JObj [("role", JStr "user"); ("content", image_content "https://cdn.example/b.jpg")];
      JObj [("role", JStr "assistant"); ("content", JStr "This is a Adson brown forceps.")] ])].

(** A service whose files hold these records, one per line. *)
Definition service_with_corpus : Service :=
  mkService
    (Some "sk-test")
    (fun _ => Ok tt)
    (fun path =>
       if String.eqb path "two_users.jsonl" then Ok ["<record two users>"]
       else if String.eqb path "no_system.jsonl" then Ok ["<record no system>"]
       else Raise OSError)
    (fun line =>
       if String.eqb line "<record two users>" then Ok record_two_users
       else if String.eqb line "<record no system>" then Ok record_no_system
       else Raise JSONDecodeError)
    (fun _ _ _ => Ok "file-1")
    (fun _ _ => Ok (mkFileInfo "processed" ""))
    (fun _ _ => Ok "ftjob-1")
    (fun _ _ => Ok (mkJobInfo "succeeded" (Some "m-123") None []))
    (fun _ => 0%Q)
    (fun _ => 0%Q).

(** * Further definitions for the properties of the remaining code *)

(** Whether a file name holds a whitespace character. *)
Fixpoint has_space (s : string) : bool :=
  match s with
  | EmptyString => false
  | String _ rest => starts_with_space s || has_space rest
  end.

(** [pattern] occurs in [filename] immediately followed by a whitespace
    character: what [re.search(pattern + r"\s+", filename)] looks for. *)
Definition occurs_before_space (pattern filename : string) : Prop :=
  exists pre ws post,
    In ws whitespace /\ filename = (pre ++ pattern ++ ws ++ post)%string.

(** The same world with other upload durations, and the same arguments with
    another pool size. *)
Definition with_durations (w : World) (durations : string -> nat) : World :=
  mkWorld (glob w) (Prepare.Image_open w) (requests_post w) durations.

Definition with_workers (args : Prepare.Args) (n : Z) : Prepare.Args :=
  Prepare.mkArgs (photos_dir args) (output_file args) (upload_endpoint args) n
                 (resize args) (Prepare.api_key args) (dry_run args).

(** The headers [upload_image] sends. *)
Definition auth_headers (args : Prepare.Args) : list (string * string) :=
  match Prepare.api_key args with
  | Some k => if negb (String.eqb k "") then [("Authorization", "Bearer " ++ k)] else []
  | None => []
  end.

(** A live endpoint that answers with a nested link, and one that refuses. *)
Definition world_nested : World :=
  mkWorld (fun _ _ => ["photos/a.jpg"])
          (fun path => Ok (mkImage (600, 800) "RGB" (Decoded path)))
          (fun _ file headers =>
             Ok (mkResponse 201
                   (Ok (JObj [("url", JStr "");
                              ("data", JObj [("url", JStr ("https://cdn.example/" ++ fst file))]);
                              ("image_url", JStr "https://other.example/x")]))))
          (fun _ => 1%nat).

Definition world_refusing : World :=
  mkWorld (fun _ _ => ["photos/a.jpg"])
          (fun path => Ok (mkImage (600, 800) "RGB" (Decoded path)))
          (fun _ _ _ =>
             Ok (mkResponse 503 (Ok (JObj [("url", JStr "https://cdn.example/a.jpg")]))))
          (fun _ => 1%nat).

(** *** What [validate_jsonl] checks on a line *)

(** The first message with a role, as the loops with [break] find it: the
    messages before it all carry a role, and another one. *)
Definition first_with_role (role : string) (msgs : list Json) (m : Json) : Prop :=
  exists before after,
    msgs = (before ++ m :: after)%list /\
    Forall (fun x => has_role x /\ ~ role_is role x) before /\
    role_is role m.

(** An item of the user message passes: it is an object and, if its type is
    [image_url], it has an [image_url] field in which ["url"] is found (a key
    of an object, an element of a list, or part of a string). *)
Definition item_checked (item : Json) : Prop :=
  exists fields,
    item = JObj fields /\
    (is_image_type item = true ->
     exists inner, lookup "image_url" fields = Some inner /\ contains inner "url" = Ok true).

Definition line_checked (data : Json) : Prop :=
  exists msgs first user items assistant,
    field_path data ["messages"] = Some (JArr msgs) /\
    (2 <= List.length msgs)%nat /\
    nth_error msgs 0 = Some first /\ has_role first /\
    first_with_role "user" msgs user /\
    field_path user ["content"] = Some (JArr items) /\
    Forall item_checked items /\
    Exists (fun item => is_image_type item = true) items /\
    first_with_role "assistant" msgs assistant.

Definition file_checked (svc : Service) (lines : list string) : Prop :=
  Forall (fun line => exists data, json_loads svc line = Ok data /\ line_checked data) lines.

(** A file whose second line is not JSON. *)
Definition service_bad_line : Service :=
  mkService
    (Some "sk-test")
    (fun _ => Ok tt)
    (fun _ => Ok ["<record no system>"; "{not json"; "<record two users>"])
    (fun line =>
       if String.eqb line "<record two users>" then Ok record_two_users
       else if String.eqb line "<record no system>" then Ok record_no_system
       else Raise JSONDecodeError)
    (fun _ _ _ => Ok "file-1")
    (fun _ _ => Ok (mkFileInfo "processed" ""))
    (fun _ _ => Ok "ftjob-1")
    (fun _ _ => Ok (mkJobInfo "succeeded" (Some "m-123") None []))
    (fun _ => 0%Q)
    (fun _ => 0%Q).

(** The corpus of the dry run over [world_three], a serialisation that is
    one-to-one on it, and a service that reads the written file back. *)
Definition corpus_three : list Json :=
  map (fun f => create_training_example f (placeholder f))
      ["photos/Adson brown 1.jpg"; "photos/broken.jpg"; "photos/MosquitoClampCurved 2.jpg"].

Definition dumps_by_url (example : Json) : string :=
  match url_of example with
  | Some (JStr s) => s
  | _ => "?"
  end.

Definition service_round_trip : Service :=
  mkService
    (Some "sk-test")
    (fun _ => Ok tt)
    (fun _ => Ok (write_jsonl dumps_by_url corpus_three))
    (fun line =>
       match find (fun e => String.eqb (dumps_by_url e ++ newline) line) corpus_three with
       | Some e => Ok e
       | None => Raise JSONDecodeError
       end)
    (fun _ _ _ => Ok "file-1")
    (fun _ _ => Ok (mkFileInfo "processed" ""))
    (fun _ _ => Ok "ftjob-1")
    (fun _ _ => Ok (mkJobInfo "succeeded" (Some "m-123") None []))
    (fun _ => 0%Q)
    (fun _ => 0%Q).

(** *** Staging and the run of [main] *)

(** The answer to the [k]-th status query of a wait entered after the
    requests [h]. *)
Definition file_poll (svc : Service) (h : list call) (file_id : string) (k : nat)
    : py FileInfo :=
  files_retrieve svc (h ++ repeat (FilesRetrieve file_id) k)%list file_id.

(** A status query after which the stager goes on: any status other than
    [processed] and [error], or a failed query. *)
Definition keeps_waiting (r : py FileInfo) : bool :=
  match r with
  | Ok info => negb (String.eqb (file_status info) "processed")
               && negb (String.eqb (file_status info) "error")
  | Raise _ => true
  end.

(** The parameters [create_fine_tuning_job] sends without a validation file. *)
Definition job_params (args : Args) (training_file_id : string) : JobParams :=
  mkJobParams training_file_id (model args) (suffix args) (n_epochs args)
              (batch_size args) (learning_rate_multiplier args) None.

(** A service whose file is ready at the second query and whose job fails;
    one that rejects the upload. *)
Definition service_failing_job : Service :=
  mkService
    None
    (fun _ => Ok tt)
    (fun _ => Ok ["<record no system>"])
    (fun line =>
       if String.eqb line "<record no system>" then Ok record_no_system
       else Raise JSONDecodeError)
    (fun _ _ _ => Ok "file-1")
    (fun h _ => match h with
                | [_] => Raise APIError
                | _ => Ok (mkFileInfo "processed" "")
                end)
    (fun _ _ => Ok "ftjob-1")
    (fun _ _ => Ok (mkJobInfo "failed" None (Some "invalid training file") []))
    (fun _ => 1%Q)
    (fun _ => 0%Q).

Definition service_rejecting_upload : Service :=
  mkService
    None
    (fun _ => Ok tt)
    (fun _ => Ok ["<record no system>"])
    (fun line =>
       if String.eqb line "<record no system>" then Ok record_no_system
       else Raise JSONDecodeError)
    (fun _ _ _ => Raise APIError)
    (fun _ _ => Ok (mkFileInfo "processed" ""))
    (fun _ _ => Ok "ftjob-1")
    (fun _ _ => Ok (mkJobInfo "succeeded" (Some "m-123") None []))
    (fun _ => 0%Q)
    (fun _ => 0%Q).

Definition args_with_key : Args :=
  mkArgs "no_system.jsonl" None "gpt-4o" "surgical-instruments" (Some "sk-live") 3 1 1.

Definition args_with_validation : Args :=
  mkArgs "no_system.jsonl" (Some "two_users.jsonl") "gpt-4o" "surgical-instruments"
         (Some "sk-live") 3 1 1.

(** A service whose job runs at the first poll and is cancelled at the second. *)
Definition service_cancelled_job : Service :=
  mkService
    None
    (fun _ => Ok tt)
    (fun _ => Ok ["<record no system>"])
    (fun line =>
       if String.eqb line "<record no system>" then Ok record_no_system
       else Raise JSONDecodeError)
    (fun _ _ _ => Ok "file-1")
    (fun _ _ => Ok (mkFileInfo "processed" ""))
    (fun _ _ => Ok "ftjob-1")
    (fun h _ =>
       Ok (nth (count_job_polls h)
               [ mkJobInfo "running" None None [] ]
               (mkJobInfo "cancelled" None None [])))
    (fun _ => 0%Q)
    (fun _ => 0%Q).

(** No statement of the validation returns [True] from inside the loop. *)
Definition no_true {A} (m : V A) : Prop :=
  forall out b o, m out = (Return b, o) -> b = false.

(** * Properties of phase (a) *)


(** ** Image Transform *)

(** The sibling branch: a portrait or square image within the bound comes
    back as the copy. *)
Lemma resize_image_portrait_within_bound (open : string -> py Image)
    (path : string) (img : Image) (max_size : Z) :
  open path = Ok img ->
  fst (size img) <= snd (size img) ->
  snd (size img) <= max_size ->
  resize_image open path max_size = Some img.
Proof.
  intros Hopen Hwh Hmax.
  unfold resize_image, resize_image_body. rewrite Hopen. cbn [py_bind].
  destruct (size img) as [width height]. cbn [fst snd] in *.
  assert (Hgt : (width >? height) = false) by lia.
  assert (Hgt' : (height >? max_size) = false) by lia.
  rewrite Hgt, Hgt'. reflexivity.
Qed.

(** C1, as the code behaves: a landscape image whose longer side is within
    the bound does not take the fast path.  No branch binds [new_width], the
    read of it in the final [resize] call raises, and [resize_image] gives
    [None] where the specification promises the unmodified copy. *)
Theorem resize_image_landscape_within_bound (open : string -> py Image)
    (path : string) (img : Image) (max_size : Z) :
  open path = Ok img ->
  snd (size img) < fst (size img) ->
  fst (size img) <= max_size ->
  resize_image_body open path max_size = Raise UnboundLocalError /\
  resize_image open path max_size = None.
Proof.
  intros Hopen Hwh Hmax.
  unfold resize_image, resize_image_body. rewrite Hopen. cbn [py_bind].
  destruct (size img) as [width height]. cbn [fst snd] in *.
  assert (Hgt : (width >? height) = true) by lia.
  assert (Hgt' : (width >? max_size) = false) by lia.
  rewrite Hgt, Hgt'. split; reflexivity.
Qed.

Lemma resize_image_landscape_within_bound_witness :
  resize_image_body (fun _ => Ok photo_800x600) "photos/a.jpg" 1024 = Raise UnboundLocalError /\
  resize_image (fun _ => Ok photo_800x600) "photos/a.jpg" 1024 = None.
Proof.
  apply (resize_image_landscape_within_bound (fun _ => Ok photo_800x600)
           "photos/a.jpg" photo_800x600 1024).
  - reflexivity.
  - simpl; lia.
  - simpl; lia.
Defined.

(** ** Upload Worker: the response field paths *)

(** Where [data] is absent or an object the code tries the three paths in
    order and fails only when none yields. *)
Lemma extract_image_url_paths (fields : list (string * Json)) :
  (lookup "data" fields = None \/ exists d, lookup "data" fields = Some (JObj d)) ->
  extract_image_url (JObj fields) =
  match first_url url_paths (JObj fields) with
  | Some u => Ok u
  | None => Raise ValueError
  end.
Proof.
  intros Hdata. unfold extract_image_url, url_paths.
  cbn [first_url field_path dict_get py_bind].
  destruct (lookup "url" fields) as [u|] eqn:Hu.
  - destruct (truthy u) eqn:Tu; cbn [negb]; [reflexivity|].
    destruct Hdata as [Hd | [d Hd]]; rewrite Hd; cbn [dict_get py_bind lookup truthy negb].
    + destruct (lookup "image_url" fields) as [i|]; [destruct (truthy i)|]; reflexivity.
    + destruct (lookup "url" d) as [du|]; [destruct (truthy du)|]; cbn [negb truthy];
        try reflexivity;
        (destruct (lookup "image_url" fields) as [i|]; [destruct (truthy i)|]; reflexivity).
  - cbn [truthy negb].
    destruct Hdata as [Hd | [d Hd]]; rewrite Hd; cbn [dict_get py_bind lookup truthy negb].
    + destruct (lookup "image_url" fields) as [i|]; [destruct (truthy i)|]; reflexivity.
    + destruct (lookup "url" d) as [du|]; [destruct (truthy du)|]; cbn [negb truthy];
        try reflexivity;
        (destruct (lookup "image_url" fields) as [i|]; [destruct (truthy i)|]; reflexivity).
Qed.

(** C8, as the code behaves: on this body the third path yields a URL, but
    the second step calls [.get] on [None]; the [AttributeError] is caught by
    the handler of the request and the worker reports a failure without
    having tried [image_url]. *)
Theorem extract_image_url_null_data :
  first_url url_paths body_null_data = Some (JStr "https://cdn.example/a.jpg") /\
  extract_image_url body_null_data = Raise AttributeError /\
  upload_image world_null_data args_upload "photos/a.jpg" = Ok None.
Proof. repeat split; reflexivity. Qed.

(** ** Concurrent Batch Pipeline *)

Lemma collect_fold (entries : list (Future * string)) :
  forall clock acc,
    snd (fold_left collect entries (clock, acc)) = (acc ++ flat_map record_of entries)%list.
Proof.
  induction entries as [|[future image_file] rest IH]; intros clock acc.
  - cbn. now rewrite app_nil_r.
  - cbn [fold_left flat_map]. unfold collect at 2, record_of at 1. cbn [fst snd].
    destruct (outcome future) as [[u|]|e]; cbn [try_except py_bind].
    + destruct (truthy u); rewrite IH; [now rewrite <- app_assoc | reflexivity].
    + now rewrite IH.
    + now rewrite IH.
Qed.

Lemma submit_all_records (w : World) (args : Prepare.Args) (image_files : list string) :
  forall free next_id,
    flat_map record_of (submit_all w args free next_id image_files)
    = flat_map (records_for w args) image_files.
Proof.
  induction image_files as [|f rest IH]; intros free next_id; [reflexivity|].
  cbn [submit_all flat_map]. rewrite IH. reflexivity.
Qed.

Lemma submit_all_files (w : World) (args : Prepare.Args) (image_files : list string) :
  forall free next_id,
    map snd (submit_all w args free next_id image_files) = image_files.
Proof.
  induction image_files as [|f rest IH]; intros free next_id; [reflexivity|].
  cbn [submit_all map snd]. now rewrite IH.
Qed.

Lemma process_images_records (w : World) (args : Prepare.Args) :
  0 < max_workers args ->
  process_images w args = Ok (flat_map (records_for w args) (find_images w args)).
Proof.
  intros Hworkers. unfold process_images, ThreadPoolExecutor.
  assert (Hle : (max_workers args <=? 0) = false) by lia.
  rewrite Hle. cbn [py_bind].
  pose proof (collect_fold
                (submit_all w args (repeat 0%nat (Z.to_nat (max_workers args))) 0%nat
                            (find_images w args)) 0%nat []) as Hfold.
  destruct (fold_left collect _ _) as [clock examples].
  cbn [snd app] in Hfold. now rewrite Hfold, submit_all_records.
Qed.

Lemma extract_image_url_truthy (result u : Json) :
  extract_image_url result = Ok u -> truthy u = true.
Proof.
  unfold extract_image_url.
  destruct (dict_get result "url" JNull) as [a|]; cbn [py_bind]; [|discriminate].
  destruct (truthy a) eqn:Ta; cbn [negb]; [intros [= <-]; exact Ta|].
  destruct (dict_get result "data" (JObj [])) as [d|]; cbn [py_bind]; [|discriminate].
  destruct (dict_get d "url" JNull) as [b|]; cbn [py_bind]; [|discriminate].
  destruct (truthy b) eqn:Tb; cbn [negb]; [intros [= <-]; exact Tb|].
  destruct (dict_get result "image_url" JNull) as [c|]; cbn [py_bind]; [|discriminate].
  destruct (truthy c) eqn:Tc; cbn [negb]; [intros [= <-]; exact Tc|discriminate].
Qed.

Lemma upload_image_truthy (w : World) (args : Prepare.Args) (image_path : string) (u : Json) :
  upload_image w args image_path = Ok (Some u) -> truthy u = true.
Proof.
  unfold upload_image.
  destruct (dry_run args); [intros [= <-]; reflexivity|].
  destruct (resize_image _ _ _) as [img|]; [|discriminate].
  destruct (Image_save_jpeg img) as [bytes|]; cbn [py_bind]; [|discriminate].
  unfold post_and_extract.
  destruct (requests_post _ _ _ _) as [response|]; cbn [py_bind try_except]; [|discriminate].
  destruct (raise_for_status response); cbn [py_bind try_except]; [|discriminate].
  destruct (json_body response) as [result|]; cbn [py_bind try_except]; [|discriminate].
  destruct (extract_image_url result) as [v|] eqn:Hv; cbn [py_bind try_except]; [|discriminate].
  intros [= <-]. eapply extract_image_url_truthy; eassumption.
Qed.

Lemma records_for_length (w : World) (args : Prepare.Args) (image_files : list string) :
  (List.length (flat_map (records_for w args) image_files)
   + List.length (filter (fun f => upload_failed (upload_image w args f)) image_files)
   = List.length image_files)%nat.
Proof.
  induction image_files as [|f rest IH]; [reflexivity|].
  cbn [flat_map filter]. rewrite length_app. unfold records_for at 1.
  destruct (upload_image w args f) as [[u|]|e] eqn:Hup; cbn [upload_failed].
  - rewrite (upload_image_truthy _ _ _ _ Hup). cbn [List.length]. lia.
  - cbn [List.length]. lia.
  - cbn [List.length]. lia.
Qed.

(** C3: a batch over N paths of which K uploads fail (return [None] or
    raise) ends normally with exactly N-K records; when all fail the corpus
    is empty.  The pool needs at least one worker to exist. *)
Theorem process_images_drops_failures (w : World) (args : Prepare.Args) :
  0 < max_workers args ->
  let N := List.length (find_images w args) in
  let K := List.length (filter (fun f => upload_failed (upload_image w args f))
                               (find_images w args)) in
  (K <= N)%nat /\
  exists corpus,
    process_images w args = Ok corpus /\
    List.length corpus = (N - K)%nat /\
    (K = N -> corpus = []).
Proof.
  intros Hworkers N K.
  pose proof (records_for_length w args (find_images w args)) as Hlen.
  fold N K in Hlen. split; [lia|].
  exists (flat_map (records_for w args) (find_images w args)).
  split; [now apply process_images_records|].
  split; [lia|].
  intros HK. apply length_zero_iff_nil. lia.
Qed.

Lemma process_images_drops_failures_witness :
  0 < max_workers args_mixed /\
  exists corpus,
    process_images world_mixed args_mixed = Ok corpus /\
    List.length (find_images world_mixed args_mixed) = 4%nat /\
    List.length corpus = 1%nat.
Proof.
  split; [reflexivity|].
  destruct (process_images_drops_failures world_mixed args_mixed) as [_ [corpus [H1 [H2 _]]]];
    [reflexivity|].
  exists corpus. split; [exact H1|]. split; [reflexivity|exact H2].
Defined.

Lemma url_of_example (image_path : string) (u : Json) :
  url_of (create_training_example image_path u) = Some u.
Proof. reflexivity. Qed.

Lemma records_for_dry_run (w : World) (args : Prepare.Args) (image_files : list string) :
  dry_run args = true ->
  flat_map (records_for w args) image_files
  = map (fun f => create_training_example f (placeholder f)) image_files.
Proof.
  intros Hdry. induction image_files as [|f rest IH]; [reflexivity|].
  cbn [flat_map map]. rewrite IH. unfold records_for at 1, upload_image.
  rewrite Hdry. reflexivity.
Qed.

(** C2, amended: in a dry run every path gives a record, whether or not its
    image can be decoded, since the placeholder link is returned before the
    image is opened; each record holds the link made from its file name. *)
Theorem process_images_dry_run (w : World) (args : Prepare.Args) :
  dry_run args = true ->
  0 < max_workers args ->
  exists corpus,
    process_images w args = Ok corpus /\
    List.length corpus = List.length (find_images w args) /\
    map url_of corpus = map (fun f => Some (placeholder f)) (find_images w args).
Proof.
  intros Hdry Hworkers.
  exists (map (fun f => create_training_example f (placeholder f)) (find_images w args)).
  split; [|split].
  - rewrite process_images_records by assumption. now rewrite records_for_dry_run.
  - now rewrite length_map.
  - rewrite map_map. apply map_ext. intros f. apply url_of_example.
Qed.

Lemma process_images_dry_run_witness :
  resize_image (Image_open world_three) "photos/broken.jpg" (resize args_dry_run) = None /\
  exists corpus,
    process_images world_three args_dry_run = Ok corpus /\
    List.length corpus = 3%nat /\
    map url_of corpus =
      [ Some (JStr "http://example.com/images/Adson brown 1.jpg");
        Some (JStr "http://example.com/images/broken.jpg");
        Some (JStr "http://example.com/images/MosquitoClampCurved 2.jpg") ].
Proof.
  split; [reflexivity|].
  destruct (process_images_dry_run world_three args_dry_run) as [corpus [H1 [H2 H3]]];
    [reflexivity|reflexivity|].
  exists corpus. split; [exact H1|]. split; [exact H2|exact H3].
Defined.

(** C2 as worded fails: with three paths, one of them undecodable, and two
    workers, the dry run does not give a corpus of two records. *)
Lemma dry_run_three_paths_not_two_records :
  resize_image (Image_open world_three) "photos/broken.jpg" (resize args_dry_run) = None /\
  List.length (find_images world_three args_dry_run) = 3%nat /\
  ~ (exists corpus,
       process_images world_three args_dry_run = Ok corpus /\ List.length corpus = 2%nat).
Proof.
  split; [reflexivity|]. split; [reflexivity|].
  intros [corpus [H1 H2]].
  rewrite process_images_records in H1 by reflexivity.
  injection H1 as <-. vm_compute in H2. discriminate H2.
Qed.

(** C4, amended: the corpus follows the entries of [future_to_image] in
    their insertion order, which is the order of the input paths, whatever
    the instants at which the uploads complete. *)
Theorem process_images_submission_order (w : World) (args : Prepare.Args) :
  0 < max_workers args ->
  process_images w args = Ok (flat_map record_of (futures_of_run w args)) /\
  map snd (futures_of_run w args) = find_images w args.
Proof.
  intros Hworkers. unfold futures_of_run. split.
  - rewrite submit_all_records. now apply process_images_records.
  - apply submit_all_files.
Qed.

Lemma process_images_submission_order_witness :
  0 < max_workers args_dry_run /\
  process_images world_two args_dry_run
  = Ok (flat_map record_of (futures_of_run world_two args_dry_run)) /\
  map snd (futures_of_run world_two args_dry_run) = ["photos/a.jpg"; "photos/b.jpg"].
Proof.
  split; [reflexivity|].
  apply (process_images_submission_order world_two args_dry_run). reflexivity.
Defined.

(** C4 as worded fails: the second upload completes first, and the corpus
    still lists the first path's record first. *)
Lemma not_collected_in_completion_order :
  map (fun e => (snd e, done_at (fst e))) (completion_order (futures_of_run world_two args_dry_run))
    = [("photos/b.jpg", 1%nat); ("photos/a.jpg", 5%nat)] /\
  ~ collected_in_completion_order world_two args_dry_run.
Proof.
  split; [reflexivity|].
  unfold collected_in_completion_order. vm_compute. discriminate.
Qed.

(** * Properties of phase (b) *)

(** ** Corpus validation *)

Lemma validate_jsonl_empty (svc : Service) (file_path : string) (out : list string) :
  read_lines svc file_path = Ok [] ->
  validate_jsonl svc file_path out
  = (false, (out ++ [("Validating " ++ file_path ++ "...")%string;
                     ("Error: " ++ file_path ++ " is empty")%string])%list).
Proof.
  intros Hread.
  unfold validate_jsonl, validate_jsonl_body, v_bind, v_try, v_lift, v_print, v_return.
  rewrite Hread. now rewrite <- app_assoc.
Qed.

Lemma main_rejects_empty (svc : Service) (fuel : nat) (args : Args) (s : St) :
  read_lines svc (training_file args) = Ok [] ->
  exists s', main svc fuel args s = Exited 1 s' /\ calls s' = calls s.
Proof.
  intros Hread. unfold main.
  destruct (nonempty match nonempty (api_key args) with
                     | Some k => Some k
                     | None => environ_api_key svc
                     end) as [key|].
  - unfold m_bind at 1, run_validate. rewrite (validate_jsonl_empty _ _ _ Hread).
    cbn. eexists. split; reflexivity.
  - cbn. eexists. split; reflexivity.
Qed.

Lemma records_for_all_failed (w : World) (pargs : Prepare.Args) (image_files : list string) :
  (forall f, In f image_files -> upload_failed (upload_image w pargs f) = true) ->
  flat_map (records_for w pargs) image_files = [].
Proof.
  induction image_files as [|f rest IH]; intros Hall; [reflexivity|].
  cbn [flat_map]. rewrite IH by (intros g Hg; apply Hall; now right).
  specialize (Hall f (or_introl eq_refl)). unfold records_for.
  destruct (upload_image w pargs f) as [[u|]|e]; [discriminate|reflexivity|reflexivity].
Qed.

(** C9: when every upload of phase (a) fails, the batch ends normally with an
    empty corpus and writes a file of zero lines; [validate_jsonl] returns
    [False] on that file, and [main] of phase (b) leaves with status 1
    without having sent a request. *)
Theorem empty_corpus_rejected (w : World) (pargs : Prepare.Args) (json_dumps : Json -> string)
    (svc : Service) (args : Args) (fuel : nat) (s : St) :
  0 < max_workers pargs ->
  (forall f, In f (find_images w pargs) -> upload_failed (upload_image w pargs f) = true) ->
  (forall corpus, process_images w pargs = Ok corpus ->
                  read_lines svc (training_file args) = Ok (write_jsonl json_dumps corpus)) ->
  process_images w pargs = Ok [] /\
  read_lines svc (training_file args) = Ok [] /\
  fst (validate_jsonl svc (training_file args) (stdout s)) = false /\
  exists s', main svc fuel args s = Exited 1 s' /\ calls s' = calls s.
Proof.
  intros Hworkers Hfail Hfile.
  assert (Hempty : process_images w pargs = Ok []).
  { rewrite process_images_records by assumption. now rewrite records_for_all_failed. }
  pose proof (Hfile _ Hempty) as Hread. cbn [write_jsonl map] in Hread.
  repeat split; try assumption.
  - now rewrite (validate_jsonl_empty _ _ _ Hread).
  - now apply main_rejects_empty.
Qed.

Lemma empty_corpus_rejected_witness :
  process_images world_all_fail args_mixed = Ok [] /\
  fst (validate_jsonl stub_service "./training_data.jsonl" []) = false /\
  exists s', main stub_service 0 args_submit initial = Exited 1 s' /\ calls s' = [].
Proof.
  destruct (empty_corpus_rejected world_all_fail args_mixed (fun _ => "{}") stub_service
              args_submit 0 initial) as [H1 [_ [H2 H3]]].
  - reflexivity.
  - intros f Hf. vm_compute in Hf.
    destruct Hf as [<-|[<-|[]]]; reflexivity.
  - intros corpus Hc. vm_compute in Hc. injection Hc as <-. reflexivity.
  - split; [exact H1|]. split; [exact H2|exact H3].
Defined.

(** ** Job Lifecycle Controller *)

Lemma print_metrics_state (metrics : list (string * string)) :
  forall s, exists out,
    print_metrics metrics s = Done tt (mkSt (clock s) (stdout s ++ out)%list (calls s)).
Proof.
  induction metrics as [|[key value] rest IH]; intros s.
  - exists []. cbn. rewrite app_nil_r. now destruct s.
  - cbn [print_metrics]. unfold m_bind, print.
    destruct (IH (mkSt (clock s) (stdout s ++ [("  " ++ key ++ ": " ++ value)%string])%list
                       (calls s))) as [out Hout].
    rewrite Hout. cbn [clock stdout calls]. eexists. now rewrite <- app_assoc.
Qed.

(** A poll that does not end the monitor: one more request, then the loop
    again. *)
Lemma monitor_loop_step (svc : Service) (fuel : nat) (job_id : string) (check_interval : Z)
    (s : St) :
  keeps_polling (jobs_retrieve svc (calls s) job_id) = true ->
  exists s1,
    monitor_loop svc (S fuel) job_id check_interval s
      = monitor_loop svc fuel job_id check_interval s1 /\
    calls s1 = (calls s ++ [JobsRetrieve job_id])%list /\
    exists out, stdout s1 = (stdout s ++ out)%list.
Proof.
  intros Hkeep. cbn [monitor_loop]. unfold m_bind at 1, request.
  destruct (jobs_retrieve svc (calls s) job_id) as [info|e]; cbn [keeps_polling] in Hkeep.
  - unfold is_terminal in Hkeep. apply negb_true_iff in Hkeep.
    apply orb_false_iff in Hkeep as [Hkeep Hc]. apply orb_false_iff in Hkeep as [Hs Hf].
    unfold m_bind at 1, print at 1. rewrite Hs. cbn [existsb]. rewrite Hf, Hc. cbn [orb].
    unfold m_bind at 1. cbn [clock stdout calls].
    destruct (training_metrics info) as [|kv rest] eqn:Hm.
    + unfold m_ret, m_bind, print, time_sleep. cbn [clock stdout calls].
      eexists. split; [reflexivity|]. cbn [clock stdout calls]. split; [reflexivity|].
      eexists. rewrite <- ?app_assoc. reflexivity.
    + unfold m_bind at 1, print at 1. cbn [clock stdout calls].
      match goal with |- context [print_metrics ?m ?st] =>
        destruct (print_metrics_state m st) as [out Hout]; rewrite Hout end.
      unfold m_bind, print, time_sleep. cbn [clock stdout calls].
      eexists. split; [reflexivity|]. cbn [clock stdout calls]. split; [reflexivity|].
      eexists. rewrite <- ?app_assoc. reflexivity.
  - unfold m_bind, print, time_sleep. cbn [clock stdout calls].
    eexists. split; [reflexivity|]. cbn [clock stdout calls]. split; [reflexivity|].
    eexists. rewrite <- ?app_assoc. reflexivity.
Qed.

Lemma job_poll_shift (svc : Service) (h : list call) (job_id : string) (k : nat) :
  job_poll svc (h ++ [JobsRetrieve job_id]) job_id k = job_poll svc h job_id (S k).
Proof. unfold job_poll. now rewrite <- app_assoc. Qed.

Lemma monitor_loop_terminal (svc : Service) (job_id : string) (check_interval : Z)
    (info : JobInfo) :
  is_terminal (job_status info) = true ->
  forall n s fuel,
    (forall k, (k < n)%nat -> keeps_polling (job_poll svc (calls s) job_id k) = true) ->
    job_poll svc (calls s) job_id n = Ok info ->
    (n < fuel)%nat ->
    exists s',
      monitor_loop svc fuel job_id check_interval s
        = Done (String.eqb (job_status info) "succeeded") s' /\
      calls s' = (calls s ++ repeat (JobsRetrieve job_id) (S n))%list /\
      exists pre, stdout s' = (pre ++ final_report info)%list.
Proof.
  intros Hterm. induction n as [|n IH]; intros s fuel Hbefore Hpoll Hfuel;
    (destruct fuel as [|fuel]; [lia|]).
  - unfold job_poll in Hpoll. cbn [repeat] in Hpoll. rewrite app_nil_r in Hpoll.
    cbn [monitor_loop]. unfold m_bind at 1, request. rewrite Hpoll.
    unfold final_report. unfold is_terminal in Hterm.
    destruct (String.eqb (job_status info) "succeeded") eqn:Hs.
    + unfold m_bind, print, m_ret. cbn [clock stdout calls].
      eexists. split; [reflexivity|]. cbn [clock stdout calls]. split; [reflexivity|].
      exists (stdout s). rewrite <- ?app_assoc. reflexivity.
    + cbn [orb] in Hterm. cbn [existsb]. rewrite orb_false_r, Hterm.
      unfold m_bind at 1, print at 1. unfold m_bind at 1, print at 1.
      cbn [clock stdout calls].
      destruct (job_error info) as [e|];
        unfold m_bind, print, m_ret; cbn [clock stdout calls];
        (eexists; split; [reflexivity|]; cbn [clock stdout calls]; split; [reflexivity|];
         exists (stdout s); rewrite <- ?app_assoc; reflexivity).
  - destruct (monitor_loop_step svc fuel job_id check_interval s) as [s1 [Hstep [Hcalls _]]].
    { specialize (Hbefore 0%nat ltac:(lia)). unfold job_poll in Hbefore.
      cbn [repeat] in Hbefore. now rewrite app_nil_r in Hbefore. }
    rewrite Hstep.
    destruct (IH s1 fuel) as [s' [Hrun [Hc Hout]]].
    + intros k Hk. rewrite Hcalls, job_poll_shift. apply Hbefore. lia.
    + now rewrite Hcalls, job_poll_shift.
    + lia.
    + exists s'. split; [exact Hrun|]. split; [|exact Hout].
      rewrite Hc, Hcalls, <- app_assoc. reflexivity.
Qed.




(** ** Remote File Stager *)

Lemma inject_Z_succ (m : nat) :
  (inject_Z (Z.of_nat (S m)) == inject_Z (Z.of_nat m) + 1)%Q.
Proof. rewrite Nat2Z.inj_succ. unfold Z.succ. now rewrite inject_Z_plus. Qed.

(** The loop leaves through its timeout branch without a further request. *)
Ltac wait_loop_exit :=
  unfold m_bind, print, m_ret; cbn [clock stdout calls];
  eexists; exists 0%nat; split; [reflexivity|];
  cbn [clock stdout calls repeat rounds_time];
  split; [lia|]; split; [now rewrite app_nil_r|]; split; [ring|];
  split; [now apply Qle_bool_iff|]; split; [intros j Hj; lia|];
  split; [vm_compute; discriminate|]; eexists; reflexivity.

Lemma wait_loop_times_out (svc : Service) (file_id : string) (start_time timeout : Q) :
  (forall h, 0 <= latency svc h)%Q ->
  (forall h, 0 <= sleep_extra svc h)%Q ->
  (forall h, still_waiting (files_retrieve svc h file_id) = true) ->
  forall m fuel s,
    (m < fuel)%nat ->
    (timeout <= clock s - start_time + 5 * inject_Z (Z.of_nat m))%Q ->
    exists s' k,
      wait_loop svc fuel file_id start_time timeout s = Done false s' /\
      (k <= m)%nat /\
      calls s' = (calls s ++ repeat (FilesRetrieve file_id) k)%list /\
      (clock s' == clock s + rounds_time svc (calls s) file_id k)%Q /\
      (timeout <= clock s' - start_time)%Q /\
      (forall j, (j < k)%nat ->
         (clock s + rounds_time svc (calls s) file_id j - start_time < timeout)%Q) /\
      (5 * inject_Z (Z.of_nat k) <= rounds_time svc (calls s) file_id k)%Q /\
      exists pre,
        stdout s' = (pre ++ [("Timeout waiting for file " ++ file_id ++ " to be processed")%string])%list.
Proof.
  intros Hlat Hextra Hwait.
  induction m as [|m IH]; intros fuel s Hfuel Hbudget;
    (destruct fuel as [|fuel]; [lia|]);
    cbn [wait_loop]; unfold m_bind at 1, time_time;
    destruct (Qle_bool timeout (clock s - start_time)) eqn:Hcheck; cbn [negb].
  - wait_loop_exit.
  - exfalso. assert (Hle : (timeout <= clock s - start_time)%Q).
    { assert (H0 : (inject_Z (Z.of_nat 0) == 0)%Q) by reflexivity. rewrite H0 in Hbudget. lra. }
    apply Qle_bool_iff in Hle. congruence.
  - wait_loop_exit.
  - assert (Hnot : (clock s - start_time < timeout)%Q).
    { apply Qnot_le_lt. intros Hle. apply Qle_bool_iff in Hle. congruence. }
    unfold m_bind at 1, request. specialize (Hwait (calls s)).
    pose proof (Hlat (calls s)) as Hl.
    pose proof (Hextra (calls s ++ [FilesRetrieve file_id])%list) as He.
    pose proof (inject_Z_succ m) as Hsucc.
    assert (Hnext : forall st,
      calls st = (calls s ++ [FilesRetrieve file_id])%list ->
      (clock st == clock s + latency svc (calls s) + 5
                   + sleep_extra svc (calls s ++ [FilesRetrieve file_id]))%Q ->
      exists s' k,
        wait_loop svc fuel file_id start_time timeout st = Done false s' /\
        (k <= S m)%nat /\
        calls s' = (calls s ++ repeat (FilesRetrieve file_id) k)%list /\
        (clock s' == clock s + rounds_time svc (calls s) file_id k)%Q /\
        (timeout <= clock s' - start_time)%Q /\
        (forall j, (j < k)%nat ->
           (clock s + rounds_time svc (calls s) file_id j - start_time < timeout)%Q) /\
        (5 * inject_Z (Z.of_nat k) <= rounds_time svc (calls s) file_id k)%Q /\
        exists pre,
          stdout s' = (pre ++ [("Timeout waiting for file " ++ file_id ++ " to be processed")%string])%list).
    { intros st Hcalls Hclock.
      destruct (IH fuel st) as [s' [k [Hrun [Hk [Hc [Ht [Hout [Hbefore [Hfive Hlast]]]]]]]]].
      - lia.
      - rewrite Hclock. lra.
      - exists s', (S k). split; [exact Hrun|]. split; [lia|].
        rewrite Hcalls in Hc, Ht, Hbefore, Hfive.
        split; [rewrite Hc; cbn [repeat]; now rewrite <- app_assoc|].
        cbn [rounds_time].
        split; [rewrite Ht, Hclock; ring|].
        split; [exact Hout|].
        split.
        + intros [|j] Hj.
          * cbn [rounds_time]. lra.
          * specialize (Hbefore j ltac:(lia)). rewrite Hclock in Hbefore.
            cbn [rounds_time]. lra.
        + split; [|exact Hlast].
          rewrite (inject_Z_succ k). lra. }
    destruct (files_retrieve svc (calls s) file_id) as [info|e]; cbn [still_waiting] in Hwait.
    + apply String.eqb_eq in Hwait. rewrite Hwait.
      cbn [String.eqb Ascii.eqb Bool.eqb].
      unfold m_bind at 1, print at 1. unfold m_bind at 1, time_sleep at 1.
      cbn [clock stdout calls].
      match goal with |- context [wait_loop _ _ _ _ _ ?st] =>
        exact (Hnext st eq_refl ltac:(cbn [clock]; ring)) end.
    + unfold m_bind at 1, print at 1. unfold m_bind at 1, time_sleep at 1.
      cbn [clock stdout calls].
      match goal with |- context [wait_loop _ _ _ _ _ ?st] =>
        exact (Hnext st eq_refl ltac:(cbn [clock]; ring)) end.
Qed.

(** C7: while the file status stays [pending], or the status query fails,
    the stager asks again after a pause of five seconds and gives up only
    at a reading of the clock that is at least [timeout] past the start: it
    returns [False] after printing the timeout message, never earlier.
    Up to there it has sent [k] status requests and nothing else, the time
    that has passed is that of [k] rounds of a request and a pause, five
    seconds or more each, and before each request less than [timeout] had
    passed.  Requests and sleeps take no negative time; the loop has ended
    within [timeout / 5] requests. *)
Theorem wait_for_file_processing_times_out (svc : Service) (file_id : string) (timeout : Q)
    (s : St) (polls : nat) :
  (forall h, 0 <= latency svc h)%Q ->
  (forall h, 0 <= sleep_extra svc h)%Q ->
  (forall h, still_waiting (files_retrieve svc h file_id) = true) ->
  (timeout <= 5 * inject_Z (Z.of_nat polls))%Q ->
  forall fuel, (polls < fuel)%nat ->
    exists s' k,
      wait_for_file_processing svc fuel file_id timeout s = Done false s' /\
      (timeout <= clock s' - clock s)%Q /\
      (k <= polls)%nat /\
      calls s' = (calls s ++ repeat (FilesRetrieve file_id) k)%list /\
      (clock s' - clock s == rounds_time svc (calls s) file_id k)%Q /\
      (forall j, (j < k)%nat -> (rounds_time svc (calls s) file_id j < timeout)%Q) /\
      (5 * inject_Z (Z.of_nat k) <= clock s' - clock s)%Q /\
      exists pre,
        stdout s' = (pre ++ [("Timeout waiting for file " ++ file_id ++ " to be processed")%string])%list.
Proof.
  intros Hlat Hextra Hwait Hpolls fuel Hfuel.
  unfold wait_for_file_processing, m_bind at 1, print at 1.
  unfold m_bind at 1, time_time. cbn [clock stdout calls].
  match goal with |- context [wait_loop _ _ _ ?st0 _ ?st] =>
    destruct (wait_loop_times_out svc file_id st0 timeout Hlat Hextra Hwait polls fuel st Hfuel)
      as [s' [k [Hrun [Hk [Hc [Ht [Hout [Hbefore [Hfive Hlast]]]]]]]]]
  end.
  - cbn [clock stdout calls]. lra.
  - cbn [clock stdout calls] in *.
    exists s', k. split; [exact Hrun|]. split; [exact Hout|]. split; [exact Hk|].
    split; [exact Hc|]. split; [rewrite Ht; ring|].
    split; [intros j Hj; specialize (Hbefore j Hj); lra|].
    split; [rewrite Ht; lra|exact Hlast].
Qed.

Lemma wait_for_file_processing_times_out_witness :
  (exists s' k,
    wait_for_file_processing stub_service 121 "file-1" 600 initial = Done false s' /\
    (600 <= clock s' - clock initial)%Q /\
    (k <= 120)%nat /\
    calls s' = (calls initial ++ repeat (FilesRetrieve "file-1") k)%list /\
    (clock s' - clock initial == rounds_time stub_service (calls initial) "file-1" k)%Q /\
    (forall j, (j < k)%nat -> (rounds_time stub_service (calls initial) "file-1" j < 600)%Q) /\
    (5 * inject_Z (Z.of_nat k) <= clock s' - clock initial)%Q /\
    exists pre, stdout s' = (pre ++ ["Timeout waiting for file file-1 to be processed"])%list) /\
  (exists s',
    wait_for_file_processing stub_service 121 "file-1" 600 initial = Done false s' /\
    calls s' = repeat (FilesRetrieve "file-1") 120 /\
    (clock s' == 600)%Q).
Proof.
  split.
  - apply (wait_for_file_processing_times_out stub_service "file-1" 600 initial 120).
    + intros h. cbn. lra.
    + intros h. cbn. lra.
    + intros h. reflexivity.
    + vm_compute. discriminate.
    + lia.
  - eexists. split; [vm_compute; reflexivity|]. split; [reflexivity|reflexivity].
Defined.

(** ** Corpus validation: accepted lines *)

Lemma field_path_one (v : Json) (k : string) (x : Json) :
  field_path v [k] = Some x ->
  exists fields, v = JObj fields /\ lookup k fields = Some x.
Proof.
  destruct v; cbn [field_path]; try discriminate.
  destruct (lookup k fields) as [y|] eqn:Hy; [|discriminate].
  intros [= <-]. eauto.
Qed.

Lemma subscript_field (v : Json) (k : string) (x : Json) :
  field_path v [k] = Some x -> subscript v k = Ok x.
Proof.
  intros H. apply field_path_one in H as [fields [-> Hk]]. cbn. now rewrite Hk.
Qed.

Lemma has_role_truthy (m : Json) : has_role m -> truthy m = true.
Proof.
  intros [r Hr]. apply field_path_one in Hr as [fields [-> Hk]].
  destruct fields; [discriminate|reflexivity].
Qed.

Lemma role_is_dec (role : string) (m r : Json) :
  field_path m ["role"] = Some r -> eq_str r role = false -> ~ role_is role m.
Proof. intros Hr Hneq [r' [Hr' Heq]]. congruence. Qed.

Lemma find_role_first (role : string) (user : Json) (after : list Json) :
  role_is role user ->
  forall before,
    Forall has_role before ->
    Forall (fun m => ~ role_is role m) before ->
    find_role role (before ++ user :: after) = Ok (Some user).
Proof.
  intros [r [Hr Heq]]. induction before as [|m before IH]; intros Hroles Hnot.
  - cbn [app find_role]. rewrite (subscript_field _ _ _ Hr). cbn [py_bind]. now rewrite Heq.
  - inversion Hroles as [|? ? [rm Hrm] Hroles']; subst.
    inversion Hnot as [|? ? Hm Hnot']; subst.
    cbn [app find_role]. rewrite (subscript_field _ _ _ Hrm). cbn [py_bind].
    destruct (eq_str rm role) eqn:E.
    + exfalso. apply Hm. exists rm. now split.
    + now apply IH.
Qed.

Lemma find_role_some (role : string) (msgs : list Json) :
  Forall has_role msgs ->
  Exists (role_is role) msgs ->
  exists a, find_role role msgs = Ok (Some a) /\ truthy a = true.
Proof.
  induction msgs as [|m msgs IH]; intros Hroles Hex; [inversion Hex|].
  inversion Hroles as [|? ? Hm Hroles']; subst.
  pose proof Hm as [rm Hrm].
  cbn [find_role]. rewrite (subscript_field _ _ _ Hrm). cbn [py_bind].
  destruct (eq_str rm role) eqn:E.
  - exists m. split; [reflexivity|now apply has_role_truthy].
  - apply IH; [assumption|].
    inversion Hex as [? ? Hhere|? ? Hlater]; subst; [|assumption].
    exfalso. eapply role_is_dec; eassumption.
Qed.

Lemma scan_content_accepted (i : nat) (items : list Json) :
  Forall item_accepted items ->
  forall has_image out,
    scan_content i items has_image out
    = (Next (has_image || existsb is_image_type items), out).
Proof.
  induction items as [|item items IH]; intros Hacc has_image out.
  - cbn. now rewrite orb_false_r.
  - inversion Hacc as [|? ? [[fields ->] Himg] Hacc']; subst.
    cbn [scan_content existsb]. unfold v_bind at 1, v_lift at 1. cbn [dict_get].
    unfold is_image_type in *. cbn [field_path] in *.
    destruct (lookup "type" fields) as [t|] eqn:Ht.
    + destruct (eq_str t "image_url") eqn:Et.
      * destruct (Himg eq_refl) as [u Hu].
        destruct (lookup "image_url" fields) as [inner|] eqn:Hin; [|discriminate].
        destruct inner as [| | | | |inner]; try discriminate.
        destruct (lookup "url" inner) as [u'|] eqn:Hurl; [|discriminate].
        unfold v_bind, v_lift, v_ret. cbn [contains subscript]. rewrite Hin.
        cbn [negb contains]. rewrite Hurl.
        cbn [negb]. rewrite IH by assumption. now rewrite orb_true_r.
      * rewrite IH by assumption. now rewrite orb_false_l.
    + cbn [eq_str]. rewrite IH by assumption. now rewrite orb_false_l.
Qed.

Lemma existsb_Exists_true {A} (f : A -> bool) (l : list A) :
  Exists (fun x => f x = true) l -> existsb f l = true.
Proof. intros H. apply existsb_exists. apply Exists_exists in H. exact H. Qed.

Lemma check_line_accepted (svc : Service) (i : nat) (line : string) (data : Json)
    (out : list string) :
  json_loads svc line = Ok data ->
  line_accepted data ->
  check_line svc i line out = (Next tt, (out ++ first_role_warning i data)%list).
Proof.
  intros Hload [msgs [Hmsgs [Hlen [Hroles [Huser Hassistant]]]]].
  destruct Huser as [before [user [after [items [Hsplit [Hnot [Hu [Hcontent [Hitems Himage]]]]]]]]].
  pose proof (field_path_one _ _ _ Hmsgs) as [fields [-> Hlookup]].
  unfold check_line, first_role_warning. rewrite Hmsgs.
  unfold v_bind at 1, v_lift at 1. rewrite Hload.
  unfold v_bind at 1, v_lift at 1. cbn [contains]. rewrite Hlookup. cbn [negb].
  unfold v_bind at 1, v_lift at 1. cbn [subscript]. rewrite Hlookup.
  assert (Hlt : (List.length msgs <? 2)%nat = false) by (apply Nat.ltb_ge; lia).
  rewrite Hlt.
  destruct msgs as [|first rest]; [cbn in Hlen; lia|].
  inversion Hroles as [|? ? [r0 Hr0] Hroles']; subst.
  unfold v_bind at 1, v_lift at 1. cbn [list_index nth_error].
  unfold v_bind at 1, v_lift at 1. rewrite (subscript_field _ _ _ Hr0). rewrite Hr0.
  assert (Hfind : find_role "user" (first :: rest) = Ok (Some user)).
  { rewrite Hsplit. apply find_role_first; [assumption| |assumption].
    rewrite Hsplit in Hroles. apply Forall_app in Hroles. tauto. }
  assert (Huser_truthy : truthy user = true).
  { apply has_role_truthy. destruct Hu as [r [Hr _]]. now exists r. }
  destruct (find_role_some "assistant" (first :: rest) Hroles Hassistant) as [a [Ha Ta]].
  assert (Hscan : forall o, scan_content i items false o = (Next true, o)).
  { intros o. rewrite scan_content_accepted by assumption.
    cbn [orb]. now rewrite existsb_Exists_true. }
  destruct (eq_str r0 "system"); cbn [negb];
    unfold v_bind at 1; [unfold v_ret at 1|unfold v_print at 1];
    unfold v_bind at 1, v_lift at 1; rewrite Hfind, Huser_truthy; cbn [negb];
    unfold v_bind at 1, v_lift at 1; rewrite (subscript_field _ _ _ Hcontent);
    unfold v_bind at 1; rewrite Hscan; cbn [negb];
    unfold v_bind at 1, v_lift at 1; rewrite Ha, Ta; cbn [negb]; unfold v_ret.
  - now rewrite app_nil_r.
  - reflexivity.
Qed.

Lemma validate_lines_accepted (svc : Service) (lines : list string) :
  Forall (fun line => exists data, json_loads svc line = Ok data /\ line_accepted data) lines ->
  forall i out,
    validate_lines svc i lines out = (Next tt, (out ++ warnings svc i lines)%list).
Proof.
  induction lines as [|line rest IH]; intros Hall i out.
  - cbn. now rewrite app_nil_r.
  - inversion Hall as [|? ? [data [Hload Hacc]] Hall']; subst.
    cbn [validate_lines warnings]. unfold v_bind at 1, validate_line, v_try.
    rewrite (check_line_accepted svc i line data out Hload Hacc).
    rewrite IH by assumption. rewrite Hload. now rewrite <- app_assoc.
Qed.

(** C10, amended: validation succeeds on a file that is not empty and whose
    every line is accepted in the sense of [line_accepted]; a first message
    that is not a system message adds a warning line to the output and
    nothing else. *)
Theorem validate_jsonl_accepts (svc : Service) (file_path : string) (lines out : list string) :
  read_lines svc file_path = Ok lines ->
  lines <> [] ->
  Forall (fun line => exists data, json_loads svc line = Ok data /\ line_accepted data) lines ->
  validate_jsonl svc file_path out
  = (true,
     (out ++ [("Validating " ++ file_path ++ "...")%string]
          ++ warnings svc 0 lines
          ++ [("Validation successful for " ++ file_path ++ " ("
               ++ show_nat (List.length lines) ++ " examples)")%string])%list).
Proof.
  intros Hread Hne Hall.
  unfold validate_jsonl, validate_jsonl_body.
  unfold v_bind at 1, v_print at 1, v_try. unfold v_bind at 1, v_lift at 1.
  rewrite Hread. destruct lines as [|line rest]; [congruence|].
  unfold v_bind at 1. rewrite (validate_lines_accepted svc _ Hall).
  unfold v_bind, v_print, v_return. now rewrite <- !app_assoc.
Qed.

Lemma record_no_system_accepted : line_accepted record_no_system.
Proof.
  unfold line_accepted, record_no_system. eexists. split; [reflexivity|].
  split; [cbn; lia|]. split; [|split].
  - repeat constructor; eexists; reflexivity.
  - exists [], (JObj [("role", JStr "user");
                      ("content", image_content "https://cdn.example/b.jpg")]).
    eexists. eexists. split; [reflexivity|]. split; [constructor|].
    split; [eexists; split; reflexivity|]. split; [reflexivity|]. split.
    + constructor; [split; [eexists; reflexivity|intros H; discriminate H]|].
      constructor; [split; [eexists; reflexivity|intros _; eexists; reflexivity]|].
      constructor.
    + apply Exists_cons_tl. apply Exists_cons_hd. reflexivity.
  - apply Exists_cons_tl. apply Exists_cons_hd. eexists. split; reflexivity.
Qed.

Lemma validate_jsonl_accepts_witness :
  validate_jsonl service_with_corpus "no_system.jsonl" []
  = (true, [ "Validating no_system.jsonl...";
             "Warning: Line 1 first message is not a system message";
             "Validation successful for no_system.jsonl (1 examples)" ]).
Proof.
  apply (validate_jsonl_accepts service_with_corpus "no_system.jsonl"
           ["<record no system>"] []).
  - reflexivity.
  - discriminate.
  - constructor; [|constructor].
    exists record_no_system. split; [reflexivity|exact record_no_system_accepted].
Defined.

(** C10 as worded fails: the line below has a user message with a
    well-formed image item and an assistant message, but its first user
    message has a text content, and that is the one the code inspects. *)
Lemma validate_jsonl_rejects_later_user_image :
  ~ validates_as_worded.
Proof.
  intros H.
  specialize (H service_with_corpus "two_users.jsonl" ["<record two users>"] [] eq_refl).
  assert (Hline : Forall (fun line => exists data,
                              json_loads service_with_corpus line = Ok data /\
                              line_as_worded data) ["<record two users>"]).
  { constructor; [|constructor].
    exists record_two_users. split; [reflexivity|].
    unfold line_as_worded, record_two_users. eexists. split; [reflexivity|].
    split; [cbn; lia|]. split.
    - exists (JObj [("role", JStr "user");
                    ("content", image_content "https://cdn.example/a.jpg")]).
      eexists. eexists. split; [right; left; reflexivity|].
      split; [eexists; split; reflexivity|]. split; [reflexivity|].
      split; [right; left; reflexivity|].
      split; [reflexivity|eexists; reflexivity].
    - eexists. split; [right; right; left; reflexivity|].
      eexists. split; reflexivity. }
  apply H in Hline. vm_compute in Hline. discriminate Hline.
Qed.

(** * Image Transform: the scaled side *)

(** ** The float model against the Standard Library's binary64 *)

Example div_int_binary64 :
  to_spec (Float.div_int 1024 1568) = b64_div (b64_of_int 1024) (b64_of_int 1568) /\
  to_spec (Float.div_int 1 3) = b64_div (b64_of_int 1) (b64_of_int 3) /\
  to_spec (Float.div_int 1024 4000) = b64_div (b64_of_int 1024) (b64_of_int 4000) /\
  to_spec (Float.div_int (-7) 3) = b64_div (b64_of_int (-7)) (b64_of_int 3).
Proof. repeat split; vm_compute; reflexivity. Qed.

Example int_mul_float_binary64 :
  to_spec (int_mul_float 1568 (Float.div_int 1024 1568))
    = b64_mul (b64_of_int 1568) (b64_div (b64_of_int 1024) (b64_of_int 1568)) /\
  to_spec (int_mul_float 3000 (Float.div_int 1024 4000))
    = b64_mul (b64_of_int 3000) (b64_div (b64_of_int 1024) (b64_of_int 4000)) /\
  to_spec (int_mul_float 49 (Float.div_int 1 49))
    = b64_mul (b64_of_int 49) (b64_div (b64_of_int 1) (b64_of_int 49)) /\
  to_spec (Float.of_int 9007199254740993) = b64_of_int 9007199254740993.
Proof. repeat split; vm_compute; reflexivity. Qed.

Example trunc_examples :
  Float.trunc (int_mul_float 1568 (Float.div_int 1024 1568)) = 1023 /\
  Float.trunc (int_mul_float 3000 (Float.div_int 1024 4000)) = 768 /\
  Float.trunc (int_mul_float 49 (Float.div_int 1 49)) = 0.
Proof. repeat split; vm_compute; reflexivity. Qed.

(** ** Rounding error *)

Lemma rne_error (n d : Z) :
  0 <= n -> 0 < d ->
  2 * Z.abs (Float.rne n d * d - n) <= d /\ 0 <= Float.rne n d.
Proof.
  intros Hn Hd. unfold Float.rne.
  assert (Hd0 : d <> 0) by lia.
  pose proof (Z.div_mod n d Hd0) as Hdm.
  pose proof (Z.mod_pos_bound n d Hd) as Hr.
  pose proof (Z.div_pos n d Hn Hd) as Hq.
  generalize dependent (n mod d). generalize dependent (n / d). intros q Hq r Hdm Hr.
  destruct (2 * r ?= d) eqn:E.
  - apply Z.compare_eq_iff in E. destruct (Z.even q); split; lia.
  - change (2 * r < d) in E. split; lia.
  - change (2 * r > d) in E. split; lia.
Qed.

Lemma exponent_nonpos (n d : Z) :
  0 < n -> 0 < d -> n < 2 ^ 53 * d -> Float.exponent n d <= 0.
Proof.
  intros Hn Hd Hlt. unfold Float.exponent.
  set (e0 := Z.log2 n - Z.log2 d - 52).
  destruct (2 ^ 52 * Float.scale_den d e0 <=? Float.scale_num n e0) eqn:T.
  - apply Z.leb_le in T. destruct (Z_le_gt_dec e0 0) as [|Hpos]; [assumption|exfalso].
    unfold Float.scale_den, Float.scale_num in T.
    rewrite (Z.max_r 0 e0), (Z.max_l 0 (- e0)) in T by lia.
    assert (H2 : 2 ^ 1 <= 2 ^ e0) by (apply Z.pow_le_mono_r; lia).
    change (2 ^ 1) with 2 in H2. change (2 ^ 0) with 1 in T.
    change (2 ^ 53) with (2 ^ 52 * 2) in Hlt. nia.
  - enough (Z.log2 n < Z.log2 d + 54) by (subst e0; lia).
    apply Z.log2_lt_pow2; [assumption|].
    pose proof (Z.log2_spec d Hd) as [_ Hb].
    pose proof (Z.log2_nonneg d).
    replace (Z.log2 d + 54) with (53 + Z.succ (Z.log2 d)) by lia.
    rewrite Z.pow_add_r by lia. nia.
Qed.

Lemma exponent_normal (n d : Z) :
  0 < n -> 0 < d -> Float.exponent n d <= 0 ->
  2 ^ 52 * d <= n * 2 ^ (- Float.exponent n d).
Proof.
  intros Hn Hd. unfold Float.exponent.
  set (e0 := Z.log2 n - Z.log2 d - 52).
  destruct (2 ^ 52 * Float.scale_den d e0 <=? Float.scale_num n e0) eqn:T; intros He.
  - apply Z.leb_le in T. unfold Float.scale_den, Float.scale_num in T.
    rewrite (Z.max_l 0 e0), (Z.max_r 0 (- e0)) in T by lia.
    change (2 ^ 0) with 1 in T. lia.
  - pose proof (Z.log2_spec n Hn) as [Ha _].
    pose proof (Z.log2_spec d Hd) as [_ Hb].
    pose proof (Z.log2_nonneg n). pose proof (Z.log2_nonneg d).
    assert (Hk : 0 <= - (e0 - 1)) by lia.
    assert (Hpow : 2 ^ Z.log2 n * 2 ^ (- (e0 - 1)) = 2 ^ 52 * 2 ^ Z.succ (Z.log2 d)).
    { rewrite <- !Z.pow_add_r by lia. f_equal. subst e0. lia. }
    assert (0 < 2 ^ (- (e0 - 1))) by (apply Z.pow_pos_nonneg; lia).
    nia.
Qed.

Lemma round_spec (sg : bool) (n d : Z) :
  0 < n -> 0 < d -> n < 2 ^ 53 * d ->
  exists k m,
    0 <= k /\ Float.round sg n d = Float.mk sg m (- k) /\ 0 < m /\
    2 * Z.abs (m * d - n * 2 ^ k) <= d /\
    2 ^ 52 * d <= n * 2 ^ k.
Proof.
  intros Hn Hd Hlt.
  pose proof (exponent_nonpos n d Hn Hd Hlt) as He.
  pose proof (exponent_normal n d Hn Hd He) as Hnorm.
  exists (- Float.exponent n d), (Float.rne (n * 2 ^ (- Float.exponent n d)) d).
  assert (Hpow : 0 < 2 ^ (- Float.exponent n d)) by (apply Z.pow_pos_nonneg; lia).
  assert (Hnn : 0 <= n * 2 ^ (- Float.exponent n d)) by nia.
  destruct (rne_error (n * 2 ^ (- Float.exponent n d)) d Hnn Hd) as [Herr Hpos].
  split; [lia|]. split; [|split; [|split]]; try assumption.
  - unfold Float.round. assert (Hz : (n =? 0) = false) by lia. rewrite Hz.
    unfold Float.scale_num, Float.scale_den.
    rewrite (Z.max_r 0 (- Float.exponent n d)), (Z.max_l 0 (Float.exponent n d)) by lia.
    change (2 ^ 0) with 1. rewrite Z.mul_1_r, Z.opp_involutive. reflexivity.
  - change (2 ^ 52) with 4503599627370496 in Hnorm. nia.
Qed.
Lemma cancel_le (a b c : Z) : 0 < c -> a * c <= b * c -> a <= b.
Proof. intros Hc H. nia. Qed.
Lemma cancel_lt (a b c : Z) : 0 < c -> a * c < b * c -> a < b.
Proof. intros Hc H. nia. Qed.

Lemma abs_bound (K x y : Z) : 0 < K -> K * Z.abs x <= y -> K * x <= y /\ - (K * x) <= y.
Proof. intros HK H. destruct (Z.abs_spec x) as [[? E]|[? E]]; rewrite E in H; nia. Qed.

Lemma scaled_core (K s M L mq Sq mp Sp t : Z) :
  0 < K -> 0 < L -> 0 < s -> 0 < M -> 0 < Sq -> 0 < Sp -> 0 < mq -> 0 <= mp ->
  K * Z.abs (mq * L - M * Sq) <= M * Sq ->
  K * Z.abs (mp * Sq - s * mq * Sp) <= s * mq * Sp ->
  t * Sp <= mp < (t + 1) * Sp ->
  3 * (s * M) < K ->
  t * L <= s * M <= (t + 1) * L.
Proof.
  intros HK HL Hs HM HSq HSp Hmq Hmp Hq Hp [Ht1 Ht2] Hsmall.
  apply abs_bound in Hq as [Hq1 Hq2]; [|assumption].
  apply abs_bound in Hp as [Hp1 Hp2]; [|assumption].
  assert (H1 : K * (mp * Sq) <= (K + 1) * (s * mq * Sp)) by lia.
  assert (H2 : K * (mq * L) <= (K + 1) * (M * Sq)) by lia.
  assert (G1 : (K - 1) * (s * mq * Sp) <= K * (mp * Sq)) by lia.
  assert (G2 : (K - 1) * (M * Sq) <= K * (mq * L)) by lia.
  assert (HsSp : 0 < s * Sp) by nia.
  assert (HKL : 0 < K * L) by nia.
  split.
  - assert (H3 : (K * K * (mp * L)) * Sq <= ((K + 1) * (K + 1) * (s * M * Sp)) * Sq).
    { apply Z.le_trans with ((K + 1) * (s * mq * Sp) * (K * L)).
      - replace (K * K * (mp * L) * Sq) with (K * (mp * Sq) * (K * L)) by ring.
        apply Z.mul_le_mono_nonneg_r; lia.
      - replace ((K + 1) * (s * mq * Sp) * (K * L))
          with ((K + 1) * (s * Sp) * (K * (mq * L))) by ring.
        replace ((K + 1) * (K + 1) * (s * M * Sp) * Sq)
          with ((K + 1) * (s * Sp) * ((K + 1) * (M * Sq))) by ring.
        apply Z.mul_le_mono_nonneg_l; nia. }
    apply cancel_le in H3; [|assumption].
    assert (H5 : K * K * (t * L) * Sp <= (K + 1) * (K + 1) * (s * M) * Sp).
    { apply Z.le_trans with (K * K * (mp * L)).
      - replace (K * K * (t * L) * Sp) with (K * K * L * (t * Sp)) by ring.
        replace (K * K * (mp * L)) with (K * K * L * mp) by ring.
        apply Z.mul_le_mono_nonneg_l; nia.
      - replace ((K + 1) * (K + 1) * (s * M) * Sp)
          with ((K + 1) * (K + 1) * (s * M * Sp)) by ring. exact H3. }
    apply cancel_le in H5; [|assumption].
    set (X := t * L) in *. set (Y := s * M) in *.
    assert (HY : 0 < Y) by (subst Y; nia).
    destruct (Z_le_gt_dec X Y) as [|Hgt]; [assumption|exfalso].
    assert (K * K * (Y + 1) <= K * K * X) by (apply Z.mul_le_mono_nonneg_l; nia).
    assert ((2 * K + 1) * Y <= 3 * K * Y) by nia.
    assert (3 * K * Y < K * K) by nia.
    nia.
  - assert (G3 : ((K - 1) * (K - 1) * (s * M * Sp)) * Sq <= (K * K * (mp * L)) * Sq).
    { apply Z.le_trans with ((K - 1) * (s * Sp) * (K * (mq * L))).
      - replace ((K - 1) * (K - 1) * (s * M * Sp) * Sq)
          with ((K - 1) * (s * Sp) * ((K - 1) * (M * Sq))) by ring.
        apply Z.mul_le_mono_nonneg_l; nia.
      - replace ((K - 1) * (s * Sp) * (K * (mq * L)))
          with ((K - 1) * (s * mq * Sp) * (K * L)) by ring.
        replace (K * K * (mp * L) * Sq) with (K * (mp * Sq) * (K * L)) by ring.
        apply Z.mul_le_mono_nonneg_r; lia. }
    apply cancel_le in G3; [|assumption].
    assert (G5 : (K - 1) * (K - 1) * (s * M) * Sp < K * K * ((t + 1) * L) * Sp).
    { apply Z.le_lt_trans with (K * K * (mp * L)).
      - replace ((K - 1) * (K - 1) * (s * M) * Sp)
          with ((K - 1) * (K - 1) * (s * M * Sp)) by ring. exact G3.
      - replace (K * K * (mp * L)) with (K * K * L * mp) by ring.
        replace (K * K * ((t + 1) * L) * Sp) with (K * K * L * ((t + 1) * Sp)) by ring.
        apply Z.mul_lt_mono_pos_l; nia. }
    apply cancel_lt in G5; [|assumption].
    set (X := (t + 1) * L) in *. set (Y := s * M) in *.
    assert (HY : 0 < Y) by (subst Y; nia).
    destruct (Z_le_gt_dec Y X) as [|Hgt]; [assumption|exfalso].
    assert (K * K * X <= K * K * (Y - 1)) by (apply Z.mul_le_mono_nonneg_l; nia).
    assert (2 * K * Y < K * K) by nia.
    nia.
Qed.

Lemma pow2_53 : 2 ^ 53 = 2 ^ 52 * 2.
Proof. reflexivity. Qed.

Lemma trunc_floor (m k : Z) :
  0 <= m -> 0 <= k ->
  let t := Float.trunc (Float.mk false m (- k)) in
  t * 2 ^ k <= m < (t + 1) * 2 ^ k.
Proof.
  intros Hm Hk. unfold Float.trunc. cbn [Float.neg Float.expo Float.mant].
  assert (Hpow : 0 < 2 ^ k) by (apply Z.pow_pos_nonneg; lia).
  destruct (0 <=? - k) eqn:E.
  - apply Z.leb_le in E. assert (k = 0) by lia. subst k. cbn. lia.
  - rewrite Z.opp_involutive.
    pose proof (Z.div_mod m (2 ^ k) ltac:(lia)) as Hdm.
    pose proof (Z.mod_pos_bound m (2 ^ k) Hpow) as Hr.
    cbv zeta. nia.
Qed.

Lemma scaled_side_bounds (s M L : Z) :
  0 < M -> M < L -> 0 < s -> s <= L -> L < 2 ^ 25 ->
  let t := Float.trunc (int_mul_float s (Float.div_int M L)) in
  t * L <= s * M <= (t + 1) * L.
Proof.
  intros HM HML Hs HsL HL.
  change (2 ^ 25) with 33554432 in HL.
  unfold int_mul_float, Float.div_int, Float.of_int.
  assert (EM : (M <? 0) = false) by lia. assert (EL : (L <? 0) = false) by lia.
  assert (Es : (s <? 0) = false) by lia.
  rewrite EM, EL, Es, !Z.abs_eq by lia. cbn [xorb].
  assert (HML53 : M < 2 ^ 53 * L) by (change (2 ^ 53) with 9007199254740992; lia).
  assert (Hs53 : s < 2 ^ 53 * 1) by (change (2 ^ 53) with 9007199254740992; lia).
  destruct (round_spec false M L HM ltac:(lia) HML53) as [kq [mq [Hkq [Eq [Hmq [Hq Hnq]]]]]].
  destruct (round_spec false s 1 Hs ltac:(lia) Hs53) as [kx [mx [Hkx [Ex [Hmx [Hx Hnx]]]]]].
  rewrite Eq, Ex. unfold Float.mul. cbn [Float.neg Float.expo Float.mant xorb].
  assert (HSq : 0 < 2 ^ kq) by (apply Z.pow_pos_nonneg; lia).
  assert (HSx : 0 < 2 ^ kx) by (apply Z.pow_pos_nonneg; lia).
  rewrite (Z.max_l 0 (- kx + - kq)) by lia.
  rewrite (Z.max_r 0 (- (- kx + - kq))) by lia.
  replace (- (- kx + - kq)) with (kx + kq) by lia.
  rewrite Z.pow_add_r by lia. change (2 ^ 0) with 1. rewrite Z.mul_1_r.
  assert (Hmx' : mx = s * 2 ^ kx) by lia. subst mx.
  set (Sq := 2 ^ kq) in *. set (Sx := 2 ^ kx) in *.
  assert (Hmq_le : mq <= Sq) by nia.
  assert (Hnum : 0 < s * Sx * mq) by nia.
  assert (Hden : 0 < Sx * Sq) by nia.
  assert (Hprod : s * Sx * mq < 2 ^ 53 * (Sx * Sq)).
  { change (2 ^ 53) with 9007199254740992.
    assert (s * mq < 9007199254740992 * Sq) by nia. nia. }
  destruct (round_spec false (s * Sx * mq) (Sx * Sq) Hnum Hden Hprod)
    as [kp [mp [Hkp [Ep [Hmp [Hp Hnp]]]]]].
  rewrite Ep.
  pose proof (trunc_floor mp kp ltac:(lia) Hkp) as Ht. cbv zeta in Ht.
  set (t := Float.trunc (Float.mk false mp (- kp))) in *.
  assert (HSp : 0 < 2 ^ kp) by (apply Z.pow_pos_nonneg; lia).
  set (Sp := 2 ^ kp) in *.
  assert (HK : 0 < 2 ^ 53) by reflexivity.
  assert (Hq' : 2 ^ 53 * Z.abs (mq * L - M * Sq) <= M * Sq).
  { rewrite pow2_53. change (2 ^ 52) with 4503599627370496 in *. lia. }
  assert (Hp' : 2 ^ 53 * Z.abs (mp * Sq - s * mq * Sp) <= s * mq * Sp).
  { apply (cancel_le _ _ Sx HSx).
    replace (2 ^ 53 * Z.abs (mp * Sq - s * mq * Sp) * Sx)
      with (2 ^ 53 * Z.abs (mp * (Sx * Sq) - s * Sx * mq * Sp)).
    - replace (s * mq * Sp * Sx) with (s * Sx * mq * Sp) by ring.
      rewrite pow2_53. change (2 ^ 52) with 4503599627370496 in *. lia.
    - replace (mp * (Sx * Sq) - s * Sx * mq * Sp) with ((mp * Sq - s * mq * Sp) * Sx) by ring.
      rewrite Z.abs_mul, (Z.abs_eq Sx) by lia. ring. }
  assert (Hsmall : 3 * (s * M) < 2 ^ 53).
  { change (2 ^ 53) with 9007199254740992. nia. }
  apply (scaled_core (2 ^ 53) s M L mq Sq mp Sp t); try assumption; lia.
Qed.

(** ** resize_image on an image beyond the bound *)

Lemma int_mul_float_zero (q : Float.t) : Float.trunc (int_mul_float 0 q) = 0.
Proof.
  unfold int_mul_float, Float.of_int, Float.mul. cbn [Z.ltb Z.compare Z.abs Float.round Z.eqb].
  cbn [Float.mant Float.neg Float.expo Z.mul]. unfold Float.round. cbn [Z.eqb].
  unfold Float.trunc. cbn [Float.expo Float.mant Float.neg Z.leb Z.compare Z.mul].
  now destruct (xorb false (Float.neg q)).
Qed.





(** * Further properties of phase (a) *)

(** ** Labels from file names *)

Lemma drop_prefix_app (p r : string) : drop_prefix p (p ++ r) = Some r.
Proof.
  induction p as [|a p IH]; [reflexivity|].
  cbn [append drop_prefix]. now rewrite Ascii.eqb_refl.
Qed.

Lemma drop_prefix_inv (p s r : string) : drop_prefix p s = Some r -> s = (p ++ r)%string.
Proof.
  revert s. induction p as [|a p IH]; intros s H.
  - cbn in H. injection H as <-. reflexivity.
  - destruct s as [|b s]; cbn [drop_prefix] in H; [discriminate|].
    destruct (Ascii.eqb a b) eqn:E; [|discriminate].
    apply Ascii.eqb_eq in E. subst b. cbn [append]. f_equal. now apply IH.
Qed.

Lemma is_prefix_app (p r : string) : is_prefix p (p ++ r) = true.
Proof. unfold is_prefix. now rewrite drop_prefix_app. Qed.

Lemma is_prefix_inv (p s : string) :
  is_prefix p s = true -> exists r, s = (p ++ r)%string.
Proof.
  unfold is_prefix. destruct (drop_prefix p s) as [r|] eqn:E; [|discriminate].
  intros _. exists r. now apply drop_prefix_inv.
Qed.

Lemma starts_with_space_iff (s : string) :
  starts_with_space s = true <->
  exists ws post, In ws whitespace /\ s = (ws ++ post)%string.
Proof.
  unfold starts_with_space. rewrite existsb_exists. split.
  - intros [ws [Hin Hp]]. apply is_prefix_inv in Hp as [post ->]. eauto.
  - intros [ws [post [Hin ->]]]. exists ws. split; [assumption|apply is_prefix_app].
Qed.

Lemma append_assoc (a b c : string) : ((a ++ b) ++ c = a ++ b ++ c)%string.
Proof. induction a as [|x a IH]; [reflexivity|]. cbn [append]. now rewrite IH. Qed.

Lemma re_search_lit_ws_inv (lit s : string) :
  re_search_lit_ws lit s = true -> occurs_before_space lit s.
Proof.
  unfold occurs_before_space.
  assert (Hhere : forall s r,
    drop_prefix lit s = Some r -> starts_with_space r = true ->
    exists pre ws post, In ws whitespace /\ s = (pre ++ lit ++ ws ++ post)%string).
  { intros s0 r E Hr. apply starts_with_space_iff in Hr as [ws [post [Hin ->]]].
    exists ""%string, ws, post. split; [assumption|]. exact (drop_prefix_inv _ _ _ E). }
  induction s as [|a s IH]; intros H.
  - cbn [re_search_lit_ws] in H.
    destruct (drop_prefix lit "") as [r|] eqn:E; [|discriminate].
    destruct (starts_with_space r) eqn:Er; [|discriminate].
    exact (Hhere _ _ E Er).
  - cbn [re_search_lit_ws] in H.
    assert (Hrec : re_search_lit_ws lit s = true ->
                   exists pre ws post,
                     In ws whitespace /\ String a s = (pre ++ lit ++ ws ++ post)%string).
    { intros Hs. destruct (IH Hs) as [pre [ws [post [Hin ->]]]].
      exists (String a pre), ws, post. split; [assumption|reflexivity]. }
    destruct (drop_prefix lit (String a s)) as [r|] eqn:E; [|now apply Hrec].
    destruct (starts_with_space r) eqn:Er; [|now apply Hrec].
    exact (Hhere _ _ E Er).
Qed.

Lemma re_search_lit_ws_found (lit s : string) :
  occurs_before_space lit s -> re_search_lit_ws lit s = true.
Proof.
  intros [pre [ws [post [Hin ->]]]].
  assert (Hws : starts_with_space (ws ++ post) = true).
  { apply starts_with_space_iff. eauto. }
  induction pre as [|a pre IH].
  - cbn [append]. destruct (lit ++ ws ++ post)%string as [|b t] eqn:Es.
    + cbn [re_search_lit_ws]. destruct lit as [|x lit]; [|discriminate Es].
      cbn [append] in Es. cbn [drop_prefix]. rewrite <- Es, Hws. reflexivity.
    + cbn [re_search_lit_ws]. rewrite <- Es, drop_prefix_app, Hws. reflexivity.
  - cbn [append re_search_lit_ws]. rewrite IH.
    destruct (drop_prefix lit (String a (pre ++ lit ++ ws ++ post))) as [r|];
      [|reflexivity].
    now destruct (starts_with_space r).
Qed.

Lemma first_category_none (cats : list (string * string)) (filename : string) :
  Forall (fun c => ~ occurs_before_space (snd c) filename) cats ->
  first_category cats filename = "Unknown".
Proof.
  induction 1 as [|[category pattern] cats Hno _ IH]; [reflexivity|].
  cbn [first_category]. cbn [snd] in Hno.
  destruct (re_search_lit_ws pattern filename) eqn:E; [|exact IH].
  exfalso. apply Hno. now apply re_search_lit_ws_inv.
Qed.

Lemma first_category_first (before after : list (string * string))
    (label pattern filename : string) :
  Forall (fun c => ~ occurs_before_space (snd c) filename) before ->
  occurs_before_space pattern filename ->
  first_category (before ++ (label, pattern) :: after) filename = label.
Proof.
  intros Hbefore Hhere.
  induction Hbefore as [|[category p] before Hno _ IH].
  - cbn [app first_category]. now rewrite (re_search_lit_ws_found _ _ Hhere).
  - cbn [app first_category]. cbn [snd] in Hno.
    destruct (re_search_lit_ws p filename) eqn:E; [|exact IH].
    exfalso. apply Hno. now apply re_search_lit_ws_inv.
Qed.

Lemma first_category_inv (cats : list (string * string)) (filename : string) :
  (exists before pattern after,
      cats = (before ++ (first_category cats filename, pattern) :: after)%list /\
      occurs_before_space pattern filename /\
      Forall (fun c => ~ occurs_before_space (snd c) filename) before) \/
  (first_category cats filename = "Unknown" /\
   Forall (fun c => ~ occurs_before_space (snd c) filename) cats).
Proof.
  induction cats as [|[category pattern] cats IH].
  - right. split; [reflexivity|constructor].
  - cbn [first_category].
    destruct (re_search_lit_ws pattern filename) eqn:E.
    + left. exists [], pattern, cats. split; [reflexivity|].
      split; [now apply re_search_lit_ws_inv|constructor].
    + assert (Hno : ~ occurs_before_space pattern filename).
      { intros Hocc. apply re_search_lit_ws_found in Hocc. congruence. }
      destruct IH as [[before [p [after [Hcats [Hocc Hbefore]]]]]|[Hunknown Hall]].
      * left. exists ((category, pattern) :: before), p, after.
        split; [cbn [app]; now rewrite <- Hcats|].
        split; [assumption|]. constructor; assumption.
      * right. split; [assumption|]. constructor; assumption.
Qed.

(** X1: the label of a file name is that of the first entry of
    [CATEGORIES], in the order of the dict, whose pattern occurs in the name
    immediately followed by a whitespace character, and "Unknown" when
    there is no such entry. *)
Theorem get_instrument_category_first_match (filename label : string) :
  get_instrument_category filename = label <->
  (exists before pattern after,
      CATEGORIES = (before ++ (label, pattern) :: after)%list /\
      occurs_before_space pattern filename /\
      Forall (fun c => ~ occurs_before_space (snd c) filename) before) \/
  (label = "Unknown" /\
   Forall (fun c => ~ occurs_before_space (snd c) filename) CATEGORIES).
Proof.
  unfold get_instrument_category. split.
  - intros <-. destruct (first_category_inv CATEGORIES filename) as [H|[H1 H2]].
    + left. exact H.
    + right. split; [exact H1|exact H2].
  - intros [[before [pattern [after [Hcats [Hocc Hbefore]]]]]|[-> Hall]].
    + rewrite Hcats. now apply first_category_first.
    + now apply first_category_none.
Qed.

Lemma get_instrument_category_first_match_witness :
  let filename := ("MosquitoClampCurved" ++ utf8 [194; 160]%nat ++ "3.jpg")%string in
  (exists before pattern after,
      CATEGORIES = (before ++ ("Mosquito clamp curved", pattern) :: after)%list /\
      occurs_before_space pattern filename /\
      Forall (fun c => ~ occurs_before_space (snd c) filename) before) \/
  ("Mosquito clamp curved" = "Unknown" /\
   Forall (fun c => ~ occurs_before_space (snd c) filename) CATEGORIES).
Proof.
  apply (proj1 (get_instrument_category_first_match
                  ("MosquitoClampCurved" ++ utf8 [194; 160]%nat ++ "3.jpg")
                  "Mosquito clamp curved")).
  reflexivity.
Defined.

Lemma has_space_found (pre ws post : string) :
  In ws whitespace -> has_space (pre ++ ws ++ post) = true.
Proof.
  intros Hin.
  assert (Hws : starts_with_space (ws ++ post) = true).
  { apply starts_with_space_iff. eauto. }
  assert (Hne : ws <> ""%string).
  { intros ->. revert Hin. vm_compute. intuition discriminate. }
  induction pre as [|a pre IH].
  - cbn [append]. destruct (ws ++ post)%string as [|b t] eqn:E.
    + destruct ws; [contradiction|discriminate E].
    + cbn [has_space]. now rewrite Hws.
  - cbn [append has_space]. rewrite IH. apply orb_true_r.
Qed.

Lemma occurs_has_space (pattern filename : string) :
  occurs_before_space pattern filename -> has_space filename = true.
Proof.
  intros [pre [ws [post [Hin ->]]]].
  rewrite <- append_assoc. now apply has_space_found.
Qed.

(** X2: every pattern of [CATEGORIES] ends in [\s+], so a file name that
    holds no whitespace character is labelled "Unknown" whatever instrument
    it names. *)
Theorem get_instrument_category_no_space (filename : string) :
  has_space filename = false ->
  get_instrument_category filename = "Unknown".
Proof.
  intros Hb. unfold get_instrument_category. apply first_category_none.
  apply Forall_forall. intros c _ Hocc.
  apply occurs_has_space in Hocc. congruence.
Qed.

Lemma get_instrument_category_no_space_witness :
  get_instrument_category "MosquitoClampCurved_2.jpg" = "Unknown".
Proof.
  apply (get_instrument_category_no_space "MosquitoClampCurved_2.jpg"). reflexivity.
Defined.

(** ** Image Transform *)

(** X3: within the bound the unmodified copy comes back exactly for the
    images that are not wider than high; for the others the result is
    [None]. *)
Theorem resize_image_fast_path (open : string -> py Image) (path : string) (img : Image)
    (max_size : Z) :
  open path = Ok img ->
  Z.max (fst (size img)) (snd (size img)) <= max_size ->
  resize_image open path max_size
  = if fst (size img) <=? snd (size img) then Some img else None.
Proof.
  intros Hopen Hmax.
  destruct (fst (size img) <=? snd (size img)) eqn:Hwh.
  - apply resize_image_portrait_within_bound; [assumption|lia|lia].
  - unfold resize_image, resize_image_body. rewrite Hopen. cbn [py_bind].
    destruct (size img) as [width height]. cbn [fst snd] in *.
    assert (Hgt : (width >? height) = true) by lia.
    assert (Hgt' : (width >? max_size) = false) by lia.
    rewrite Hgt, Hgt'. reflexivity.
Qed.

Lemma resize_image_fast_path_witness :
  resize_image (fun _ => Ok (mkImage (600, 800) "RGB" (Decoded "photos/p.jpg")))
               "photos/p.jpg" 1024
  = Some (mkImage (600, 800) "RGB" (Decoded "photos/p.jpg")).
Proof.
  apply (resize_image_fast_path
           (fun _ => Ok (mkImage (600, 800) "RGB" (Decoded "photos/p.jpg")))
           "photos/p.jpg" (mkImage (600, 800) "RGB" (Decoded "photos/p.jpg")) 1024).
  - reflexivity.
  - cbn. lia.
Defined.

(** X4: whenever [resize_image] returns an image, neither of its sides
    exceeds the bound (sides below [2^25], a positive bound). *)
Theorem resize_image_result_within_bound (open : string -> py Image) (path : string)
    (img out : Image) (max_size : Z) :
  open path = Ok img ->
  0 <= fst (size img) < 2 ^ 25 ->
  0 <= snd (size img) < 2 ^ 25 ->
  0 < max_size ->
  resize_image open path max_size = Some out ->
  fst (size out) <= max_size /\ snd (size out) <= max_size.
Proof.
  intros Hopen Hw Hh HM.
  unfold resize_image, resize_image_body. rewrite Hopen. cbn [py_bind].
  destruct (size img) as [width height] eqn:Hsize. cbn [fst snd] in *.
  destruct (width >? height) eqn:Hwh.
  - destruct (width >? max_size) eqn:Hgt; [|cbn; discriminate].
    unfold true_div. assert (Hz : (width =? 0) = false) by lia. rewrite Hz.
    cbn [py_bind read_local]. unfold Image_resize. cbn [fst snd].
    set (t := Float.trunc (int_mul_float height (Float.div_int max_size width))).
    destruct ((max_size <? 1) || (t <? 1)) eqn:Hbad; cbn [py_bind try_except];
      [discriminate|].
    intros [= <-]. cbn [size fst snd]. apply orb_false_iff in Hbad as [_ Ht].
    destruct (Z.eq_dec height 0) as [->|Hne].
    + subst t. rewrite int_mul_float_zero in Ht. discriminate Ht.
    + assert (H1 : max_size < width) by lia.
      assert (H2 : 0 < height) by lia.
      assert (H3 : height <= width) by lia.
      pose proof (scaled_side_bounds height max_size width HM H1 H2 H3 (proj2 Hw)) as Hb.
      cbv zeta in Hb. fold t in Hb. split; [lia|nia].
  - destruct (height >? max_size) eqn:Hgt.
    + unfold true_div. assert (Hz : (height =? 0) = false) by lia. rewrite Hz.
      cbn [py_bind read_local]. unfold Image_resize. cbn [fst snd].
      set (t := Float.trunc (int_mul_float width (Float.div_int max_size height))).
      destruct ((t <? 1) || (max_size <? 1)) eqn:Hbad; cbn [py_bind try_except];
        [discriminate|].
      intros [= <-]. cbn [size fst snd]. apply orb_false_iff in Hbad as [Ht _].
      destruct (Z.eq_dec width 0) as [->|Hne].
      * subst t. rewrite int_mul_float_zero in Ht. discriminate Ht.
      * assert (H1 : max_size < height) by lia.
        assert (H2 : 0 < width) by lia.
        assert (H3 : width <= height) by lia.
        pose proof (scaled_side_bounds width max_size height HM H1 H2 H3 (proj2 Hh)) as Hb.
        cbv zeta in Hb. fold t in Hb. split; [nia|lia].
    + cbn [py_bind try_except]. intros [= <-]. unfold Image_copy. rewrite Hsize.
      cbn [fst snd]. lia.
Qed.

Lemma resize_image_result_within_bound_witness :
  fst (size (mkImage (1023, 1024) "RGB" (Lanczos (Decoded "photos/square.jpg") 1023 1024)))
    <= 1024 /\
  snd (size (mkImage (1023, 1024) "RGB" (Lanczos (Decoded "photos/square.jpg") 1023 1024)))
    <= 1024.
Proof.
  apply (resize_image_result_within_bound (fun _ => Ok photo_1568) "photos/square.jpg"
           photo_1568 _ 1024).
  - reflexivity.
  - cbn. lia.
  - cbn. lia.
  - lia.
  - vm_compute. reflexivity.
Defined.

(** ** Upload Worker *)

Lemma has_slash_app (dir name : string) :
  has_slash (dir ++ "/" ++ name) = true.
Proof.
  induction dir as [|c dir IH]; [reflexivity|].
  change (String c dir ++ "/" ++ name)%string with (String c (dir ++ "/" ++ name)).
  cbn [has_slash]. rewrite IH. apply orb_true_r.
Qed.

Lemma basename_join (dir name : string) :
  has_slash name = false -> basename (dir ++ "/" ++ name) = name.
Proof.
  intros Hname. induction dir as [|c dir IH].
  - cbn [append basename]. rewrite Hname. reflexivity.
  - change (String c dir ++ "/" ++ name)%string with (String c (dir ++ "/" ++ name)).
    cbn [basename]. now rewrite has_slash_app.
Qed.

(** X5: a dry run answers from the file name alone: whatever the directory,
    the files, the endpoint and the other arguments, the link is the fixed
    prefix followed by what comes after the last slash.  Two files of the
    same name in different directories get the same link. *)
Theorem upload_image_dry_run_by_name (w : World) (args : Prepare.Args) (dir name : string) :
  dry_run args = true ->
  has_slash name = false ->
  upload_image w args (dir ++ "/" ++ name)
  = Ok (Some (JStr ("http://example.com/images/" ++ name))).
Proof.
  intros Hdry Hname. unfold upload_image. rewrite Hdry.
  now rewrite basename_join.
Qed.

Lemma upload_image_dry_run_by_name_witness :
  upload_image world_three args_dry_run ("photos/set1" ++ "/" ++ "clamp 1.jpg")
  = upload_image world_refusing args_dry_run ("photos/set2/b" ++ "/" ++ "clamp 1.jpg").
Proof.
  rewrite (upload_image_dry_run_by_name world_three args_dry_run "photos/set1" "clamp 1.jpg")
    by reflexivity.
  rewrite (upload_image_dry_run_by_name world_refusing args_dry_run "photos/set2/b" "clamp 1.jpg")
    by reflexivity.
  reflexivity.
Defined.

(** X6: a live upload of an image that resizes and encodes sends the JPEG
    bytes under the file's base name to the configured endpoint, with the
    bearer header when a key is set; on an answer that is not an HTTP error
    and whose body is an object (with [data] absent or an object) it returns
    the first link among [url], [data.url], [image_url], and [None] when
    there is none. *)
Theorem upload_image_live (w : World) (args : Prepare.Args) (image_path : string)
    (img : Image) (bytes : jpeg_bytes) (response : Response)
    (fields : list (string * Json)) :
  dry_run args = false ->
  resize_image (Prepare.Image_open w) image_path (resize args) = Some img ->
  Image_save_jpeg img = Ok bytes ->
  requests_post w (upload_endpoint args) (basename image_path, bytes) (auth_headers args)
    = Ok response ->
  raise_for_status response = Ok tt ->
  json_body response = Ok (JObj fields) ->
  (lookup "data" fields = None \/ exists d, lookup "data" fields = Some (JObj d)) ->
  upload_image w args image_path = Ok (first_url url_paths (JObj fields)).
Proof.
  intros Hdry Hresize Hsave Hpost Hstatus Hbody Hdata.
  unfold upload_image. rewrite Hdry, Hresize, Hsave. cbn [py_bind].
  unfold post_and_extract. fold (auth_headers args). rewrite Hpost. cbn [py_bind].
  rewrite Hstatus. cbn [py_bind]. rewrite Hbody. cbn [py_bind].
  rewrite (extract_image_url_paths fields Hdata).
  now destruct (first_url url_paths (JObj fields)).
Qed.

Lemma upload_image_live_witness :
  upload_image world_nested args_mixed "photos/a.jpg"
  = Ok (Some (JStr "https://cdn.example/a.jpg")).
Proof.
  apply (upload_image_live world_nested args_mixed "photos/a.jpg"
           (mkImage (600, 800) "RGB" (Decoded "photos/a.jpg"))
           (JPEG (mkImage (600, 800) "RGB" (Decoded "photos/a.jpg")))
           (mkResponse 201
              (Ok (JObj [("url", JStr "");
                         ("data", JObj [("url", JStr "https://cdn.example/a.jpg")]);
                         ("image_url", JStr "https://other.example/x")])))
           [("url", JStr "");
            ("data", JObj [("url", JStr "https://cdn.example/a.jpg")]);
            ("image_url", JStr "https://other.example/x")]).
  - reflexivity.
  - reflexivity.
  - reflexivity.
  - reflexivity.
  - reflexivity.
  - reflexivity.
  - right. eexists. reflexivity.
Defined.

(** X7: when the request raises, when the status is an HTTP error, or when
    the body is not JSON, the worker returns [None], even if the body of the
    error held a link. *)
Theorem upload_image_request_failure (w : World) (args : Prepare.Args) (image_path : string)
    (img : Image) (bytes : jpeg_bytes) :
  dry_run args = false ->
  resize_image (Prepare.Image_open w) image_path (resize args) = Some img ->
  Image_save_jpeg img = Ok bytes ->
  (match requests_post w (upload_endpoint args) (basename image_path, bytes) (auth_headers args)
   with
   | Raise _ => True
   | Ok response =>
       (400 <= status_code response < 600) \/ (exists e, json_body response = Raise e)
   end) ->
  upload_image w args image_path = Ok None.
Proof.
  intros Hdry Hresize Hsave Hfail.
  unfold upload_image. rewrite Hdry, Hresize, Hsave. cbn [py_bind].
  unfold post_and_extract. fold (auth_headers args).
  destruct (requests_post w (upload_endpoint args) (basename image_path, bytes)
              (auth_headers args)) as [response|e]; [|reflexivity].
  cbn [py_bind]. unfold raise_for_status.
  destruct Hfail as [Hcode | [e He]].
  - assert (E : (400 <=? status_code response) && (status_code response <? 600) = true) by lia.
    rewrite E. reflexivity.
  - destruct ((400 <=? status_code response) && (status_code response <? 600));
      [reflexivity|]. cbn [py_bind]. rewrite He. reflexivity.
Qed.

Lemma upload_image_request_failure_witness :
  upload_image world_refusing args_mixed "photos/a.jpg" = Ok None.
Proof.
  apply (upload_image_request_failure world_refusing args_mixed "photos/a.jpg"
           (mkImage (600, 800) "RGB" (Decoded "photos/a.jpg"))
           (JPEG (mkImage (600, 800) "RGB" (Decoded "photos/a.jpg")))).
  - reflexivity.
  - reflexivity.
  - reflexivity.
  - left. cbn. lia.
Defined.

(** X8: the JPEG encoding is outside the [try] of [upload_image]: when
    [img.save] raises, the exception leaves [upload_image] instead of
    becoming [None]; in the batch the item is dropped like any failed one. *)
Theorem upload_image_encoding_error_escapes (w : World) (args : Prepare.Args)
    (image_path : string) (img : Image) (e : exn) :
  dry_run args = false ->
  resize_image (Prepare.Image_open w) image_path (resize args) = Some img ->
  Image_save_jpeg img = Raise e ->
  upload_image w args image_path = Raise e /\
  records_for w args image_path = [].
Proof.
  intros Hdry Hresize Hsave.
  assert (H : upload_image w args image_path = Raise e).
  { unfold upload_image. now rewrite Hdry, Hresize, Hsave. }
  split; [exact H|]. unfold records_for. now rewrite H.
Qed.

Lemma upload_image_encoding_error_escapes_witness :
  upload_image world_mixed args_mixed "photos/alpha.png" = Raise OSError /\
  records_for world_mixed args_mixed "photos/alpha.png" = [].
Proof.
  apply (upload_image_encoding_error_escapes world_mixed args_mixed "photos/alpha.png"
           (mkImage (600, 800) "RGBA" (Decoded "photos/alpha.png")) OSError).
  - reflexivity.
  - reflexivity.
  - reflexivity.
Defined.

(** ** Concurrent Batch Pipeline *)

(** X9: the corpus does not depend on the size of the pool nor on how long
    the uploads take. *)
Theorem process_images_schedule_independent (w : World) (args : Prepare.Args)
    (durations : string -> nat) (n : Z) :
  0 < max_workers args ->
  0 < n ->
  process_images (with_durations w durations) (with_workers args n) = process_images w args.
Proof.
  intros Hworkers Hn.
  rewrite (process_images_records w args Hworkers).
  rewrite (process_images_records (with_durations w durations) (with_workers args n) Hn).
  reflexivity.
Qed.

Lemma process_images_schedule_independent_witness :
  process_images (with_durations world_mixed (fun _ => 7%nat)) (with_workers args_mixed 1)
  = process_images world_mixed args_mixed.
Proof.
  apply (process_images_schedule_independent world_mixed args_mixed (fun _ => 7%nat) 1);
    reflexivity.
Defined.

(** * Further properties of phase (b) *)

(** ** What validation accepts, exactly *)

Lemma subscript_inv (v : Json) (k : string) (x : Json) :
  subscript v k = Ok x -> field_path v [k] = Some x.
Proof.
  destruct v; cbn [subscript]; try discriminate.
  cbn [field_path]. destruct (lookup k fields); [|discriminate].
  now intros [= <-].
Qed.

Lemma find_role_inv (role : string) (msgs : list Json) (m : Json) :
  find_role role msgs = Ok (Some m) -> first_with_role role msgs m.
Proof.
  induction msgs as [|x rest IH]; cbn [find_role]; [discriminate|].
  destruct (subscript x "role") as [r|] eqn:Hr; cbn [py_bind]; [|discriminate].
  apply subscript_inv in Hr.
  destruct (eq_str r role) eqn:E.
  - intros [= <-]. exists [], rest. split; [reflexivity|]. split; [constructor|].
    exists r. now split.
  - intros H. destruct (IH H) as [before [after [-> [Hbefore Hm]]]].
    exists (x :: before), after. split; [reflexivity|]. split; [|assumption].
    constructor; [|assumption]. split; [now exists r|].
    eapply role_is_dec; eassumption.
Qed.

Lemma find_role_found (role : string) (msgs : list Json) (m : Json) :
  first_with_role role msgs m -> find_role role msgs = Ok (Some m).
Proof.
  intros [before [after [-> [Hbefore [r [Hr Heq]]]]]].
  induction before as [|x before IH].
  - cbn [app find_role]. rewrite (subscript_field _ _ _ Hr). cbn [py_bind]. now rewrite Heq.
  - inversion Hbefore as [|? ? [[rx Hrx] Hnot] Hbefore']; subst.
    cbn [app find_role]. rewrite (subscript_field _ _ _ Hrx). cbn [py_bind].
    destruct (eq_str rx role) eqn:E.
    + exfalso. apply Hnot. exists rx. now split.
    + now apply IH.
Qed.

Lemma scan_content_checked (i : nat) (items : list Json) :
  Forall item_checked items ->
  forall has_image out,
    scan_content i items has_image out
    = (Next (has_image || existsb is_image_type items), out).
Proof.
  induction items as [|item items IH]; intros Hacc has_image out.
  - cbn. now rewrite orb_false_r.
  - inversion Hacc as [|? ? [fields [-> Himg]] Hacc']; subst.
    cbn [scan_content existsb]. unfold v_bind at 1, v_lift at 1. cbn [dict_get].
    unfold is_image_type in *. cbn [field_path] in *.
    destruct (lookup "type" fields) as [t|] eqn:Ht.
    + destruct (eq_str t "image_url") eqn:Et.
      * destruct (Himg eq_refl) as [inner [Hin Hurl]].
        unfold v_bind, v_lift, v_ret. cbn [contains subscript]. rewrite Hin.
        cbn [negb]. rewrite Hurl.
        cbn [negb]. rewrite IH by assumption. now rewrite orb_true_r.
      * rewrite IH by assumption. now rewrite orb_false_l.
    + cbn [eq_str]. rewrite IH by assumption. now rewrite orb_false_l.
Qed.

Lemma scan_content_inv (i : nat) (items : list Json) :
  forall has_image out r out',
    scan_content i items has_image out = (Next r, out') ->
    Forall item_checked items /\
    r = has_image || existsb is_image_type items /\ out' = out.
Proof.
  induction items as [|item items IH]; intros has_image out r out'.
  - cbn. intros [= <- <-]. split; [constructor|]. now rewrite orb_false_r.
  - cbn [scan_content existsb]. unfold v_bind at 1, v_lift at 1.
    destruct item as [| | | | |fields]; cbn [dict_get]; try discriminate.
    assert (Hty : eq_str match lookup "type" fields with Some x => x | None => JNull end
                         "image_url"
                  = is_image_type (JObj fields)).
    { unfold is_image_type. cbn [field_path]. now destruct (lookup "type" fields). }
    rewrite Hty.
    destruct (is_image_type (JObj fields)) eqn:Hit.
    + unfold v_bind at 1, v_lift at 1. cbn [contains].
      destruct (lookup "image_url" fields) as [inner|] eqn:Hin.
      * cbn [negb]. unfold v_bind at 1. unfold v_bind at 1, v_lift at 1.
        cbn [subscript]. rewrite Hin.
        unfold v_bind at 1, v_lift at 1.
        destruct (contains inner "url") as [[|]|] eqn:Hurl; unfold v_ret; cbn [negb];
          try (unfold v_bind, v_print, v_return; discriminate).
        intros H. apply IH in H as [Hitems [-> ->]].
        split; [|split; [now destruct has_image|reflexivity]].
        constructor; [|assumption]. exists fields. split; [reflexivity|].
        intros _. exists inner. now split.
      * cbn [negb]. unfold v_bind, v_ret, v_print, v_return. discriminate.
    + intros H. apply IH in H as [Hitems [-> ->]].
      split; [|split; reflexivity].
      constructor; [|assumption]. exists fields. split; [reflexivity|].
      rewrite Hit. discriminate.
Qed.

Lemma check_line_checked (svc : Service) (i : nat) (line : string) (data : Json)
    (out : list string) :
  json_loads svc line = Ok data ->
  line_checked data ->
  check_line svc i line out = (Next tt, (out ++ first_role_warning i data)%list).
Proof.
  intros Hload [msgs [first [user [items [a Hline]]]]].
  destruct Hline as [Hmsgs [Hlen [Hfirst [[r0 Hr0] [Huser [Hcontent [Hitems [Himage Ha]]]]]]]].
  pose proof (field_path_one _ _ _ Hmsgs) as [fields [-> Hlookup]].
  unfold check_line, first_role_warning. rewrite Hmsgs.
  unfold v_bind at 1, v_lift at 1. rewrite Hload.
  unfold v_bind at 1, v_lift at 1. cbn [contains]. rewrite Hlookup. cbn [negb].
  unfold v_bind at 1, v_lift at 1. cbn [subscript]. rewrite Hlookup.
  assert (Hlt : (List.length msgs <? 2)%nat = false) by (apply Nat.ltb_ge; lia).
  rewrite Hlt.
  destruct msgs as [|first' rest]; [discriminate Hfirst|].
  cbn [nth_error] in Hfirst. injection Hfirst as ->.
  unfold v_bind at 1, v_lift at 1. cbn [list_index nth_error].
  unfold v_bind at 1, v_lift at 1. rewrite (subscript_field _ _ _ Hr0). rewrite Hr0.
  pose proof (find_role_found _ _ _ Huser) as Hfind.
  pose proof (find_role_found _ _ _ Ha) as Hfinda.
  assert (Huser_truthy : truthy user = true).
  { apply has_role_truthy. destruct Huser as [_ [_ [_ [_ [r [Hr _]]]]]]. now exists r. }
  assert (Ha_truthy : truthy a = true).
  { apply has_role_truthy. destruct Ha as [_ [_ [_ [_ [r [Hr _]]]]]]. now exists r. }
  assert (Hscan : forall o, scan_content i items false o = (Next true, o)).
  { intros o. rewrite scan_content_checked by assumption.
    cbn [orb]. now rewrite existsb_Exists_true. }
  destruct (eq_str r0 "system"); cbn [negb];
    unfold v_bind at 1; [unfold v_ret at 1|unfold v_print at 1];
    unfold v_bind at 1, v_lift at 1; rewrite Hfind, Huser_truthy; cbn [negb];
    unfold v_bind at 1, v_lift at 1; rewrite (subscript_field _ _ _ Hcontent);
    unfold v_bind at 1; rewrite Hscan; cbn [negb];
    unfold v_bind at 1, v_lift at 1; rewrite Hfinda, Ha_truthy; cbn [negb]; unfold v_ret.
  - now rewrite app_nil_r.
  - reflexivity.
Qed.

Ltac rejected H := solve [unfold v_bind, v_print, v_return in H; discriminate H].

Lemma check_line_inv (svc : Service) (i : nat) (line : string) (out out' : list string) :
  check_line svc i line out = (Next tt, out') ->
  exists data, json_loads svc line = Ok data /\ line_checked data.
Proof.
  intros H. unfold check_line in H.
  unfold v_bind at 1, v_lift at 1 in H.
  destruct (json_loads svc line) as [data|e] eqn:Hload; [|discriminate H].
  unfold v_bind at 1, v_lift at 1 in H.
  destruct (contains data "messages") as [present|e] eqn:Hpres; [|discriminate H].
  destruct present; cbn [negb] in H; [|rejected H].
  unfold v_bind at 1, v_lift at 1 in H.
  destruct (subscript data "messages") as [messages|e] eqn:Hsub; [|discriminate H].
  destruct messages as [| | | |msgs|]; try rejected H.
  destruct (List.length msgs <? 2)%nat eqn:Hlen; [rejected H|].
  unfold v_bind at 1, v_lift at 1 in H.
  destruct (list_index msgs 0) as [first|e] eqn:Hfirst; [|discriminate H].
  unfold v_bind at 1, v_lift at 1 in H.
  destruct (subscript first "role") as [role|e] eqn:Hrole; [|discriminate H].
  unfold v_bind at 1 in H.
  match type of H with
  | context [(if ?c then ?p else ?q) out] =>
      assert (Hw : exists out1, (if c then p else q) out = (Next tt, out1))
        by (destruct c; eexists; reflexivity);
      destruct Hw as [out1 Hw]; rewrite Hw in H
  end.
  unfold v_bind at 1, v_lift at 1 in H.
  destruct (find_role "user" msgs) as [[user|]|e] eqn:Hu; [|rejected H|discriminate H].
  destruct (truthy user); cbn [negb] in H; [|rejected H].
  unfold v_bind at 1, v_lift at 1 in H.
  destruct (subscript user "content") as [content|e] eqn:Hcontent; [|discriminate H].
  destruct content as [| | | |items|]; try rejected H.
  unfold v_bind at 1 in H.
  destruct (scan_content i items false out1) as [[has_image|b|e] out2] eqn:Hscan;
    try discriminate H.
  destruct has_image; cbn [negb] in H; [|rejected H].
  unfold v_bind at 1, v_lift at 1 in H.
  destruct (find_role "assistant" msgs) as [[a|]|e] eqn:Ha; [|rejected H|discriminate H].
  exists data. split; [reflexivity|].
  exists msgs, first, user, items, a.
  apply scan_content_inv in Hscan as [Hitems [Himage _]]. cbn [orb] in Himage.
  unfold list_index in Hfirst.
  destruct (nth_error msgs 0) as [first'|] eqn:Hnth; [|discriminate Hfirst].
  injection Hfirst as ->.
  split; [now apply subscript_inv|].
  split; [apply Nat.ltb_ge in Hlen; lia|].
  split; [reflexivity|].
  split; [exists role; now apply subscript_inv|].
  split; [now apply find_role_inv|].
  split; [now apply subscript_inv|].
  split; [assumption|].
  split; [|now apply find_role_inv].
  symmetry in Himage. apply existsb_exists in Himage. apply Exists_exists. exact Himage.
Qed.

Lemma validate_line_next (svc : Service) (i : nat) (line : string) (out out' : list string) :
  validate_line svc i line out = (Next tt, out') ->
  check_line svc i line out = (Next tt, out').
Proof.
  unfold validate_line, v_try.
  destruct (check_line svc i line out) as [[[]|b|e] o]; try (intros H; exact H).
  destruct e; unfold v_bind, v_print, v_return; discriminate.
Qed.

Lemma validate_lines_checked (svc : Service) (lines : list string) :
  file_checked svc lines ->
  forall i out,
    validate_lines svc i lines out = (Next tt, (out ++ warnings svc i lines)%list).
Proof.
  induction lines as [|line rest IH]; intros Hall i out.
  - cbn. now rewrite app_nil_r.
  - inversion Hall as [|? ? [data [Hload Hacc]] Hall']; subst.
    cbn [validate_lines warnings]. unfold v_bind at 1, validate_line, v_try.
    rewrite (check_line_checked svc i line data out Hload Hacc).
    rewrite IH by assumption. rewrite Hload. now rewrite <- app_assoc.
Qed.

Lemma validate_lines_inv (svc : Service) (lines : list string) :
  forall i out out',
    validate_lines svc i lines out = (Next tt, out') -> file_checked svc lines.
Proof.
  induction lines as [|line rest IH]; intros i out out' H; [constructor|].
  cbn [validate_lines] in H. unfold v_bind at 1 in H.
  destruct (validate_line svc i line out) as [[[]|b|e] o] eqn:Hline; try discriminate H.
  constructor; [|eapply IH; eassumption].
  eapply check_line_inv. apply validate_line_next. eassumption.
Qed.

Lemma no_true_ret {A} (a : A) : no_true (v_ret a).
Proof. intros out b o H. discriminate H. Qed.

Lemma no_true_lift {A} (p : py A) : no_true (v_lift p).
Proof. intros out b o H. unfold v_lift in H. destruct p; discriminate H. Qed.

Lemma no_true_print (line : string) : no_true (v_print line).
Proof. intros out b o H. discriminate H. Qed.

Lemma no_true_return {A} : no_true (@v_return A false).
Proof. intros out b o H. now injection H as <- _. Qed.

Lemma no_true_bind {A B} (m : V A) (k : A -> V B) :
  no_true m -> (forall a, no_true (k a)) -> no_true (v_bind m k).
Proof.
  intros Hm Hk out b o H. unfold v_bind in H.
  destruct (m out) as [[a|b'|e] o'] eqn:E.
  - eapply Hk; eassumption.
  - injection H as <- _. eapply Hm; eassumption.
  - discriminate H.
Qed.

Lemma no_true_try {A} (m : V A) (handler : exn -> V A) :
  no_true m -> (forall e, no_true (handler e)) -> no_true (v_try m handler).
Proof.
  intros Hm Hh out b o H. unfold v_try in H.
  destruct (m out) as [[a|b'|e] o'] eqn:E.
  - discriminate H.
  - injection H as <- _. eapply Hm; eassumption.
  - eapply Hh; eassumption.
Qed.

Ltac no_true_step :=
  first [ apply no_true_ret | apply no_true_lift | apply no_true_print
        | apply no_true_return
        | apply no_true_bind; [|intro]
        | match goal with
          | |- no_true (if ?c then _ else _) => destruct c
          | |- no_true (match ?x with _ => _ end) => destruct x
          end ].

Lemma scan_content_no_true (i : nat) (items : list Json) :
  forall has_image, no_true (scan_content i items has_image).
Proof.
  induction items as [|item items IH]; intros has_image; cbn [scan_content].
  - apply no_true_ret.
  - apply no_true_bind; [apply no_true_lift|intros t].
    destruct (eq_str t "image_url"); [|apply IH].
    apply no_true_bind; [apply no_true_lift|intros present].
    apply no_true_bind.
    + destruct (negb present); repeat no_true_step.
    + intros bad. destruct bad; [repeat no_true_step|apply IH].
Qed.

Lemma check_line_no_true (svc : Service) (i : nat) (line : string) :
  no_true (check_line svc i line).
Proof.
  unfold check_line.
  apply no_true_bind; [apply no_true_lift|intros data].
  apply no_true_bind; [apply no_true_lift|intros present].
  destruct (negb present); [repeat no_true_step|].
  apply no_true_bind; [apply no_true_lift|intros messages].
  destruct messages as [| | | |msgs|]; try solve [repeat no_true_step].
  destruct (List.length msgs <? 2)%nat; [repeat no_true_step|].
  apply no_true_bind; [apply no_true_lift|intros first].
  apply no_true_bind; [apply no_true_lift|intros role].
  apply no_true_bind; [destruct (negb (eq_str role "system")); repeat no_true_step|intros _].
  apply no_true_bind; [apply no_true_lift|intros user_message].
  destruct user_message as [user_message|]; [|repeat no_true_step].
  destruct (negb (truthy user_message)); [repeat no_true_step|].
  apply no_true_bind; [apply no_true_lift|intros content].
  destruct content as [| | | |items|]; try solve [repeat no_true_step].
  apply no_true_bind; [apply scan_content_no_true|intros has_image].
  destruct (negb has_image); [repeat no_true_step|].
  apply no_true_bind; [apply no_true_lift|intros assistant_msg].
  destruct assistant_msg as [assistant_msg|]; [|repeat no_true_step].
  destruct (negb (truthy assistant_msg)); repeat no_true_step.
Qed.

Lemma validate_lines_no_true (svc : Service) (lines : list string) :
  forall i, no_true (validate_lines svc i lines).
Proof.
  induction lines as [|line rest IH]; intros i; cbn [validate_lines].
  - apply no_true_ret.
  - apply no_true_bind; [|intros _; apply IH].
    unfold validate_line. apply no_true_try; [apply check_line_no_true|].
    intros e. destruct e; repeat no_true_step.
Qed.

Lemma validate_jsonl_true_inv (svc : Service) (file_path : string) (out : list string) :
  fst (validate_jsonl svc file_path out) = true ->
  exists lines,
    read_lines svc file_path = Ok lines /\ lines <> [] /\ file_checked svc lines.
Proof.
  unfold validate_jsonl, validate_jsonl_body.
  unfold v_bind at 1, v_print at 1, v_try. unfold v_bind at 1, v_lift at 1.
  destruct (read_lines svc file_path) as [lines|e] eqn:Hread.
  - destruct lines as [|line rest].
    + unfold v_bind, v_print, v_return. cbn. discriminate.
    + unfold v_bind at 1.
      destruct (validate_lines svc 0 (line :: rest) _) as [[[]|b|e] o] eqn:Hlines.
      * intros _. exists (line :: rest). split; [reflexivity|]. split; [discriminate|].
        eapply validate_lines_inv. eassumption.
      * apply validate_lines_no_true in Hlines. subst b. cbn. discriminate.
      * unfold v_bind, v_print, v_return. cbn. discriminate.
  - unfold v_bind, v_print, v_return. cbn. discriminate.
Qed.

Lemma validate_jsonl_checked (svc : Service) (file_path : string) (lines out : list string) :
  read_lines svc file_path = Ok lines ->
  lines <> [] ->
  file_checked svc lines ->
  validate_jsonl svc file_path out
  = (true,
     (out ++ [("Validating " ++ file_path ++ "...")%string]
          ++ warnings svc 0 lines
          ++ [("Validation successful for " ++ file_path ++ " ("
               ++ show_nat (List.length lines) ++ " examples)")%string])%list).
Proof.
  intros Hread Hne Hall.
  unfold validate_jsonl, validate_jsonl_body.
  unfold v_bind at 1, v_print at 1, v_try. unfold v_bind at 1, v_lift at 1.
  rewrite Hread. destruct lines as [|line rest]; [congruence|].
  unfold v_bind at 1. rewrite (validate_lines_checked svc _ Hall).
  unfold v_bind, v_print, v_return. now rewrite <- !app_assoc.
Qed.

(** X10: [validate_jsonl] returns [True] exactly when the file can be read,
    is not empty, and every line parses to an object whose [messages] is a
    list of two entries or more, whose first entry has a role, whose first
    user message has a list content in which every item is an object, every
    item of type [image_url] has an [image_url] field holding ["url"], and
    one such item exists, and which has an assistant message; the messages
    before the first user and the first assistant message all carry a role. *)
Theorem validate_jsonl_true_iff (svc : Service) (file_path : string) (out : list string) :
  fst (validate_jsonl svc file_path out) = true <->
  exists lines,
    read_lines svc file_path = Ok lines /\ lines <> [] /\ file_checked svc lines.
Proof.
  split.
  - apply validate_jsonl_true_inv.
  - intros [lines [Hread [Hne Hall]]].
    now rewrite (validate_jsonl_checked svc file_path lines out Hread Hne Hall).
Qed.

Lemma validate_jsonl_true_iff_witness :
  fst (validate_jsonl service_with_corpus "no_system.jsonl" []) = true.
Proof.
  apply (proj2 (validate_jsonl_true_iff service_with_corpus "no_system.jsonl" [])).
  exists ["<record no system>"]. split; [reflexivity|]. split; [discriminate|].
  constructor; [|constructor].
  exists record_no_system. split; [reflexivity|].
  unfold line_checked, record_no_system.
  eexists. eexists. eexists. eexists. eexists.
  split; [reflexivity|]. split; [cbn; lia|]. split; [reflexivity|].
  split; [eexists; reflexivity|]. split.
  { exists [].  eexists. split; [reflexivity|]. split; [constructor|].
    eexists. split; reflexivity. }
  split; [reflexivity|]. split.
  { constructor; [eexists; split; [reflexivity|intros H; discriminate H]|].
    constructor; [|constructor].
    eexists. split; [reflexivity|]. intros _. eexists. split; reflexivity. }
  split; [apply Exists_cons_tl; apply Exists_cons_hd; reflexivity|].
  eexists [_]. eexists. split; [reflexivity|]. split.
  - constructor; [|constructor]. split; [eexists; reflexivity|].
    intros [r [Hr He]]. cbn in Hr. injection Hr as <-. discriminate He.
  - eexists. split; reflexivity.
Defined.

Lemma validate_lines_app (svc : Service) (good : list string) :
  file_checked svc good ->
  forall i out rest,
    validate_lines svc i (good ++ rest) out
    = validate_lines svc (i + List.length good) rest (out ++ warnings svc i good)%list.
Proof.
  induction good as [|line good IH]; intros Hall i out rest.
  - cbn [app List.length warnings]. now rewrite Nat.add_0_r, app_nil_r.
  - inversion Hall as [|? ? [data [Hload Hacc]] Hall']; subst.
    cbn [app validate_lines warnings List.length]. unfold v_bind at 1, validate_line, v_try.
    rewrite (check_line_checked svc i line data out Hload Hacc).
    rewrite IH by assumption. rewrite Hload, <- app_assoc.
    now rewrite Nat.add_succ_r.
Qed.

(** X11: validation stops at the first line that is not JSON: it returns
    [False] after the warnings of the lines before it and one error line
    that names the line, counted from one; the lines after it are not
    looked at. *)
Theorem validate_jsonl_first_bad_line (svc : Service) (file_path : string)
    (good : list string) (bad : string) (rest out : list string) :
  read_lines svc file_path = Ok (good ++ bad :: rest)%list ->
  file_checked svc good ->
  json_loads svc bad = Raise JSONDecodeError ->
  validate_jsonl svc file_path out
  = (false,
     (out ++ [("Validating " ++ file_path ++ "...")%string]
          ++ warnings svc 0 good
          ++ [("Error: Line " ++ show_nat (List.length good + 1)
               ++ " is not valid JSON")%string])%list).
Proof.
  intros Hread Hgood Hbad.
  unfold validate_jsonl, validate_jsonl_body.
  unfold v_bind at 1, v_print at 1, v_try. unfold v_bind at 1, v_lift at 1.
  rewrite Hread.
  destruct (good ++ bad :: rest)%list as [|l ls] eqn:E.
  { exfalso. eapply app_cons_not_nil. symmetry. exact E. }
  rewrite <- E. unfold v_bind at 1.
  rewrite (validate_lines_app svc good Hgood).
  cbn [validate_lines Nat.add]. unfold v_bind at 1, validate_line, v_try, check_line.
  unfold v_bind at 1, v_lift at 1. rewrite Hbad.
  unfold v_bind, v_print, v_return, line_no. now rewrite <- !app_assoc.
Qed.

Lemma record_no_system_checked : line_checked record_no_system.
Proof.
  unfold line_checked, record_no_system.
  eexists. eexists. eexists. eexists. eexists.
  split; [reflexivity|]. split; [cbn; lia|]. split; [reflexivity|].
  split; [eexists; reflexivity|]. split.
  { exists [].  eexists. split; [reflexivity|]. split; [constructor|].
    eexists. split; reflexivity. }
  split; [reflexivity|]. split.
  { constructor; [eexists; split; [reflexivity|intros H; discriminate H]|].
    constructor; [|constructor].
    eexists. split; [reflexivity|]. intros _. eexists. split; reflexivity. }
  split; [apply Exists_cons_tl; apply Exists_cons_hd; reflexivity|].
  eexists [_]. eexists. split; [reflexivity|]. split.
  - constructor; [|constructor]. split; [eexists; reflexivity|].
    intros [r [Hr He]]. cbn in Hr. injection Hr as <-. discriminate He.
  - eexists. split; reflexivity.
Qed.

Lemma validate_jsonl_first_bad_line_witness :
  validate_jsonl service_bad_line "mixed.jsonl" []
  = (false, [ "Validating mixed.jsonl...";
              "Warning: Line 1 first message is not a system message";
              "Error: Line 2 is not valid JSON" ]).
Proof.
  apply (validate_jsonl_first_bad_line service_bad_line "mixed.jsonl"
           ["<record no system>"] "{not json" ["<record two users>"] []).
  - reflexivity.
  - constructor; [|constructor].
    exists record_no_system. split; [reflexivity|exact record_no_system_checked].
  - reflexivity.
Defined.

(** ** From phase (a) to phase (b) *)

Lemma example_checked (image_path : string) (u : Json) :
  line_checked (create_training_example image_path u).
Proof.
  unfold line_checked, create_training_example.
  eexists. eexists. eexists. eexists. eexists.
  split; [reflexivity|]. split; [cbn; lia|]. split; [reflexivity|].
  split; [eexists; reflexivity|]. split.
  { eexists [_]. eexists. split; [reflexivity|]. split.
    - constructor; [|constructor]. split; [eexists; reflexivity|].
      intros [r [Hr He]]. cbn in Hr. injection Hr as <-. discriminate He.
    - eexists. split; reflexivity. }
  split; [reflexivity|]. split.
  { constructor; [eexists; split; [reflexivity|intros H; discriminate H]|].
    constructor; [|constructor].
    eexists. split; [reflexivity|]. intros _. eexists. split; reflexivity. }
  split; [apply Exists_cons_tl; apply Exists_cons_hd; reflexivity|].
  eexists [_; _]. eexists. split; [reflexivity|]. split.
  - constructor; [|constructor; [|constructor]];
      (split; [eexists; reflexivity|]);
      intros [r [Hr He]]; cbn in Hr; injection Hr as <-; discriminate He.
  - eexists. split; reflexivity.
Qed.

Lemma records_for_examples (w : World) (pargs : Prepare.Args) (image_files : list string)
    (e : Json) :
  In e (flat_map (records_for w pargs) image_files) ->
  exists image_path u, e = create_training_example image_path u.
Proof.
  intros Hin. apply in_flat_map in Hin as [f [_ Hin]].
  unfold records_for in Hin.
  destruct (upload_image w pargs f) as [[u|]|]; try contradiction.
  destruct (truthy u); [|contradiction].
  destruct Hin as [<-|[]]. eauto.
Qed.

Lemma written_corpus_checked (svc : Service) (json_dumps : Json -> string)
    (corpus : list Json) :
  (forall e, In e corpus -> exists image_path u, e = create_training_example image_path u) ->
  (forall e, In e corpus -> json_loads svc (json_dumps e ++ newline) = Ok e) ->
  file_checked svc (write_jsonl json_dumps corpus) /\
  forall i, warnings svc i (write_jsonl json_dumps corpus) = [].
Proof.
  induction corpus as [|e corpus IH]; intros Hex Hload.
  - split; [constructor|reflexivity].
  - destruct IH as [IH1 IH2].
    { intros x Hx. apply Hex. now right. }
    { intros x Hx. apply Hload. now right. }
    destruct (Hex e (or_introl eq_refl)) as [p [u ->]].
    pose proof (Hload _ (or_introl eq_refl)) as He.
    split.
    + constructor; [|exact IH1]. eexists. split; [exact He|apply example_checked].
    + intros i. cbn [write_jsonl map warnings]. rewrite He.
      fold (write_jsonl json_dumps corpus). now rewrite IH2.
Qed.

(** X12: a corpus that phase (a) has written, if it is not empty, passes the
    validation of phase (b) without a warning, provided [json.loads] reads
    back what [json.dumps] wrote for its records. *)
Theorem written_corpus_validates (w : World) (pargs : Prepare.Args)
    (json_dumps : Json -> string) (svc : Service) (file_path : string)
    (corpus : list Json) (out : list string) :
  0 < max_workers pargs ->
  process_images w pargs = Ok corpus ->
  corpus <> [] ->
  read_lines svc file_path = Ok (write_jsonl json_dumps corpus) ->
  (forall e, In e corpus -> json_loads svc (json_dumps e ++ newline) = Ok e) ->
  validate_jsonl svc file_path out
  = (true,
     (out ++ [ ("Validating " ++ file_path ++ "...")%string;
               ("Validation successful for " ++ file_path ++ " ("
                ++ show_nat (List.length corpus) ++ " examples)")%string ])%list).
Proof.
  intros Hworkers Hrun Hne Hread Hload.
  rewrite process_images_records in Hrun by assumption. injection Hrun as Hcorpus.
  destruct (written_corpus_checked svc json_dumps corpus) as [Hchecked Hwarn].
  { intros e He. rewrite <- Hcorpus in He. eapply records_for_examples. exact He. }
  { exact Hload. }
  rewrite (validate_jsonl_checked svc file_path _ out Hread); [|
    destruct corpus; [congruence|discriminate] | exact Hchecked].
  rewrite Hwarn. unfold write_jsonl. rewrite length_map. reflexivity.
Qed.

Lemma written_corpus_validates_witness :
  validate_jsonl service_round_trip "./training_data.jsonl" []
  = (true, [ "Validating ./training_data.jsonl...";
             "Validation successful for ./training_data.jsonl (3 examples)" ]).
Proof.
  apply (written_corpus_validates world_three args_dry_run dumps_by_url service_round_trip
           "./training_data.jsonl" corpus_three []).
  - reflexivity.
  - vm_compute. reflexivity.
  - discriminate.
  - reflexivity.
  - intros e [<-|[<-|[<-|[]]]]; vm_compute; reflexivity.
Defined.

(** ** Remote File Stager: every wait ends *)

Lemma wait_loop_returns (svc : Service) (file_id : string) (start_time timeout : Q) :
  (forall h, 0 <= latency svc h)%Q ->
  (forall h, 0 <= sleep_extra svc h)%Q ->
  forall m fuel s,
    (m < fuel)%nat ->
    (timeout <= clock s - start_time + 5 * inject_Z (Z.of_nat m))%Q ->
    exists b s' k,
      wait_loop svc fuel file_id start_time timeout s = Done b s' /\
      (k <= m)%nat /\
      calls s' = (calls s ++ repeat (FilesRetrieve file_id) k)%list.
Proof.
  intros Hlat Hextra.
  induction m as [|m IH]; intros fuel s Hfuel Hbudget;
    (destruct fuel as [|fuel]; [lia|]);
    cbn [wait_loop]; unfold m_bind at 1, time_time;
    destruct (Qle_bool timeout (clock s - start_time)) eqn:Hcheck; cbn [negb].
  - unfold m_bind, print, m_ret. cbn [clock stdout calls].
    eexists. eexists. exists 0%nat. split; [reflexivity|]. split; [lia|].
    cbn [calls repeat]. now rewrite app_nil_r.
  - exfalso. assert (Hle : (timeout <= clock s - start_time)%Q).
    { assert (H0 : (inject_Z (Z.of_nat 0) == 0)%Q) by reflexivity. rewrite H0 in Hbudget. lra. }
    apply Qle_bool_iff in Hle. congruence.
  - unfold m_bind, print, m_ret. cbn [clock stdout calls].
    eexists. eexists. exists 0%nat. split; [reflexivity|]. split; [lia|].
    cbn [calls repeat]. now rewrite app_nil_r.
  - unfold m_bind at 1, request.
    pose proof (Hlat (calls s)) as Hl.
    pose proof (Hextra (calls s ++ [FilesRetrieve file_id])%list) as Hx.
    pose proof (inject_Z_succ m) as Hsucc.
    assert (Hnext : forall out,
      exists b s' k,
        wait_loop svc fuel file_id start_time timeout
          (mkSt (clock s + latency svc (calls s) + 5
                 + sleep_extra svc (calls s ++ [FilesRetrieve file_id]))%Q out
                (calls s ++ [FilesRetrieve file_id])%list) = Done b s' /\
        (k <= S m)%nat /\
        calls s' = (calls s ++ repeat (FilesRetrieve file_id) k)%list).
    { intros out.
      destruct (IH fuel (mkSt (clock s + latency svc (calls s) + 5
                                + sleep_extra svc (calls s ++ [FilesRetrieve file_id]))%Q out
                              (calls s ++ [FilesRetrieve file_id])%list))
        as [b [s' [k [Hrun [Hk Hc]]]]]; [lia|cbn [clock]; lra|].
      exists b, s', (S k). split; [exact Hrun|]. split; [lia|].
      rewrite Hc. cbn [calls repeat]. now rewrite <- app_assoc. }
    destruct (files_retrieve svc (calls s) file_id) as [info|e].
    + destruct (String.eqb (file_status info) "processed").
      { unfold m_bind, print, m_ret. cbn [clock stdout calls].
        eexists. eexists. exists 1%nat. split; [reflexivity|]. split; [lia|]. reflexivity. }
      destruct (String.eqb (file_status info) "error").
      { unfold m_bind, print, m_ret. cbn [clock stdout calls].
        eexists. eexists. exists 1%nat. split; [reflexivity|]. split; [lia|]. reflexivity. }
      unfold m_bind at 1, print at 1. unfold m_bind at 1, time_sleep at 1.
      cbn [clock stdout calls]. apply Hnext.
    + unfold m_bind at 1, print at 1. unfold m_bind at 1, time_sleep at 1.
      cbn [clock stdout calls]. apply Hnext.
Qed.

(** X13: whatever the service answers, a wait returns, and by then it has
    sent no more than [timeout / 5] status queries and nothing else
    (requests and sleeps take no negative time). *)
Theorem wait_for_file_processing_returns (svc : Service) (file_id : string) (timeout : Q)
    (s : St) (polls : nat) :
  (forall h, 0 <= latency svc h)%Q ->
  (forall h, 0 <= sleep_extra svc h)%Q ->
  (timeout <= 5 * inject_Z (Z.of_nat polls))%Q ->
  forall fuel, (polls < fuel)%nat ->
    exists b s' k,
      wait_for_file_processing svc fuel file_id timeout s = Done b s' /\
      (k <= polls)%nat /\
      calls s' = (calls s ++ repeat (FilesRetrieve file_id) k)%list.
Proof.
  intros Hlat Hextra Hpolls fuel Hfuel.
  unfold wait_for_file_processing, m_bind at 1, print at 1.
  unfold m_bind at 1, time_time. cbn [clock stdout calls].
  match goal with |- context [wait_loop _ _ _ ?st0 _ ?st] =>
    destruct (wait_loop_returns svc file_id st0 timeout Hlat Hextra polls fuel st Hfuel)
      as [b [s' [k Hrest]]]
  end.
  - cbn [clock stdout calls]. lra.
  - exists b, s', k. exact Hrest.
Qed.

Lemma wait_for_file_processing_returns_witness :
  exists b s' k,
    wait_for_file_processing service_failing_job 121 "file-1" 600 initial = Done b s' /\
    (k <= 120)%nat /\
    calls s' = (calls initial ++ repeat (FilesRetrieve "file-1") k)%list.
Proof.
  apply (wait_for_file_processing_returns service_failing_job "file-1" 600 initial 120).
  - intros h. cbn. lra.
  - intros h. cbn. lra.
  - vm_compute. discriminate.
  - lia.
Defined.

(** ** Remote File Stager: the file becomes ready *)

Lemma file_poll_shift (svc : Service) (h : list call) (file_id : string) (k : nat) :
  file_poll svc (h ++ [FilesRetrieve file_id]) file_id k = file_poll svc h file_id (S k).
Proof. unfold file_poll. now rewrite <- app_assoc. Qed.

Lemma wait_loop_terminal (svc : Service) (file_id : string) (start_time timeout lat ext : Q)
    (info : FileInfo) :
  (0 <= lat)%Q -> (0 <= ext)%Q ->
  (forall h, latency svc h <= lat)%Q ->
  (forall h, sleep_extra svc h <= ext)%Q ->
  keeps_waiting (Ok info) = false ->
  forall n fuel s,
    (n < fuel)%nat ->
    (clock s - start_time + inject_Z (Z.of_nat n) * (5 + lat + ext) < timeout)%Q ->
    (forall k, (k < n)%nat -> keeps_waiting (file_poll svc (calls s) file_id k) = true) ->
    file_poll svc (calls s) file_id n = Ok info ->
    exists s',
      wait_loop svc fuel file_id start_time timeout s
        = Done (String.eqb (file_status info) "processed") s' /\
      calls s' = (calls s ++ repeat (FilesRetrieve file_id) (S n))%list.
Proof.
  intros Hlat0 Hext0 Hlat Hext Hinfo.
  induction n as [|n IH]; intros fuel s Hfuel Hbudget Hbefore Hpoll;
    (destruct fuel as [|fuel]; [lia|]);
    cbn [wait_loop]; unfold m_bind at 1, time_time.
  - assert (Hcheck : Qle_bool timeout (clock s - start_time) = false).
    { destruct (Qle_bool timeout (clock s - start_time)) eqn:E; [|reflexivity].
      apply Qle_bool_iff in E.
      assert (H0 : (inject_Z (Z.of_nat 0) == 0)%Q) by reflexivity.
      rewrite H0 in Hbudget. lra. }
    rewrite Hcheck. cbn [negb]. unfold m_bind at 1, request.
    unfold file_poll in Hpoll. cbn [repeat] in Hpoll. rewrite app_nil_r in Hpoll.
    rewrite Hpoll. cbn [keeps_waiting] in Hinfo.
    destruct (String.eqb (file_status info) "processed") eqn:Ep.
    + unfold m_bind, print, m_ret. cbn [clock stdout calls].
      eexists. split; reflexivity.
    + cbn [negb andb] in Hinfo. apply negb_false_iff in Hinfo. rewrite Hinfo.
      unfold m_bind, print, m_ret. cbn [clock stdout calls].
      eexists. split; reflexivity.
  - pose proof (inject_Z_succ n) as Hsucc.
    assert (Hn : (0 <= inject_Z (Z.of_nat n))%Q).
    { unfold Qle. cbn. lia. }
    assert (Hstep : (0 <= inject_Z (Z.of_nat n) * (5 + lat + ext))%Q).
    { apply Qmult_le_0_compat; [assumption|lra]. }
    assert (Hbudget' : (clock s - start_time + inject_Z (Z.of_nat n) * (5 + lat + ext)
                        + (5 + lat + ext) < timeout)%Q).
    { rewrite Hsucc in Hbudget. lra. }
    assert (Hcheck : Qle_bool timeout (clock s - start_time) = false).
    { destruct (Qle_bool timeout (clock s - start_time)) eqn:E; [|reflexivity].
      apply Qle_bool_iff in E. lra. }
    rewrite Hcheck. cbn [negb]. unfold m_bind at 1, request.
    pose proof (Hbefore 0%nat ltac:(lia)) as H0.
    unfold file_poll in H0. cbn [repeat] in H0. rewrite app_nil_r in H0.
    pose proof (Hlat (calls s)) as Hl.
    pose proof (Hext (calls s ++ [FilesRetrieve file_id])%list) as Hx.
    assert (Hnext : forall out,
      exists s',
        wait_loop svc fuel file_id start_time timeout
          (mkSt (clock s + latency svc (calls s) + 5
                 + sleep_extra svc (calls s ++ [FilesRetrieve file_id]))%Q out
                (calls s ++ [FilesRetrieve file_id])%list)
          = Done (String.eqb (file_status info) "processed") s' /\
        calls s' = (calls s ++ repeat (FilesRetrieve file_id) (S (S n)))%list).
    { intros out.
      destruct (IH fuel (mkSt (clock s + latency svc (calls s) + 5
                                + sleep_extra svc (calls s ++ [FilesRetrieve file_id]))%Q out
                              (calls s ++ [FilesRetrieve file_id])%list))
        as [s' [Hrun Hc]].
      - lia.
      - cbn [clock]. lra.
      - intros k Hk. cbn [calls]. rewrite file_poll_shift. apply Hbefore. lia.
      - cbn [calls]. now rewrite file_poll_shift.
      - exists s'. split; [exact Hrun|]. rewrite Hc. cbn [calls]. now rewrite <- app_assoc. }
    destruct (files_retrieve svc (calls s) file_id) as [info0|e]; cbn [keeps_waiting] in H0.
    + apply andb_true_iff in H0 as [Hp He].
      apply negb_true_iff in Hp. apply negb_true_iff in He. rewrite Hp, He.
      unfold m_bind at 1, print at 1. unfold m_bind at 1, time_sleep at 1.
      cbn [clock stdout calls]. apply Hnext.
    + unfold m_bind at 1, print at 1. unfold m_bind at 1, time_sleep at 1.
      cbn [clock stdout calls]. apply Hnext.
Qed.

(** X14: when the first status that is [processed] or [error] comes at the
    query after [n] queries that showed another status or failed, and those
    [n] rounds fit in the timeout, the stager returns at that query, [True]
    for [processed] and [False] for [error], having sent [n + 1] queries. *)
Theorem wait_for_file_processing_answer (svc : Service) (file_id : string)
    (timeout lat ext : Q) (info : FileInfo) (n : nat) (s : St) :
  (0 <= lat)%Q -> (0 <= ext)%Q ->
  (forall h, latency svc h <= lat)%Q ->
  (forall h, sleep_extra svc h <= ext)%Q ->
  (inject_Z (Z.of_nat n) * (5 + lat + ext) < timeout)%Q ->
  (forall k, (k < n)%nat -> keeps_waiting (file_poll svc (calls s) file_id k) = true) ->
  file_poll svc (calls s) file_id n = Ok info ->
  keeps_waiting (Ok info) = false ->
  forall fuel, (n < fuel)%nat ->
    exists s',
      wait_for_file_processing svc fuel file_id timeout s
        = Done (String.eqb (file_status info) "processed") s' /\
      calls s' = (calls s ++ repeat (FilesRetrieve file_id) (S n))%list.
Proof.
  intros Hlat0 Hext0 Hlat Hext Hfit Hbefore Hpoll Hinfo fuel Hfuel.
  unfold wait_for_file_processing, m_bind at 1, print at 1.
  unfold m_bind at 1, time_time. cbn [clock stdout calls].
  match goal with |- context [wait_loop _ _ _ ?st0 _ ?st] =>
    destruct (wait_loop_terminal svc file_id st0 timeout lat ext info Hlat0 Hext0 Hlat Hext
                Hinfo n fuel st Hfuel) as [s' [Hrun Hc]]
  end.
  - cbn [clock]. lra.
  - exact Hbefore.
  - exact Hpoll.
  - exists s'. split; [exact Hrun|exact Hc].
Qed.

Lemma wait_for_file_processing_answer_witness :
  exists s',
    wait_for_file_processing service_failing_job 2 "file-1" 600
      (mkSt 0 [] [FilesCreate "no_system.jsonl" "fine-tune"]) = Done true s' /\
    calls s' = [ FilesCreate "no_system.jsonl" "fine-tune";
                 FilesRetrieve "file-1"; FilesRetrieve "file-1" ].
Proof.
  apply (wait_for_file_processing_answer service_failing_job "file-1" 600 1 0
           (mkFileInfo "processed" "") 1
           (mkSt 0 [] [FilesCreate "no_system.jsonl" "fine-tune"])).
  - lra.
  - lra.
  - intros h. cbn. lra.
  - intros h. cbn. lra.
  - vm_compute. reflexivity.
  - intros k Hk. destruct k as [|k]; [reflexivity|lia].
  - reflexivity.
  - reflexivity.
  - lia.
Defined.

(** ** The run of [main] *)

Lemma nonempty_some (k : string) : k <> ""%string -> nonempty (Some k) = Some k.
Proof.
  intros Hk. unfold nonempty. destruct (String.eqb k "") eqn:E; [|reflexivity].
  apply String.eqb_eq in E. contradiction.
Qed.

Lemma upload_file_answer (svc : Service) (file_path purpose : string) (s : St)
    (lines : list string) :
  read_lines svc file_path = Ok lines ->
  exists s',
    upload_file svc file_path purpose s
      = Done match files_create svc (calls s) file_path purpose with
             | Ok file_id => Some file_id
             | Raise _ => None
             end s' /\
    calls s' = (calls s ++ [FilesCreate file_path purpose])%list.
Proof.
  intros Hread. unfold upload_file.
  assert (Hopen : open_binary svc file_path = Ok tt).
  { unfold read_lines in Hread.
    destruct (open_binary svc file_path) as [[]|e]; [reflexivity|discriminate Hread]. }
  rewrite Hopen.
  unfold m_bind at 1, print at 1. unfold m_bind at 1, request. cbn [clock stdout calls].
  destruct (files_create svc (calls s) file_path purpose) as [file_id|e];
    unfold m_bind, print, m_ret; cbn [clock stdout calls];
    eexists; split; reflexivity.
Qed.

Lemma create_fine_tuning_job_answer (svc : Service) (args : Args) (training_file_id : string)
    (s : St) :
  exists s',
    create_fine_tuning_job svc args training_file_id None s
      = Done match jobs_create svc (calls s) (job_params args training_file_id) with
             | Ok job_id => Some job_id
             | Raise _ => None
             end s' /\
    calls s' = (calls s ++ [JobsCreate (job_params args training_file_id)])%list.
Proof.
  unfold create_fine_tuning_job. fold (job_params args training_file_id).
  unfold m_bind at 1, print at 1. unfold m_bind at 1, request. cbn [clock stdout calls].
  destruct (jobs_create svc (calls s) (job_params args training_file_id)) as [job_id|e];
    unfold m_bind, print, m_ret; cbn [clock stdout calls];
    eexists; split; reflexivity.
Qed.

(** X15: without a key on the command line and in the environment, [main]
    leaves with status 1 having printed the one error line; it validates
    nothing and sends nothing. *)
Theorem main_without_key (svc : Service) (fuel : nat) (args : Args) (s : St) :
  api_key args = None \/ api_key args = Some ""%string ->
  environ_api_key svc = None \/ environ_api_key svc = Some ""%string ->
  main svc fuel args s
  = Exited 1
      (mkSt (clock s)
            (stdout s ++ ["Error: OpenAI API key not provided. Set the OPENAI_API_KEY environment variable or use --api-key"])%list
            (calls s)).
Proof.
  intros [Ha|Ha] [He|He]; unfold main; rewrite Ha, He; reflexivity.
Qed.

Lemma main_without_key_witness :
  exists s',
    main service_failing_job 5 args_submit initial = Exited 1 s' /\
    calls s' = [] /\ List.length (stdout s') = 1%nat.
Proof.
  rewrite (main_without_key service_failing_job 5 args_submit initial).
  - eexists. repeat split.
  - left. reflexivity.
  - left. reflexivity.
Defined.

(** X16: when the training file fails validation, or when it passes and the
    validation file fails, [main] leaves with status 1 before any request
    is sent. *)
Theorem main_stops_on_invalid_file (svc : Service) (fuel : nat) (args : Args) (s : St) :
  fst (validate_jsonl svc (training_file args) (stdout s)) = false \/
  (exists v, validation_file args = Some v /\ v <> ""%string /\
             forall out, fst (validate_jsonl svc v out) = false) ->
  exists s', main svc fuel args s = Exited 1 s' /\ calls s' = calls s.
Proof.
  intros Hbad. unfold main.
  destruct (nonempty match nonempty (api_key args) with
                     | Some k => Some k
                     | None => environ_api_key svc
                     end) as [key|].
  2: { cbn. eexists. split; reflexivity. }
  unfold m_bind at 1, run_validate.
  destruct (validate_jsonl svc (training_file args) (stdout s)) as [b out1] eqn:Hv.
  destruct b.
  - destruct Hbad as [Hbad|[v [Hvf [Hne Hbad]]]]; [discriminate Hbad|].
    cbn [negb]. unfold m_bind at 1, m_ret at 1.
    rewrite Hvf, (nonempty_some v Hne).
    unfold m_bind at 1. unfold m_bind at 1, run_validate. cbn [clock stdout calls].
    specialize (Hbad out1).
    destruct (validate_jsonl svc v out1) as [b2 out2]. cbn [fst] in Hbad. subst b2.
    cbn. eexists. split; reflexivity.
  - cbn. eexists. split; reflexivity.
Qed.

Lemma main_stops_on_invalid_file_witness :
  exists s',
    main service_with_corpus 5 args_with_validation initial = Exited 1 s' /\
    calls s' = calls initial.
Proof.
  apply (main_stops_on_invalid_file service_with_corpus 5 args_with_validation initial).
  right. exists "two_users.jsonl"%string. split; [reflexivity|]. split; [discriminate|].
  intros out. vm_compute. reflexivity.
Defined.

(** X17: a rejected upload of the training file is fatal and is not tried
    again: [main] leaves with status 1 after that one request. *)
Theorem main_upload_rejected (svc : Service) (fuel : nat) (args : Args) (s : St)
    (key : string) (e : exn) :
  api_key args = Some key -> key <> ""%string ->
  validation_file args = None ->
  fst (validate_jsonl svc (training_file args) (stdout s)) = true ->
  files_create svc (calls s) (training_file args) "fine-tune" = Raise e ->
  exists s',
    main svc fuel args s = Exited 1 s' /\
    calls s' = (calls s ++ [FilesCreate (training_file args) "fine-tune"])%list.
Proof.
  intros Hkey Hne Hvf Hvalid Hcreate.
  destruct (validate_jsonl_true_inv _ _ _ Hvalid) as [lines [Hread _]].
  unfold main. rewrite Hkey, !(nonempty_some key Hne).
  unfold m_bind at 1, run_validate.
  destruct (validate_jsonl svc (training_file args) (stdout s)) as [b out1].
  cbn [fst] in Hvalid. subst b. cbn [negb].
  unfold m_bind at 1, m_ret at 1. rewrite Hvf. cbn [nonempty].
  unfold m_bind at 1, m_ret at 1. unfold m_bind at 1.
  match goal with |- context [upload_file svc ?f ?p ?st] =>
    destruct (upload_file_answer svc f p st lines Hread) as [s1 [Hup Hc1]]
  end.
  cbn [calls] in Hup, Hc1. rewrite Hcreate in Hup. rewrite Hup. cbn [nonempty].
  unfold m_bind, print, sys_exit. cbn [calls]. eexists. split; [reflexivity|exact Hc1].
Qed.

Lemma main_upload_rejected_witness :
  exists s',
    main service_rejecting_upload 5 args_with_key initial = Exited 1 s' /\
    calls s' = [FilesCreate "no_system.jsonl" "fine-tune"].
Proof.
  apply (main_upload_rejected service_rejecting_upload 5 args_with_key initial
           "sk-live" APIError).
  - reflexivity.
  - discriminate.
  - reflexivity.
  - vm_compute. reflexivity.
  - reflexivity.
Defined.

(** X18: with a key, a valid training file and no validation file, when the
    upload is accepted, the file is [processed] at the first query and the
    job is created, [main] sends the upload, the status query, the job
    creation with the hyperparameters as given, and then polls the job; it
    ends normally at the first terminal status, also when that status is
    [failed] or [cancelled]. *)
Theorem main_runs_to_terminal_status (svc : Service) (fuel : nat) (args : Args) (s : St)
    (key file_id job_id : string) (file_info : FileInfo) (job_info : JobInfo) (n : nat) :
  api_key args = Some key -> key <> ""%string ->
  validation_file args = None ->
  fst (validate_jsonl svc (training_file args) (stdout s)) = true ->
  let upload := FilesCreate (training_file args) "fine-tune" in
  let create := JobsCreate (job_params args file_id) in
  let h := (calls s ++ [upload; FilesRetrieve file_id; create])%list in
  files_create svc (calls s) (training_file args) "fine-tune" = Ok file_id ->
  file_id <> ""%string ->
  files_retrieve svc (calls s ++ [upload])%list file_id = Ok file_info ->
  file_status file_info = "processed"%string ->
  jobs_create svc (calls s ++ [upload; FilesRetrieve file_id])%list (job_params args file_id)
    = Ok job_id ->
  job_id <> ""%string ->
  (forall k, (k < n)%nat -> keeps_polling (job_poll svc h job_id k) = true) ->
  job_poll svc h job_id n = Ok job_info ->
  is_terminal (job_status job_info) = true ->
  (n < fuel)%nat ->
  exists s',
    main svc fuel args s = Done tt s' /\
    calls s' = (h ++ repeat (JobsRetrieve job_id) (S n))%list.
Proof.
  intros Hkey Hne Hvf Hvalid upload create h Hcreate Hfid Hretr Hproc Hjob Hjid
         Hbefore Hpoll Hterm Hfuel.
  destruct (validate_jsonl_true_inv _ _ _ Hvalid) as [lines [Hread _]].
  unfold main. rewrite Hkey, !(nonempty_some key Hne).
  unfold m_bind at 1, run_validate.
  destruct (validate_jsonl svc (training_file args) (stdout s)) as [b out1].
  cbn [fst] in Hvalid. subst b. cbn [negb].
  unfold m_bind at 1, m_ret at 1. rewrite Hvf. cbn [nonempty].
  unfold m_bind at 1, m_ret at 1. unfold m_bind at 1.
  match goal with |- context [upload_file svc ?f ?p ?st] =>
    destruct (upload_file_answer svc f p st lines Hread) as [s1 [Hup Hc1]]
  end.
  cbn [calls] in Hup, Hc1. rewrite Hcreate in Hup. rewrite Hup.
  rewrite (nonempty_some file_id Hfid).
  (* the wait *)
  destruct fuel as [|fuel']; [lia|].
  unfold m_bind at 1, wait_for_file_processing.
  unfold m_bind at 1, print at 1. unfold m_bind at 1, time_time. cbn [clock stdout calls].
  cbn [wait_loop]. unfold m_bind at 1, time_time. cbn [clock stdout calls].
  assert (Hcheck : Qle_bool 600 (clock s1 - clock s1) = false).
  { destruct (Qle_bool 600 (clock s1 - clock s1)) eqn:E; [|reflexivity].
    apply Qle_bool_iff in E. lra. }
  rewrite Hcheck. cbn [negb]. unfold m_bind at 1, request. cbn [clock stdout calls].
  rewrite Hc1. fold upload. rewrite Hretr, Hproc.
  cbn [String.eqb Ascii.eqb Bool.eqb].
  unfold m_bind at 1, print at 1. unfold m_ret at 1. cbn [clock stdout calls negb].
  unfold m_bind at 1, m_ret at 1. unfold m_bind at 1, m_ret at 1.
  (* the job *)
  unfold m_bind at 1.
  match goal with |- context [create_fine_tuning_job svc args file_id None ?st] =>
    destruct (create_fine_tuning_job_answer svc args file_id st) as [s2 [Hcj Hc2]];
    assert (Hst : calls st = (calls s ++ [upload; FilesRetrieve file_id])%list)
      by (cbn [calls]; rewrite <- app_assoc; reflexivity);
    rewrite Hst in Hcj, Hc2
  end.
  rewrite Hjob in Hcj. rewrite Hcj.
  rewrite (nonempty_some job_id Hjid).
  unfold m_bind at 1, monitor_fine_tuning_job. unfold m_bind at 1, print at 1.
  assert (Hh : calls s2 = h).
  { rewrite Hc2. subst h. rewrite <- app_assoc. reflexivity. }
  match goal with |- context [monitor_loop svc ?f ?j ?i ?st] =>
    destruct (monitor_loop_terminal svc j i job_info Hterm n st f) as [s3 [Hmon [Hc3 _]]]
  end.
  - cbn [calls]. rewrite Hh. exact Hbefore.
  - cbn [calls]. rewrite Hh. exact Hpoll.
  - exact Hfuel.
  - rewrite Hmon. unfold m_ret. exists s3. split; [reflexivity|].
    rewrite Hc3. cbn [calls]. now rewrite Hh.
Qed.

Lemma main_runs_to_terminal_status_witness :
  exists s',
    main service_cancelled_job 2 args_with_key initial = Done tt s' /\
    calls s' = [ FilesCreate "no_system.jsonl" "fine-tune";
                 FilesRetrieve "file-1";
                 JobsCreate (mkJobParams "file-1" "gpt-4o" "surgical-instruments" 3 1 1 None);
                 JobsRetrieve "ftjob-1"; JobsRetrieve "ftjob-1" ].
Proof.
  apply (main_runs_to_terminal_status service_cancelled_job 2 args_with_key initial
           "sk-live" "file-1" "ftjob-1" (mkFileInfo "processed" "")
           (mkJobInfo "cancelled" None None []) 1).
  - reflexivity.
  - discriminate.
  - reflexivity.
  - vm_compute. reflexivity.
  - reflexivity.
  - discriminate.
  - reflexivity.
  - reflexivity.
  - reflexivity.
  - discriminate.
  - intros k Hk. destruct k as [|k]; [reflexivity|lia].
  - reflexivity.
  - reflexivity.
  - lia.
Defined.

(** * Further properties: remaining functions *)

(** X19: in a live run a file that PIL cannot open is a failed item: the
    worker returns [None], whatever the endpoint would answer. *)
Theorem upload_image_unreadable (w : World) (args : Prepare.Args) (image_path : string)
    (e : exn) :
  dry_run args = false ->
  Prepare.Image_open w image_path = Raise e ->
  resize_image (Prepare.Image_open w) image_path (resize args) = None /\
  upload_image w args image_path = Ok None.
Proof.
  intros Hdry Hopen.
  assert (H : resize_image (Prepare.Image_open w) image_path (resize args) = None).
  { unfold resize_image, resize_image_body. now rewrite Hopen. }
  split; [exact H|]. unfold upload_image. now rewrite Hdry, H.
Qed.

Lemma upload_image_unreadable_witness :
  resize_image (Prepare.Image_open world_mixed) "photos/broken.jpg" (resize args_mixed) = None /\
  upload_image world_mixed args_mixed "photos/broken.jpg" = Ok None.
Proof.
  apply (upload_image_unreadable world_mixed args_mixed "photos/broken.jpg" OSError);
    reflexivity.
Defined.

(** X20: the label and the whole record are made from the base name of the
    path: the directories above the file, whatever they are called, do not
    count. *)
Theorem create_training_example_by_name (dir name : string) (u : Json) :
  has_slash name = false ->
  create_training_example (dir ++ "/" ++ name) u = create_training_example name u.
Proof.
  intros Hname. unfold create_training_example.
  rewrite basename_join by assumption.
  assert (Hb : basename name = name).
  { clear -Hname. destruct name as [|c rest]; [reflexivity|].
    cbn [basename]. cbn [has_slash] in Hname.
    apply orb_false_iff in Hname as [Hc Hrest]. now rewrite Hrest, Hc. }
  now rewrite Hb.
Qed.

Lemma create_training_example_by_name_witness :
  create_training_example ("photos/Adson brown 1" ++ "/" ++ "IMG_1.jpg") (JStr "u")
  = create_training_example "IMG_1.jpg" (JStr "u") /\
  get_instrument_category "IMG_1.jpg" = "Unknown".
Proof.
  split; [|reflexivity].
  apply (create_training_example_by_name "photos/Adson brown 1" "IMG_1.jpg" (JStr "u")).
  reflexivity.
Defined.

(** ** The pace of the job monitor *)




